(** * SENTINELX: behavioural trust engine, verified against its specification

    A shallow embedding of the Python sources under [backend/]:
    - [database/models.py], [database/db.py]   (module [Db])
    - [ml/predict.py]                          (module [Predict])
    - [trust/trust_engine.py]                  (module [TrustEngine])
    - [auth/verify.py]                         (module [Verify])
    - [ml/train_model.py]                      (module [TrainModel])
    - [behavior/mouse.py]                      (module [Mouse])

    Python floats are embedded as rationals [Q]: every formula of the
    sources is a rational expression of its inputs, so the embedding is
    the exact-arithmetic reading of the code (no rounding, no NaN, no
    infinities).  Equalities between scores are stated with [==].
    Datetimes are rationals counting seconds; [datetime.utcnow()] is an
    explicit argument of each operation that reads the clock. *)

From Stdlib Require Import QArith Qabs ZArith List String Bool Lia Lqa.
From Stdlib Require Import DecimalString Sorted.
Import ListNotations.
Open Scope Q_scope.

(* ===================================================================== *)
(** * Part I: definitions                                                 *)
(* ===================================================================== *)

(** ** Exceptions *)

(** Exceptions raised in the sources. *)
Inductive exception : Type :=
| ValueError (msg : string)
| IndexError (msg : string)
| IntegrityError (msg : string)
| LibraryError (msg : string)
| HTTPException (status_code : Z) (detail : string).

(** A computation that returns or raises. *)
Inductive exn (A : Type) : Type :=
| Ok (a : A)
| Raise (e : exception).
Arguments Ok {A} a.
Arguments Raise {A} e.

(** [str(e)] *)
Definition str (e : exception) : string :=
  match e with
  | ValueError m | IndexError m | IntegrityError m | LibraryError m => m
  | HTTPException _ d => d
  end.

(** ** Python built-ins and numpy reductions used by the sources *)

Module Py.

(** [max(a, b)]: the first argument wins ties. *)
Definition max (a b : Q) : Q := if Qle_bool b a then a else b.

(** [min(a, b)]: the first argument wins ties. *)
Definition min (a b : Q) : Q := if Qle_bool a b then a else b.

(** [a < b] on floats. *)
Definition ltb (a b : Q) : bool := negb (Qle_bool b a).

(** [sum(l)] *)
Definition sum (l : list Q) : Q := fold_left Qplus l 0.

(** [len(l)] as a float. *)
Definition len {A : Type} (l : list A) : Q :=
  inject_Z (Z.of_nat (List.length l)).

(** [np.mean(l)]; the sources call it on non-empty lists only (numpy
    answers NaN on the empty list, the rational quotient is 0 there). *)
Definition mean (l : list Q) : Q := sum l / len l.

(** [np.var(l)]: population variance, the mean of the squared deviations. *)
Definition var (l : list Q) : Q :=
  let m := mean l in mean (map (fun x => (x - m) * (x - m)) l).

(** [str(n)] of an integer, as an f-string prints it. *)
Definition str_of_int (n : Z) : string := NilEmpty.string_of_int (Z.to_int n).

(** [clamp(x, lo, hi)] as the specification writes it. *)
Definition clamp (x lo hi : Q) : Q :=
  if ltb x lo then lo else if ltb hi x then hi else x.

(** A Python [dict] with string keys, in insertion order. *)
Definition dict (V : Type) : Type := list (string * V).

(** [d[k] = v]: an existing key keeps its position, a new key goes last. *)
Fixpoint dict_set {V : Type} (d : dict V) (k : string) (v : V) : dict V :=
  match d with
  | [] => [(k, v)]
  | (k', v') :: rest =>
      if String.eqb k' k then (k, v) :: rest else (k', v') :: dict_set rest k v
  end.

(** [d.get(k)] *)
Fixpoint dict_get {V : Type} (d : dict V) (k : string) : option V :=
  match d with
  | [] => None
  | (k', v) :: rest => if String.eqb k' k then Some v else dict_get rest k
  end.

(** [list(d.values())] *)
Definition values {V : Type} (d : dict V) : list V := map snd d.

(** [list(d.keys())] *)
Definition keys {V : Type} (d : dict V) : list string := map fst d.

(** [l.count(x)] on a list of integers. *)
Definition count (l : list Z) (x : Z) : nat :=
  List.length (filter (fun y => Z.eqb y x) l).

End Py.

(** ** database/models.py and database/db.py *)

Module Db.

(** A row of [user_sessions].  Every row is inserted by [create_session],
    which leaves the trust scores, the two timestamps and [is_active] to
    their column defaults, so these columns are never NULL. *)
Record UserSession : Type := {
  id : Z;
  user_id : Z;
  session_token : string;
  initial_trust_score : Q;
  current_trust_score : Q;
  min_trust_threshold : Q;
  ip_address : option string;
  user_agent : option string;
  login_time : Q;
  last_activity : Q;
  is_active : bool
}.

(** A row of [behavioral_events] (the JSON payload columns are carried as
    opaque strings). *)
Record BehavioralEvent : Type := {
  event_id : Z;
  session_id : Z;
  event_type : string;
  event_data : string;
  processed_features : string;
  is_anomalous : bool;
  timestamp : Q
}.

(** The committed contents of the two tables, in row order. *)
Record store : Type := {
  user_sessions : list UserSession;
  behavioral_events : list BehavioralEvent
}.

Definition set_current_trust_score (s : UserSession) (v : Q) : UserSession :=
  {| id := id s; user_id := user_id s; session_token := session_token s;
     initial_trust_score := initial_trust_score s; current_trust_score := v;
     min_trust_threshold := min_trust_threshold s; ip_address := ip_address s;
     user_agent := user_agent s; login_time := login_time s;
     last_activity := last_activity s; is_active := is_active s |}.

Definition set_last_activity (s : UserSession) (t : Q) : UserSession :=
  {| id := id s; user_id := user_id s; session_token := session_token s;
     initial_trust_score := initial_trust_score s;
     current_trust_score := current_trust_score s;
     min_trust_threshold := min_trust_threshold s; ip_address := ip_address s;
     user_agent := user_agent s; login_time := login_time s;
     last_activity := t; is_active := is_active s |}.

Definition set_is_active (s : UserSession) (b : bool) : UserSession :=
  {| id := id s; user_id := user_id s; session_token := session_token s;
     initial_trust_score := initial_trust_score s;
     current_trust_score := current_trust_score s;
     min_trust_threshold := min_trust_threshold s; ip_address := ip_address s;
     user_agent := user_agent s; login_time := login_time s;
     last_activity := last_activity s; is_active := b |}.

(** [db.query(UserSession).filter(UserSession.id == sid).first()] *)
Definition session_by_id (st : store) (sid : Z) : option UserSession :=
  find (fun s => Z.eqb (id s) sid) (user_sessions st).

(** Attribute writes on the ORM object of row [sid] followed by
    [db.commit()]: the row with that primary key is rewritten by [f]. *)
Definition commit_session (st : store) (sid : Z)
  (f : UserSession -> UserSession) : store :=
  {| user_sessions :=
       map (fun s => if Z.eqb (id s) sid then f s else s) (user_sessions st);
     behavioral_events := behavioral_events st |}.

(** Insertion sort used for [order_by]. *)
Fixpoint insert_by {A : Type} (le : A -> A -> bool) (x : A) (l : list A)
  : list A :=
  match l with
  | [] => [x]
  | y :: rest => if le x y then x :: l else y :: insert_by le x rest
  end.

Definition sort_by {A : Type} (le : A -> A -> bool) (l : list A) : list A :=
  fold_right (insert_by le) [] l.

(** Fresh primary key: one more than the largest key in the table. *)
Definition next_id (ids : list Z) : Z := (fold_right Z.max 0%Z ids + 1)%Z.

(** [DatabaseOperations.create_session]: the token column is UNIQUE, so a
    token already present makes the commit raise and nothing is stored. *)
Definition create_session (st : store) (uid : Z) (tok : string)
  (ip ua : option string) (now : Q) : exn UserSession * store :=
  if existsb (fun s => String.eqb (session_token s) tok) (user_sessions st)
  then (Raise (IntegrityError "UNIQUE constraint failed: user_sessions.session_token"), st)
  else
    let s := {| id := next_id (map id (user_sessions st)); user_id := uid;
                session_token := tok; initial_trust_score := 1;
                current_trust_score := 1; min_trust_threshold := 0.3;
                ip_address := ip; user_agent := ua; login_time := now;
                last_activity := now; is_active := true |} in
    (Ok s, {| user_sessions := user_sessions st ++ [s];
              behavioral_events := behavioral_events st |}).

(** [DatabaseOperations.get_active_session] *)
Definition get_active_session (st : store) (tok : string)
  : option UserSession :=
  find (fun s => String.eqb (session_token s) tok && Bool.eqb (is_active s) true)
       (user_sessions st).

(** [DatabaseOperations.update_trust_score] *)
Definition update_trust_score (st : store) (sid : Z) (new_trust_score : Q)
  : option UserSession * store :=
  match session_by_id st sid with
  | Some s =>
      (Some (set_current_trust_score s new_trust_score),
       commit_session st sid (fun s => set_current_trust_score s new_trust_score))
  | None => (None, st)
  end.

(** [db.add(BehavioralEvent(...)); db.commit()] of the two ingestion
    routes. *)
Definition add_event (st : store) (sid : Z) (kind data feats : string)
  (ts : Q) : store :=
  {| user_sessions := user_sessions st;
     behavioral_events :=
       behavioral_events st ++
       [{| event_id := next_id (map event_id (behavioral_events st));
           session_id := sid; event_type := kind; event_data := data;
           processed_features := feats; is_anomalous := false;
           timestamp := ts |}] |}.

End Db.

(** ** ml/predict.py *)

Module Predict.

(** A fitted scikit-learn detector, as the predictor uses it:
    [decision_function(X)[0]] and [predict(X)[0]], each of which may
    raise. *)
Record sk_model : Type := {
  decision_function : list Q -> exn Q;
  predict : list Q -> exn Z
}.

(** A fitted [StandardScaler]: [transform] may raise (shape mismatch). *)
Record sk_scaler : Type := {
  transform : list Q -> exn (list Q)
}.

(** What [load_user_model] keeps of a bundle. *)
Record model_data : Type := {
  models : Py.dict sk_model;
  scaler : sk_scaler;
  feature_importance : Py.dict Q
}.

(** What is found at [user_<uid>_model.pkl]: a file [joblib.load] cannot
    turn into a bundle, or a bundle. *)
Inductive pickle : Type :=
| Corrupt
| Bundle (d : model_data).

(** The model files on disk, by user id ([None]: no such file). *)
Definition model_files : Type := Z -> option pickle.

(** [joblib.dump(d, f"user_{uid}_model.pkl")] *)
Definition dump (files : model_files) (uid : Z) (d : model_data)
  : model_files :=
  fun u => if Z.eqb u uid then Some (Bundle d) else files u.

(** [self.loaded_models], keyed by user id. *)
Definition cache : Type := list (Z * model_data).

Fixpoint cache_get (c : cache) (uid : Z) : option model_data :=
  match c with
  | [] => None
  | (u, d) :: rest => if Z.eqb u uid then Some d else cache_get rest uid
  end.

Fixpoint cache_set (c : cache) (uid : Z) (d : model_data) : cache :=
  match c with
  | [] => [(uid, d)]
  | (u, d') :: rest =>
      if Z.eqb u uid then (uid, d) :: rest else (u, d') :: cache_set rest uid d
  end.

(** [FeatureEngineer]: the per-session aggregation of
    [behavior/features.py] past its first test, as a function of the
    session's events in timestamp order; it may raise (JSON decoding). *)
Record FeatureEngineer : Type := {
  session_features : list Db.BehavioralEvent -> exn (Py.dict Q)
}.

(** [FeatureEngineer.extract_session_features] *)
Definition extract_session_features (fe : FeatureEngineer) (st : Db.store)
  (session_id : Z) : exn (Py.dict Q) :=
  let events :=
    Db.sort_by (fun a b => Qle_bool (Db.timestamp a) (Db.timestamp b))
      (filter (fun e => Z.eqb (Db.session_id e) session_id)
              (Db.behavioral_events st)) in
  match events with
  | [] => Ok []
  | _ => session_features fe events
  end.

(** [FeatureEngineer._get_expected_feature_names] *)
Definition _get_expected_feature_names : list string :=
  [ "ks_avg_dwell_time_mean"; "ks_avg_dwell_time_std";
    "ks_avg_flight_time_mean"; "ks_typing_rhythm_variance_mean";
    "ks_pressure_consistency_mean"; "ks_dwell_consistency";
    "ks_flight_consistency"; "ks_rhythm_stability";
    "ms_velocity_mean_mean"; "ms_velocity_mean_std";
    "ms_path_efficiency_mean"; "ms_movement_smoothness_mean";
    "ms_click_precision_mean"; "ms_velocity_consistency";
    "ms_smoothness_consistency";
    "temporal_avg_interval"; "temporal_std_interval"; "temporal_event_rate";
    "activity_uniformity"; "activity_peak_ratio";
    "cross_ks_ms_ratio"; "cross_temporal_correlation";
    "multitask_switch_rate" ]%string.

(** [FeatureEngineer.create_feature_vector] *)
Definition create_feature_vector (features_dict : Py.dict Q) : list Q :=
  map (fun feature_name =>
         match Py.dict_get features_dict feature_name with
         | Some value => value
         | None => 0
         end)
      _get_expected_feature_names.

(** The result dictionary of [predict_anomaly]. *)
Record feature_report : Type := {
  anomalous_features : list (string * Q * Q);
  total_features_analyzed : nat;
  top_important_features : list string
}.

Record prediction : Type := {
  anomaly_score : Q;
  risk_level : string;
  confidence : Q;
  message : option string;
  model_scores : Py.dict Q;
  feature_analysis : option feature_report
}.

(** [self.thresholds] *)
Definition low_risk : Q := 0.3.
Definition medium_risk : Q := 0.6.
Definition high_risk : Q := 0.8.

(** [self.model_weights.get(model_name, 0.33)] *)
Definition model_weight (model_name : string) : Q :=
  if String.eqb model_name "isolation_forest" then 0.4
  else if String.eqb model_name "one_class_svm" then 0.3
  else if String.eqb model_name "local_outlier_factor" then 0.3
  else 0.33.

(** [RealTimePredictor.load_user_model] *)
Definition load_user_model (loaded_models : cache) (files : model_files)
  (user_id : Z) : bool * cache :=
  match cache_get loaded_models user_id with
  | Some _ => (true, loaded_models)
  | None =>
      match files user_id with
      | Some (Bundle d) => (true, cache_set loaded_models user_id d)
      | Some Corrupt => (false, loaded_models)
      | None => (false, loaded_models)
      end
  end.

(** [RealTimePredictor._normalize_anomaly_score] *)
Definition _normalize_anomaly_score (score : Q) (model_name : string) : Q :=
  let normalized :=
    if String.eqb model_name "isolation_forest" then
      Py.max 0 ((0.5 - score) / 1)
    else if String.eqb model_name "one_class_svm" then
      Py.max 0 ((2 - score) / 4)
    else if String.eqb model_name "local_outlier_factor" then
      Py.max 0 (Py.min 1 ((- score - 1) / 2))
    else
      Py.max 0 (Py.min 1 ((1 - score) / 2)) in
  Py.min 1 (Py.max 0 normalized).

(** [RealTimePredictor._determine_risk_level] *)
Definition _determine_risk_level (anomaly_score : Q) : string :=
  if Qle_bool high_risk anomaly_score then "high_risk"
  else if Qle_bool medium_risk anomaly_score then "medium_risk"
  else if Qle_bool low_risk anomaly_score then "low_risk"
  else "normal".

(** [RealTimePredictor._calculate_confidence] *)
Definition _calculate_confidence (scores : Py.dict Q)
  (predictions : Py.dict Z) : exn Q :=
  if (List.length scores <? 2)%nat then Ok 0.5
  else
    let pred_values := Py.values predictions in
    match pred_values with
    | [] => Raise (IndexError "list index out of range")
    | first :: _ =>
        let agreement_ratio :=
          inject_Z (Z.of_nat (Py.count pred_values first)) / Py.len pred_values in
        let score_values := Py.values scores in
        let score_variance := Py.var score_values in
        let consistency := 1 / (1 + score_variance) in
        let confidence := agreement_ratio * 0.6 + consistency * 0.4 in
        Ok (Py.min 1 (Py.max 0 confidence))
    end.

(** [RealTimePredictor._analyze_anomalous_features] *)
Definition _analyze_anomalous_features (current_features : Py.dict Q)
  (feature_importance : Py.dict Q) : feature_report :=
  let top_features := firstn 10 feature_importance in
  {| anomalous_features :=
       flat_map
         (fun '(feature_name, importance) =>
            match Py.dict_get current_features feature_name with
            | Some value =>
                if Py.ltb 2 (Qabs value)
                then [(feature_name, value, importance)] else []
            | None => []
            end)
         top_features;
     total_features_analyzed := List.length current_features;
     top_important_features := firstn 5 (Py.keys top_features) |}.

(** The ensemble loop of [predict_anomaly]: a detector whose
    [decision_function] or [predict] raises is skipped. *)
Fixpoint ensemble_loop (ms : Py.dict sk_model) (X_scaled : list Q)
  (ensemble_scores : Py.dict Q) (ensemble_predictions : Py.dict Z)
  : Py.dict Q * Py.dict Z :=
  match ms with
  | [] => (ensemble_scores, ensemble_predictions)
  | (model_name, model) :: rest =>
      match decision_function model X_scaled, predict model X_scaled with
      | Ok score, Ok prediction =>
          ensemble_loop rest X_scaled
            (Py.dict_set ensemble_scores model_name score)
            (Py.dict_set ensemble_predictions model_name prediction)
      | _, _ => ensemble_loop rest X_scaled ensemble_scores ensemble_predictions
      end
  end.

(** The weighting loop of [predict_anomaly]:
    [(weighted_score, total_weight)]. *)
Fixpoint weighting_loop (ensemble_scores : Py.dict Q)
  (weighted_score total_weight : Q) : Q * Q :=
  match ensemble_scores with
  | [] => (weighted_score, total_weight)
  | (model_name, score) :: rest =>
      let weight := model_weight model_name in
      let normalized_score := _normalize_anomaly_score score model_name in
      weighting_loop rest (weighted_score + normalized_score * weight)
        (total_weight + weight)
  end.

(** The [try] block of [predict_anomaly]. *)
Definition predict_anomaly_try (fe : FeatureEngineer)
  (loaded_models : cache) (st : Db.store) (user_id session_id : Z)
  : exn prediction :=
  match extract_session_features fe st session_id with
  | Raise e => Raise e
  | Ok [] =>
      Ok {| anomaly_score := 0; risk_level := "insufficient_data";
            confidence := 0; message := Some "Insufficient behavioral data"%string;
            model_scores := []; feature_analysis := None |}
  | Ok features =>
      let feature_vector := create_feature_vector features in
      match cache_get loaded_models user_id with
      | None => Raise (LibraryError "KeyError")
      | Some user_models =>
          match transform (scaler user_models) feature_vector with
          | Raise e => Raise e
          | Ok X_scaled =>
              let '(ensemble_scores, ensemble_predictions) :=
                ensemble_loop (models user_models) X_scaled [] [] in
              match ensemble_scores with
              | [] =>
                  Ok {| anomaly_score := 0; risk_level := "error";
                        confidence := 0;
                        message := Some "All models failed to predict"%string;
                        model_scores := []; feature_analysis := None |}
              | _ =>
                  let '(weighted_score, total_weight) :=
                    weighting_loop ensemble_scores 0 0 in
                  let final_anomaly_score :=
                    if Py.ltb 0 total_weight
                    then weighted_score / total_weight else 0 in
                  let risk_level := _determine_risk_level final_anomaly_score in
                  match _calculate_confidence ensemble_scores
                          ensemble_predictions with
                  | Raise e => Raise e
                  | Ok confidence =>
                      Ok {| anomaly_score := final_anomaly_score;
                            risk_level := risk_level;
                            confidence := confidence;
                            message := None;
                            model_scores := ensemble_scores;
                            feature_analysis :=
                              Some (_analyze_anomalous_features features
                                      (feature_importance user_models)) |}
                  end
              end
          end
      end
  end.

(** [RealTimePredictor.predict_anomaly]: the result dictionary and the
    predictor's cache after the call. *)
Definition predict_anomaly (fe : FeatureEngineer) (loaded_models : cache)
  (files : model_files) (st : Db.store) (user_id session_id : Z)
  : prediction * cache :=
  let '(loaded, loaded_models') :=
    load_user_model loaded_models files user_id in
  if negb loaded then
    ({| anomaly_score := 0; risk_level := "unknown"; confidence := 0;
        message := Some "No trained model available"%string;
        model_scores := []; feature_analysis := None |}, loaded_models')
  else
    match predict_anomaly_try fe loaded_models' st user_id session_id with
    | Ok result => (result, loaded_models')
    | Raise e =>
        ({| anomaly_score := 0; risk_level := "error"; confidence := 0;
            message := Some ("Prediction error: " ++ str e)%string;
            model_scores := []; feature_analysis := None |}, loaded_models')
    end.

(** Every cached bundle was read from a bundle file that is still on
    disk: the cache is filled by [load_user_model] alone and no
    operation removes a bundle file. *)
Definition cache_from_disk (loaded_models : cache) (files : model_files)
  : Prop :=
  forall uid d, cache_get loaded_models uid = Some d ->
                exists d', files uid = Some (Bundle d').

(** The number of detectors sharing the majority prediction. *)
Definition majority_count (pred_values : list Z) : nat :=
  fold_right Nat.max 0%nat (map (Py.count pred_values) pred_values).

(** The confidence as the specification words it, for at least two
    detectors: 0.6 times the fraction of detectors sharing the majority
    prediction sign plus 0.4 times [1 / (1 + Var(raw scores))], clamped
    to the unit interval. *)
Definition spec_confidence (scores : Py.dict Q) (predictions : Py.dict Z)
  : Q :=
  let pred_values := Py.values predictions in
  Py.clamp
    (0.6 * (inject_Z (Z.of_nat (majority_count pred_values)) / Py.len pred_values)
     + 0.4 * (1 / (1 + Py.var (Py.values scores))))
    0 1.

End Predict.

(** ** trust/trust_engine.py *)

Module TrustEngine.

Inductive TrustLevel : Type := CRITICAL | LOW | MODERATE | HIGH | MAXIMUM.

Inductive SecurityAction : Type :=
| TERMINATE_SESSION
| REQUIRE_REAUTH
| RESTRICT_ACCESS
| INCREASE_MONITORING
| LOG_ONLY
| NO_ACTION.

(** [TrustLevel.value] *)
Definition TrustLevel_value (l : TrustLevel) : string :=
  match l with
  | CRITICAL => "critical" | LOW => "low" | MODERATE => "moderate"
  | HIGH => "high" | MAXIMUM => "maximum"
  end.

(** [SecurityAction.value] *)
Definition SecurityAction_value (a : SecurityAction) : string :=
  match a with
  | TERMINATE_SESSION => "terminate_session"
  | REQUIRE_REAUTH => "require_reauth"
  | RESTRICT_ACCESS => "restrict_access"
  | INCREASE_MONITORING => "increase_monitoring"
  | LOG_ONLY => "log_only"
  | NO_ACTION => "no_action"
  end.

(** [self.trust_decay]: declared in [__init__], read nowhere. *)
Definition idle_decay_rate : Q := 0.05.
Definition anomaly_decay_rate : Q := 0.3.
Definition recovery_rate : Q := 0.1.
Definition max_decay_per_update : Q := 0.2.

(** [self.trust_actions] *)
Definition trust_actions (l : TrustLevel) : SecurityAction :=
  match l with
  | CRITICAL => TERMINATE_SESSION
  | LOW => REQUIRE_REAUTH
  | MODERATE => RESTRICT_ACCESS
  | HIGH => INCREASE_MONITORING
  | MAXIMUM => NO_ACTION
  end.

(** The five entries of the [trust_components] dictionary, in insertion
    order. *)
Record trust_components : Type := {
  behavioral_score : Q;
  temporal_consistency : Q;
  session_context : Q;
  historical_trust : Q;
  anomaly_frequency : Q
}.

(** [sum(score * self.trust_weights[component] for component, score in
    trust_components.items())] *)
Definition weighted_trust (c : trust_components) : Q :=
  Py.sum [ behavioral_score c * 0.4; temporal_consistency c * 0.2;
           session_context c * 0.15; historical_trust c * 0.15;
           anomaly_frequency c * 0.1 ].

Record trust_trend : Type := {
  trend : string;
  change : Q;
  previous_score : option Q;
  change_magnitude : option Q
}.

(** The result dictionary of [calculate_trust_score]; the keys absent
    from the fallback dictionary are [None] there, the key [error] is
    [None] on the normal path. *)
Record trust_result : Type := {
  r_session_id : Z;
  r_user_id : option Z;
  trust_score : Q;
  trust_level : string;
  recommended_action : string;
  components : option trust_components;
  behavioral_analysis : option Predict.prediction;
  r_trust_trend : option trust_trend;
  calculated_at : Q;
  r_confidence : option Q;
  error : option string
}.

(** The readings of [datetime.utcnow()] during one call of
    [calculate_trust_score], in program order. *)
Record clock : Type := {
  now_temporal : Q;
  now_context : Q;
  now_history : Q;
  now_frequency : Q;
  now_result : Q;
  now_update : Q;
  now_fallback : Q
}.

(** [TrustEngine._calculate_behavioral_score] *)
Definition _calculate_behavioral_score (behavioral_analysis : Predict.prediction)
  : Q :=
  let anomaly_score := Predict.anomaly_score behavioral_analysis in
  let confidence := Predict.confidence behavioral_analysis in
  let base_trust := 1 - anomaly_score in
  let confidence_adjusted := base_trust * confidence + (1 - confidence) * 0.5 in
  Py.max 0 (Py.min 1 confidence_adjusted).

(** [[timestamps[i] - timestamps[i+1] for i in range(len(timestamps) - 1)]] *)
Fixpoint intervals (timestamps : list Q) : list Q :=
  match timestamps with
  | a :: ((b :: _) as rest) => (a - b) :: intervals rest
  | _ => []
  end.

(** [TrustEngine._calculate_temporal_consistency] *)
Definition _calculate_temporal_consistency (st : Db.store)
  (session : Db.UserSession) (now : Q) : Q :=
  let recent_events :=
    firstn 20
      (Db.sort_by (fun a b => Qle_bool (Db.timestamp b) (Db.timestamp a))
         (filter (fun e => Z.eqb (Db.session_id e) (Db.id session)
                           && Qle_bool (now - 600) (Db.timestamp e))
                 (Db.behavioral_events st))) in
  if (List.length recent_events <? 5)%nat then 0.7
  else
    let timestamps := map Db.timestamp recent_events in
    let time_intervals := intervals timestamps in
    match time_intervals with
    | [] => 0.7
    | _ =>
        let avg_interval := Py.mean time_intervals in
        let interval_variance := Py.var time_intervals in
        let consistency_score :=
          1 / (1 + interval_variance / Py.max avg_interval 1) in
        let consistency_score :=
          if Py.ltb interval_variance 0.1 && Py.ltb avg_interval 1
          then consistency_score * 0.5 else consistency_score in
        Py.max 0 (Py.min 1 consistency_score)
    end.

(** [TrustEngine._calculate_session_context_score] *)
Definition _calculate_session_context_score (st : Db.store)
  (session : Db.UserSession) (now : Q) : Q :=
  let context_score := 1 in
  let session_duration := now - Db.login_time session in
  let context_score :=
    if Py.ltb session_duration 60 then context_score * 0.7
    else if Py.ltb 28800 session_duration then context_score * 0.8
    else context_score in
  let total_events :=
    Py.len (filter (fun e => Z.eqb (Db.session_id e) (Db.id session))
                   (Db.behavioral_events st)) in
  let context_score :=
    if Py.ltb 0 session_duration then
      let events_per_minute := (total_events * 60) / session_duration in
      if Qle_bool 5 events_per_minute && Qle_bool events_per_minute 50
      then context_score * 1
      else if Py.ltb events_per_minute 1 then context_score * 0.6
      else if Py.ltb 100 events_per_minute then context_score * 0.5
      else context_score
    else context_score in
  let context_score :=
    match Db.ip_address session with
    | Some ip => if String.eqb ip "" then context_score else context_score * 1
    | None => context_score
    end in
  Py.max 0 (Py.min 1 context_score).

(** [TrustEngine._calculate_historical_trust] *)
Definition _calculate_historical_trust (st : Db.store) (user_id : Z)
  (now : Q) : Q :=
  let recent_sessions :=
    firstn 10
      (Db.sort_by (fun a b => Qle_bool (Db.login_time b) (Db.login_time a))
         (filter (fun s => Z.eqb (Db.user_id s) user_id
                           && Qle_bool (now - 604800) (Db.login_time s))
                 (Db.user_sessions st))) in
  match recent_sessions with
  | [] => 0.5
  | _ =>
      let trust_scores :=
        filter (fun v => negb (Qeq_bool v 0))
               (map Db.current_trust_score recent_sessions) in
      match trust_scores with
      | [] => 0.5
      | _ =>
          let avg_historical_trust := Py.mean trust_scores in
          let trust_variance := Py.var trust_scores in
          let stability_factor := 1 / (1 + trust_variance) in
          let historical_score := avg_historical_trust * stability_factor in
          Py.max 0 (Py.min 1 historical_score)
      end
  end.

(** [TrustEngine._calculate_anomaly_frequency] *)
Definition _calculate_anomaly_frequency (st : Db.store) (session_id : Z)
  (now : Q) : Q :=
  let recent_events :=
    filter (fun e => Z.eqb (Db.session_id e) session_id
                     && Qle_bool (now - 900) (Db.timestamp e))
           (Db.behavioral_events st) in
  match recent_events with
  | [] => 1
  | _ =>
      let anomalous_events := Py.len (filter Db.is_anomalous recent_events) in
      let anomaly_rate := anomalous_events / Py.len recent_events in
      let frequency_score := 1 - anomaly_rate in
      Py.max 0 (Py.min 1 frequency_score)
  end.

(** [TrustEngine._determine_trust_level] *)
Definition _determine_trust_level (trust_score : Q) : TrustLevel :=
  if Qle_bool 0.8 trust_score then MAXIMUM
  else if Qle_bool 0.6 trust_score then HIGH
  else if Qle_bool 0.4 trust_score then MODERATE
  else if Qle_bool 0.2 trust_score then LOW
  else CRITICAL.

(** [TrustEngine._calculate_trust_trend] *)
Definition _calculate_trust_trend (st : Db.store) (session_id : Z)
  (current_trust : Q) : trust_trend :=
  match Db.session_by_id st session_id with
  | None =>
      {| trend := "stable"; change := 0; previous_score := None;
         change_magnitude := None |}
  | Some session =>
      let previous_trust :=
        if Qeq_bool (Db.current_trust_score session) 0
        then Db.initial_trust_score session
        else Db.current_trust_score session in
      let trust_change := current_trust - previous_trust in
      let trend :=
        if Py.ltb (Qabs trust_change) 0.05 then "stable"%string
        else if Py.ltb 0 trust_change then "increasing"%string
        else "decreasing"%string in
      {| trend := trend; change := trust_change;
         previous_score := Some previous_trust;
         change_magnitude := Some (Qabs trust_change) |}
  end.

(** [TrustEngine._update_session_trust] *)
Definition _update_session_trust (st : Db.store) (session : Db.UserSession)
  (trust_score : Q) (now : Q) : Db.store :=
  Db.commit_session st (Db.id session)
    (fun s => Db.set_last_activity (Db.set_current_trust_score s trust_score) now).

(** The [try] block of [calculate_trust_score]: what it returns or
    raises, with the store and the predictor cache it leaves behind. *)
Definition calculate_trust_score_try (fe : Predict.FeatureEngineer)
  (loaded_models : Predict.cache) (files : Predict.model_files)
  (st : Db.store) (clk : clock) (session_id : Z)
  : exn trust_result * Db.store * Predict.cache :=
  match Db.session_by_id st session_id with
  | None =>
      (Raise (ValueError ("Session " ++ Py.str_of_int session_id ++ " not found")),
       st, loaded_models)
  | Some session =>
      let '(behavioral_analysis, loaded_models') :=
        Predict.predict_anomaly fe loaded_models files st
          (Db.user_id session) session_id in
      let trust_components :=
        {| behavioral_score := _calculate_behavioral_score behavioral_analysis;
           temporal_consistency :=
             _calculate_temporal_consistency st session (now_temporal clk);
           session_context :=
             _calculate_session_context_score st session (now_context clk);
           historical_trust :=
             _calculate_historical_trust st (Db.user_id session) (now_history clk);
           anomaly_frequency :=
             _calculate_anomaly_frequency st session_id (now_frequency clk) |} in
      let final_trust_score :=
        Py.max 0 (Py.min 1 (weighted_trust trust_components)) in
      let trust_level := _determine_trust_level final_trust_score in
      let recommended_action := trust_actions trust_level in
      let trust_trend := _calculate_trust_trend st session_id final_trust_score in
      let result :=
        {| r_session_id := session_id;
           r_user_id := Some (Db.user_id session);
           trust_score := final_trust_score;
           trust_level := TrustLevel_value trust_level;
           recommended_action := SecurityAction_value recommended_action;
           components := Some trust_components;
           behavioral_analysis := Some behavioral_analysis;
           r_trust_trend := Some trust_trend;
           calculated_at := now_result clk;
           r_confidence := Some (Predict.confidence behavioral_analysis);
           error := None |} in
      let st' := _update_session_trust st session final_trust_score (now_update clk) in
      (Ok result, st', loaded_models')
  end.

(** [TrustEngine.calculate_trust_score]: the [except] clause turns any
    exception into the neutral result and touches nothing. *)
Definition calculate_trust_score (fe : Predict.FeatureEngineer)
  (loaded_models : Predict.cache) (files : Predict.model_files)
  (st : Db.store) (clk : clock) (session_id : Z)
  : trust_result * Db.store * Predict.cache :=
  match calculate_trust_score_try fe loaded_models files st clk session_id with
  | (Ok result, st', loaded_models') => (result, st', loaded_models')
  | (Raise e, st', loaded_models') =>
      ({| r_session_id := session_id;
          r_user_id := None;
          trust_score := 0.5;
          trust_level := TrustLevel_value MODERATE;
          recommended_action := SecurityAction_value INCREASE_MONITORING;
          components := None;
          behavioral_analysis := None;
          r_trust_trend := None;
          calculated_at := now_fallback clk;
          r_confidence := None;
          error := Some (str e) |}, st', loaded_models')
  end.

(** The result dictionary of [execute_security_action]. *)
Record action_result : Type := {
  success : bool;
  action : option string;
  a_message : string
}.

(** [TrustEngine.execute_security_action] *)
Definition execute_security_action (st : Db.store) (session_id : Z)
  (action : SecurityAction) : action_result * Db.store :=
  match Db.session_by_id st session_id with
  | None =>
      ({| success := false; action := None;
          a_message := "Session not found" |}, st)
  | Some session =>
      match action with
      | TERMINATE_SESSION =>
          ({| success := true; action := Some "session_terminated"%string;
              a_message := "Session terminated due to security concerns" |},
           Db.commit_session st session_id (fun s => Db.set_is_active s false))
      | REQUIRE_REAUTH =>
          ({| success := true; action := Some "reauth_required"%string;
              a_message := "Re-authentication required" |},
           Db.commit_session st session_id
             (fun s => Db.set_current_trust_score s
                         (Py.min (Db.current_trust_score s) 0.3)))
      | RESTRICT_ACCESS =>
          ({| success := true; action := Some "access_restricted"%string;
              a_message := "Access restrictions applied" |}, st)
      | INCREASE_MONITORING =>
          ({| success := true; action := Some "monitoring_increased"%string;
              a_message := "Monitoring frequency increased" |}, st)
      | _ =>
          ({| success := true; action := Some "no_action"%string;
              a_message := "No action required" |}, st)
      end
  end.

End TrustEngine.

(** ** auth/verify.py *)

Module Verify.

(** The dictionary returned by [verify_trust_level]. *)
Record trust_verification : Type := {
  verified : bool;
  v_trust_score : Q;
  v_trust_level : string;
  action_required : string
}.

(** The dictionary returned by [continuous_verification]. *)
Record verification : Type := {
  v_session_id : Z;
  v_user_id : Z;
  session_verified : bool;
  v_trust_verification : trust_verification;
  v_last_activity : Q
}.

(** [SessionVerifier.verify_session_token] *)
Definition verify_session_token (st : Db.store) (session_token : string)
  (now : Q) : exn Db.UserSession * Db.store :=
  match Db.get_active_session st session_token with
  | None => (Raise (HTTPException 401 "Invalid or expired session"), st)
  | Some session =>
      if negb (Db.is_active session) then
        (Raise (HTTPException 401 "Session has been terminated"), st)
      else
        let session_age := now - Db.login_time session in
        if Py.ltb 86400 session_age then
          (Raise (HTTPException 401 "Session expired"),
           Db.commit_session st (Db.id session)
             (fun s => Db.set_is_active s false))
        else (Ok session, st)
  end.

(** [SessionVerifier.verify_trust_level] *)
Definition verify_trust_level (fe : Predict.FeatureEngineer)
  (loaded_models : Predict.cache) (files : Predict.model_files)
  (st : Db.store) (clk : TrustEngine.clock) (session : Db.UserSession)
  : trust_verification * Db.store * Predict.cache :=
  let '(trust_result, st', loaded_models') :=
    TrustEngine.calculate_trust_score fe loaded_models files st clk
      (Db.id session) in
  if Py.ltb (TrustEngine.trust_score trust_result)
            (Db.min_trust_threshold session)
  then
    ({| verified := false;
        v_trust_score := TrustEngine.trust_score trust_result;
        v_trust_level := TrustEngine.trust_level trust_result;
        action_required := TrustEngine.recommended_action trust_result |},
     st', loaded_models')
  else
    ({| verified := true;
        v_trust_score := TrustEngine.trust_score trust_result;
        v_trust_level := TrustEngine.trust_level trust_result;
        action_required := "no_action" |},
     st', loaded_models').

(** [SessionVerifier.continuous_verification] *)
Definition continuous_verification (fe : Predict.FeatureEngineer)
  (loaded_models : Predict.cache) (files : Predict.model_files)
  (st : Db.store) (session_token : string) (now_verify : Q)
  (clk : TrustEngine.clock) (now_activity : Q)
  : exn verification * Db.store * Predict.cache :=
  match verify_session_token st session_token now_verify with
  | (Raise e, st1) => (Raise e, st1, loaded_models)
  | (Ok session, st1) =>
      let '(trust_verification, st2, loaded_models') :=
        verify_trust_level fe loaded_models files st1 clk session in
      let st3 :=
        Db.commit_session st2 (Db.id session)
          (fun s => Db.set_last_activity s now_activity) in
      (Ok {| v_session_id := Db.id session;
             v_user_id := Db.user_id session;
             session_verified := true;
             v_trust_verification := trust_verification;
             v_last_activity := now_activity |}, st3, loaded_models')
  end.

End Verify.

(** ** ml/train_model.py *)

Module TrainModel.

(** The scikit-learn calls of the training pipeline, each of which may
    raise: [FeatureEngineer.fit_scalers], [StandardScaler.fit_transform]
    and, per detector name, [fit] followed by the evaluation on the
    training data. *)
Record sklearn : Type := {
  fit_scalers : list (list Q) -> exn unit;
  fit_transform : list (list Q) -> exn (Predict.sk_scaler * list (list Q));
  fit : string -> list (list Q) -> exn Predict.sk_model
}.

(** The keys of [self.models], in insertion order. *)
Definition model_names : list string :=
  [ "isolation_forest"; "one_class_svm"; "local_outlier_factor" ]%string.

(** The dictionary returned by [train_user_model]. *)
Record training_result : Type := {
  success : bool;
  message : string;
  samples_collected : nat;
  models_trained : list string;
  model_file : option Z
}.

(** [session_groups]: the events grouped by [session_id], the groups in
    order of first appearance. *)
Fixpoint group_add (groups : list (Z * list Db.BehavioralEvent))
  (event : Db.BehavioralEvent) : list (Z * list Db.BehavioralEvent) :=
  match groups with
  | [] => [(Db.session_id event, [event])]
  | (sid, evs) :: rest =>
      if Z.eqb sid (Db.session_id event) then (sid, evs ++ [event]) :: rest
      else (sid, evs) :: group_add rest event
  end.

Definition session_groups (events : list Db.BehavioralEvent)
  : list (Z * list Db.BehavioralEvent) :=
  fold_left group_add events [].

(** The events of [user_id] in the training window, in timestamp order. *)
Definition training_events (st : Db.store) (user_id : Z) (now : Q)
  (days_back : Q) : list Db.BehavioralEvent :=
  let cutoff_date := now - days_back * 86400 in
  Db.sort_by (fun a b => Qle_bool (Db.timestamp a) (Db.timestamp b))
    (filter
       (fun e =>
          existsb (fun s => Z.eqb (Db.id s) (Db.session_id e)
                            && Z.eqb (Db.user_id s) user_id)
                  (Db.user_sessions st)
          && Qle_bool cutoff_date (Db.timestamp e))
       (Db.behavioral_events st)).

(** The feature-extraction loop of [collect_training_data] over the
    session groups. *)
Fixpoint collect_loop (fe : Predict.FeatureEngineer) (st : Db.store)
  (groups : list (Z * list Db.BehavioralEvent))
  : exn (list (list Q) * list (Py.dict Q)) :=
  match groups with
  | [] => Ok ([], [])
  | (session_id, session_events) :: rest =>
      if (10 <=? List.length session_events)%nat then
        match Predict.extract_session_features fe st session_id with
        | Raise e => Raise e
        | Ok features =>
            match collect_loop fe st rest with
            | Raise e => Raise e
            | Ok (feature_vectors, feature_dicts) =>
                match features with
                | [] => Ok (feature_vectors, feature_dicts)
                | _ =>
                    Ok (Predict.create_feature_vector features :: feature_vectors,
                        features :: feature_dicts)
                end
            end
        end
      else collect_loop fe st rest
  end.

(** A session group qualifies when it has at least 10 events in the
    window and its feature extraction returns a non-empty dictionary. *)
Definition yields_vector (fe : Predict.FeatureEngineer) (st : Db.store)
  (g : Z * list Db.BehavioralEvent) : bool :=
  (10 <=? List.length (snd g))%nat &&
  match Predict.extract_session_features fe st (fst g) with
  | Ok (_ :: _) => true
  | _ => false
  end.

(** The feature extraction of a group with at least 10 events raises. *)
Definition extraction_raises (fe : Predict.FeatureEngineer) (st : Db.store)
  (g : Z * list Db.BehavioralEvent) : bool :=
  (10 <=? List.length (snd g))%nat &&
  match Predict.extract_session_features fe st (fst g) with
  | Raise _ => true
  | _ => false
  end.

(** [BehavioralAnomalyDetector.collect_training_data] *)
Definition collect_training_data (fe : Predict.FeatureEngineer)
  (st : Db.store) (user_id : Z) (now : Q)
  : exn (list (list Q) * list (Py.dict Q)) :=
  let events := training_events st user_id now 30 in
  if (List.length events <? 50)%nat then Ok ([], [])
  else
    match collect_loop fe st (session_groups events) with
    | Raise e => Raise e
    | Ok (feature_vectors, feature_dicts) =>
        if (List.length feature_vectors <? 10)%nat then Ok ([], [])
        else Ok (feature_vectors, feature_dicts)
    end.

(** The training loop over [self.models]: a detector whose fit or
    evaluation raises is skipped. *)
Fixpoint train_loop (sk : sklearn) (names : list string)
  (X_scaled : list (list Q)) : Py.dict Predict.sk_model :=
  match names with
  | [] => []
  | model_name :: rest =>
      match fit sk model_name X_scaled with
      | Ok model => (model_name, model) :: train_loop sk rest X_scaled
      | Raise _ => train_loop sk rest X_scaled
      end
  end.

(** Column [i] of a matrix given by rows. *)
Definition column (X : list (list Q)) (i : nat) : list Q :=
  map (fun row => nth i row 0) X.

(** [BehavioralAnomalyDetector._calculate_feature_importance] *)
Definition _calculate_feature_importance (X : list (list Q)) : Py.dict Q :=
  match X with
  | [] => []
  | row :: _ =>
      let feature_variances :=
        map (fun i => Py.var (column X i)) (seq 0 (List.length row)) in
      let top := fold_right Py.max 0 feature_variances in
      let max_variance := if Py.ltb 0 top then top else 1 in
      let normalized_variances :=
        map (fun v => v / max_variance) feature_variances in
      Db.sort_by (fun a b => Qle_bool (snd b) (snd a))
        (combine Predict._get_expected_feature_names normalized_variances)
  end.

(** The [try] block of [train_user_model], with the model files it
    leaves behind.  (The rewrite of the user's row of
    [behavioral_profiles], a table outside the modelled store, follows
    the dump.) *)
Definition train_user_model_try (fe : Predict.FeatureEngineer) (sk : sklearn)
  (files : Predict.model_files) (st : Db.store) (user_id : Z) (now : Q)
  : exn training_result * Predict.model_files :=
  match collect_training_data fe st user_id now with
  | Raise e => (Raise e, files)
  | Ok (X_train, feature_dicts) =>
      match X_train with
      | [] =>
          (Ok {| success := false; message := "Insufficient training data";
                 samples_collected := 0; models_trained := [];
                 model_file := None |}, files)
      | _ =>
          match fit_scalers sk X_train with
          | Raise e => (Raise e, files)
          | Ok _ =>
              match fit_transform sk X_train with
              | Raise e => (Raise e, files)
              | Ok (scaler, X_scaled) =>
                  let trained_models := train_loop sk model_names X_scaled in
                  match trained_models with
                  | [] =>
                      (Ok {| success := false;
                             message := "All models failed to train";
                             samples_collected := List.length X_train;
                             models_trained := []; model_file := None |},
                       files)
                  | _ =>
                      let model_data :=
                        {| Predict.models := trained_models;
                           Predict.scaler := scaler;
                           Predict.feature_importance :=
                             _calculate_feature_importance X_scaled |} in
                      (Ok {| success := true;
                             message := "Model trained successfully";
                             samples_collected := List.length X_train;
                             models_trained := Py.keys trained_models;
                             model_file := Some user_id |},
                       Predict.dump files user_id model_data)
                  end
              end
          end
      end
  end.

(** [BehavioralAnomalyDetector.train_user_model] *)
Definition train_user_model (fe : Predict.FeatureEngineer) (sk : sklearn)
  (files : Predict.model_files) (st : Db.store) (user_id : Z) (now : Q)
  : training_result * Predict.model_files :=
  match train_user_model_try fe sk files st user_id now with
  | (Ok result, files') => (result, files')
  | (Raise e, files') =>
      ({| success := false;
          message := "Training failed: " ++ str e;
          samples_collected := 0; models_trained := [];
          model_file := None |}, files')
  end.

(** The three counters of [train_all_users]. *)
Inductive tally : Type :=
| trained_successfully
| insufficient_data
| training_failed.

(** The counter [train_all_users] increments for a result. *)
Definition tally_of (result : training_result) : tally :=
  if success result then trained_successfully
  else if Nat.eqb (samples_collected result) 0 then insufficient_data
  else training_failed.

End TrainModel.

(** ** behavior/mouse.py *)

Module Mouse.

(** [np.corrcoef(x, y)[0, 1]]: the Pearson correlation of two samples,
    [None] when numpy returns NaN (a sample of zero variance). *)
Record numpy : Type := {
  corrcoef : list Q -> list Q -> option Q
}.

(** A move record of the batch: a dictionary of numbers. *)
Definition move_event : Type := Py.dict Q.

(** [e.get('velocity', 0)] *)
Definition velocity (e : move_event) : Q :=
  match Py.dict_get e "velocity" with
  | Some v => v
  | None => 0
  end.

(** [abs(correlation)] when the correlation is not NaN, nothing
    otherwise. *)
Definition lag_term (np : numpy) (velocities : list Q) (lag : nat) : Q :=
  match corrcoef np (firstn (List.length velocities - lag) velocities)
                    (skipn lag velocities) with
  | Some correlation => Qabs correlation
  | None => 0
  end.

(** [range(1, min(10, len(velocities)//2))] *)
Definition lags (velocities : list Q) : list nat :=
  seq 1 (Nat.min 10 (List.length velocities / 2) - 1).

(** [MouseProcessor.calculate_movement_rhythm] *)
Definition calculate_movement_rhythm (np : numpy)
  (move_events : list move_event) : Q :=
  let velocities := map velocity move_events in
  if (List.length velocities <? 10)%nat then 0
  else
    let rhythm_score :=
      fold_left (fun rhythm_score lag => rhythm_score + lag_term np velocities lag)
                (lags velocities) 0 in
    rhythm_score / 9.

(** The rhythm feature as the specification words it: the mean of
    [|autocorr(velocity, lag)|] over the lags in [[1, min(10, n/2))],
    a NaN autocorrelation counting as 0. *)
Definition spec_movement_rhythm (np : numpy) (move_events : list move_event)
  : Q :=
  let velocities := map velocity move_events in
  Py.mean (map (lag_term np velocities) (lags velocities)).

(** The covariance of two samples of equal length. *)
Definition cov (x y : list Q) : Q :=
  let mx := Py.mean x in
  let my := Py.mean y in
  Py.mean (map (fun ab => (fst ab - mx) * (snd ab - my)) (combine x y)).

(** [r] is the Pearson correlation of two samples of positive variance:
    it has the sign of the covariance and its square is
    [cov^2 / (var x * var y)]. *)
Definition is_pearson (x y : list Q) (r : Q) : Prop :=
  0 < Py.var x * Py.var y
  /\ r * r * (Py.var x * Py.var y) == cov x y * cov x y
  /\ 0 <= r * cov x y.

End Mouse.

(** ** main.py: the operations that reach the store *)

Module System.

(** The libraries the services are linked with. *)
Record env : Type := {
  fe : Predict.FeatureEngineer;
  sk : TrainModel.sklearn
}.

(** The session store, the predictor's cache and the model files. *)
Record state : Type := {
  db : Db.store;
  loaded_models : Predict.cache;
  files : Predict.model_files
}.

(** One call into the services, with the clock readings it makes. *)
Inductive request : Type :=
| Login (user_id : Z) (token : string) (ip ua : option string) (now : Q)
| Logout
| PostBehavior (token kind data feats : string) (ts : Q)
| PostTrustScore (token : string) (clk : TrustEngine.clock)
| CalculateTrustScore (session_id : Z) (clk : TrustEngine.clock)
| PostSecurityAction (session_id : Z) (action : TrustEngine.SecurityAction)
| UpdateTrustScore (session_id : Z) (new_trust_score : Q)
| PutSessionActivity (token : string) (now : Q)
| VerifySessionToken (token : string) (now : Q)
| ContinuousVerification (token : string) (now_verify : Q)
    (clk : TrustEngine.clock) (now_activity : Q)
| TrainUserModel (user_id : Z) (now : Q).

(** The state after a request. *)
Definition step (e : env) (s : state) (r : request) : state :=
  match r with
  | Login uid tok ip ua now =>
      {| db := snd (Db.create_session (db s) uid tok ip ua now);
         loaded_models := loaded_models s; files := files s |}
  | Logout => s
  | PostBehavior tok kind data feats ts =>
      match Db.get_active_session (db s) tok with
      | None => s
      | Some session =>
          {| db := Db.add_event (db s) (Db.id session) kind data feats ts;
             loaded_models := loaded_models s; files := files s |}
      end
  | PostTrustScore tok clk =>
      match Db.get_active_session (db s) tok with
      | None => s
      | Some session =>
          let '(_, st', c') :=
            TrustEngine.calculate_trust_score (fe e) (loaded_models s)
              (files s) (db s) clk (Db.id session) in
          {| db := st'; loaded_models := c'; files := files s |}
      end
  | CalculateTrustScore sid clk =>
      let '(_, st', c') :=
        TrustEngine.calculate_trust_score (fe e) (loaded_models s)
          (files s) (db s) clk sid in
      {| db := st'; loaded_models := c'; files := files s |}
  | PostSecurityAction sid a =>
      {| db := snd (TrustEngine.execute_security_action (db s) sid a);
         loaded_models := loaded_models s; files := files s |}
  | UpdateTrustScore sid v =>
      {| db := snd (Db.update_trust_score (db s) sid v);
         loaded_models := loaded_models s; files := files s |}
  | PutSessionActivity tok now =>
      match Db.get_active_session (db s) tok with
      | None => s
      | Some session =>
          {| db := Db.commit_session (db s) (Db.id session)
                     (fun x => Db.set_last_activity x now);
             loaded_models := loaded_models s; files := files s |}
      end
  | VerifySessionToken tok now =>
      {| db := snd (Verify.verify_session_token (db s) tok now);
         loaded_models := loaded_models s; files := files s |}
  | ContinuousVerification tok now_verify clk now_activity =>
      let '(_, st', c') :=
        Verify.continuous_verification (fe e) (loaded_models s) (files s)
          (db s) tok now_verify clk now_activity in
      {| db := st'; loaded_models := c'; files := files s |}
  | TrainUserModel uid now =>
      {| db := db s; loaded_models := loaded_models s;
         files := snd (TrainModel.train_user_model (fe e) (sk e) (files s)
                         (db s) uid now) |}
  end.

(** The state after a sequence of requests. *)
Definition run (e : env) (s : state) (rs : list request) : state :=
  fold_left (step e) rs s.

(** The UNIQUE constraint on [user_sessions.session_token]. *)
Definition unique_tokens (st : Db.store) : Prop :=
  NoDup (map Db.session_token (Db.user_sessions st)).

(** An attribute write that keeps the primary key and the token of the
    row and does not turn [is_active] on. *)
Definition keeps_session (f : Db.UserSession -> Db.UserSession) : Prop :=
  forall s, Db.id (f s) = Db.id s
            /\ Db.session_token (f s) = Db.session_token s
            /\ (Db.is_active (f s) = true -> Db.is_active s = true).

(** The ways the services change the store: a committed attribute write
    of that kind, the insertion of a session, the insertion of an
    event. *)
Inductive evolves : Db.store -> Db.store -> Prop :=
| evolves_refl st : evolves st st
| evolves_commit st sid f :
    keeps_session f -> evolves st (Db.commit_session st sid f)
| evolves_create st uid tok ip ua now :
    evolves st (snd (Db.create_session st uid tok ip ua now))
| evolves_event st sid kind data feats ts :
    evolves st (Db.add_event st sid kind data feats ts)
| evolves_trans st1 st2 st3 :
    evolves st1 st2 -> evolves st2 st3 -> evolves st1 st3.

(** Session [sid], whose token is [tok], is in the store, and every row
    with that key or that token is inactive. *)
Definition terminated (tok : string) (sid : Z) (st : Db.store) : Prop :=
  (exists s, In s (Db.user_sessions st) /\ Db.id s = sid
             /\ Db.session_token s = tok)
  /\ (forall s, In s (Db.user_sessions st) ->
                Db.id s = sid \/ Db.session_token s = tok ->
                Db.is_active s = false).

End System.

(** ** Sample data *)

Module Examples.

(** A feature engineer whose aggregation finds no feature. *)
Definition fe_empty : Predict.FeatureEngineer :=
  {| Predict.session_features := fun _ => Ok [] |}.

(** A feature engineer that reports one feature. *)
Definition fe_one : Predict.FeatureEngineer :=
  {| Predict.session_features :=
       fun _ => Ok [("temporal_event_rate"%string, 1)] |}.

(** No bundle file at all. *)
Definition no_files : Predict.model_files := fun _ => None.

(** A session of user 7, logged in at time 0 with the column defaults. *)
Definition alice_session : Db.UserSession :=
  {| Db.id := 1; Db.user_id := 7; Db.session_token := "tok-alice";
     Db.initial_trust_score := 1; Db.current_trust_score := 1;
     Db.min_trust_threshold := 0.3; Db.ip_address := None;
     Db.user_agent := None; Db.login_time := 0; Db.last_activity := 0;
     Db.is_active := true |}.

(** A store holding that session and no event. *)
Definition alice_store : Db.store :=
  {| Db.user_sessions := [alice_session]; Db.behavioral_events := [] |}.

(** The empty store. *)
Definition empty_store : Db.store :=
  {| Db.user_sessions := []; Db.behavioral_events := [] |}.

(** A call whose clock readings are all [t]. *)
Definition clock_at (t : Q) : TrustEngine.clock :=
  {| TrustEngine.now_temporal := t; TrustEngine.now_context := t;
     TrustEngine.now_history := t; TrustEngine.now_frequency := t;
     TrustEngine.now_result := t; TrustEngine.now_update := t;
     TrustEngine.now_fallback := t |}.

(** Three detectors: the first scores -0.1 and predicts an outlier, the
    other two score 0.2 and predict an inlier. *)
Definition split_scores : Py.dict Q :=
  [ ("isolation_forest"%string, -0.1); ("one_class_svm"%string, 0.2);
    ("local_outlier_factor"%string, 0.2) ].

Definition split_predictions : Py.dict Z :=
  [ ("isolation_forest"%string, (-1)%Z); ("one_class_svm"%string, 1%Z);
    ("local_outlier_factor"%string, 1%Z) ].

(** A scikit-learn in which every call raises. *)
Definition sk_failing : TrainModel.sklearn :=
  {| TrainModel.fit_scalers := fun _ => Raise (LibraryError "fit_scalers");
     TrainModel.fit_transform := fun _ => Raise (LibraryError "fit_transform");
     TrainModel.fit := fun _ _ => Raise (LibraryError "fit") |}.

(** Ten move records with velocities 0, 1, ..., 9. *)
Definition ramp_moves : list Mouse.move_event :=
  map (fun v => [("velocity"%string, inject_Z (Z.of_nat v))]) (seq 0 10).

(** A correlation that is 1 on every pair of samples. *)
Definition np_perfect : Mouse.numpy :=
  {| Mouse.corrcoef := fun _ _ => Some 1 |}.

(** The services linked with these libraries, started on Alice's
    session with an empty cache and no bundle file. *)
Definition env0 : System.env :=
  {| System.fe := fe_empty; System.sk := sk_failing |}.

Definition state0 : System.state :=
  {| System.db := alice_store; System.loaded_models := [];
     System.files := no_files |}.

(** Requests made after Alice's session was terminated: a login that
    tries to reuse her token, a login of another user, trust
    evaluations, verifications and further security actions. *)
Definition later_requests : list System.request :=
  [ System.Login 7 "tok-alice" None None 200;
    System.Login 8 "tok-bob" None None 210;
    System.PostTrustScore "tok-alice" (clock_at 220);
    System.CalculateTrustScore 1 (clock_at 230);
    System.ContinuousVerification "tok-alice" 240 (clock_at 240) 241;
    System.PostSecurityAction 1 TrustEngine.REQUIRE_REAUTH;
    System.UpdateTrustScore 1 1;
    System.PutSessionActivity "tok-alice" 250;
    System.PostBehavior "tok-bob" "keystroke" "[]" "{}" 260;
    System.TrainUserModel 7 270 ].

(** Ten sessions of user 7 with ten keystroke events each. *)
Definition busy_store : Db.store :=
  {| Db.user_sessions :=
       map (fun k =>
              {| Db.id := Z.of_nat k; Db.user_id := 7;
                 Db.session_token :=
                   String (Ascii.ascii_of_nat (64 + k)) EmptyString;
                 Db.initial_trust_score := 1; Db.current_trust_score := 1;
                 Db.min_trust_threshold := 0.3; Db.ip_address := None;
                 Db.user_agent := None; Db.login_time := 0;
                 Db.last_activity := 0; Db.is_active := true |})
           (seq 1 10);
     Db.behavioral_events :=
       flat_map
         (fun k =>
            map (fun j =>
                   {| Db.event_id := Z.of_nat (10 * k + j);
                      Db.session_id := Z.of_nat k;
                      Db.event_type := "keystroke"; Db.event_data := "[]";
                      Db.processed_features := "{}";
                      Db.is_anomalous := false;
                      Db.timestamp := inject_Z (Z.of_nat (10 * k + j)) |})
                (seq 0 10))
         (seq 1 10) |}.

(** A detector that calls every vector an inlier with score 0. *)
Definition inlier_model : Predict.sk_model :=
  {| Predict.decision_function := fun _ => Ok 0;
     Predict.predict := fun _ => Ok 1%Z |}.

(** A scikit-learn whose scaler is the identity and whose three fits
    succeed. *)
Definition sk_fitting : TrainModel.sklearn :=
  {| TrainModel.fit_scalers := fun _ => Ok tt;
     TrainModel.fit_transform :=
       fun X => Ok ({| Predict.transform := fun v => Ok v |}, X);
     TrainModel.fit := fun _ _ => Ok inlier_model |}.

End Examples.

(** ** ml/predict.py, auth/verify.py, ml/train_model.py: further operations *)

Module PredictOps.

Import Predict.

(** [del self.loaded_models[user_id]] *)
Definition cache_del (c : cache) (user_id : Z) : cache :=
  filter (fun entry => negb (Z.eqb (fst entry) user_id)) c.

(** [RealTimePredictor.clear_model_cache]: [if user_id:] is false for
    [None] and for the user id 0, and the whole cache is cleared then. *)
Definition clear_model_cache (loaded_models : cache) (user_id : option Z)
  : cache :=
  match user_id with
  | Some uid =>
      if Z.eqb uid 0 then []
      else
        match cache_get loaded_models uid with
        | Some _ => cache_del loaded_models uid
        | None => loaded_models
        end
  | None => []
  end.



(** [RealTimePredictor.batch_predict]: each result with the session id
    it was computed for, and the cache after the batch. *)
Fixpoint batch_predict (fe : FeatureEngineer) (loaded_models : cache)
  (files : model_files) (st : Db.store) (user_id : Z) (session_ids : list Z)
  : list (Z * prediction) * cache :=
  match session_ids with
  | [] => ([], loaded_models)
  | session_id :: rest =>
      let '(result, loaded_models') :=
        predict_anomaly fe loaded_models files st user_id session_id in
      let '(results, loaded_models'') :=
        batch_predict fe loaded_models' files st user_id rest in
      ((session_id, result) :: results, loaded_models'')
  end.

(** The dictionary returned by [check_behavioral_anomaly]. *)
Record anomaly_check : Type := {
  anomaly_detected : bool;
  c_anomaly_score : Q;
  c_risk_level : string;
  c_confidence : Q;
  c_details : prediction
}.

(** [SessionVerifier.check_behavioral_anomaly] *)
Definition check_behavioral_anomaly (fe : FeatureEngineer)
  (loaded_models : cache) (files : model_files) (st : Db.store)
  (user_id session_id : Z) : anomaly_check * cache :=
  let '(anomaly_result, loaded_models') :=
    predict_anomaly fe loaded_models files st user_id session_id in
  let is_anomalous :=
    String.eqb (risk_level anomaly_result) "medium_risk"
    || String.eqb (risk_level anomaly_result) "high_risk" in
  ({| anomaly_detected := is_anomalous;
      c_anomaly_score := anomaly_score anomaly_result;
      c_risk_level := risk_level anomaly_result;
      c_confidence := confidence anomaly_result;
      c_details := anomaly_result |}, loaded_models').

(** A row of [users], as [train_all_users] reads it. *)
Record User : Type := {
  u_id : Z;
  username : string
}.

(** The dictionary returned by [train_all_users]. *)
Record batch_results : Type := {
  total_users : nat;
  n_trained_successfully : nat;
  n_training_failed : nat;
  n_insufficient_data : nat;
  details : list (Z * string * TrainModel.training_result)
}.

(** The loop of [train_all_users] over the users still to process. *)
Fixpoint train_all_loop (fe : FeatureEngineer) (sk : TrainModel.sklearn)
  (files : model_files) (st : Db.store) (now : Q) (users : list User)
  (results : batch_results) : batch_results * model_files :=
  match users with
  | [] => (results, files)
  | user :: rest =>
      let '(result, files') :=
        TrainModel.train_user_model fe sk files st (u_id user) now in
      let results' :=
        {| total_users := total_users results;
           n_trained_successfully :=
             if TrainModel.success result
             then S (n_trained_successfully results)
             else n_trained_successfully results;
           n_training_failed :=
             if TrainModel.success result then n_training_failed results
             else if Nat.eqb (TrainModel.samples_collected result) 0
                  then n_training_failed results
                  else S (n_training_failed results);
           n_insufficient_data :=
             if TrainModel.success result then n_insufficient_data results
             else if Nat.eqb (TrainModel.samples_collected result) 0
                  then S (n_insufficient_data results)
                  else n_insufficient_data results;
           details :=
             details results ++ [(u_id user, username user, result)] |} in
      train_all_loop fe sk files' st now rest results'
  end.

(** [BehavioralAnomalyDetector.train_all_users] on the rows of [users]. *)
Definition train_all_users (fe : FeatureEngineer) (sk : TrainModel.sklearn)
  (files : model_files) (st : Db.store) (now : Q) (users : list User)
  : batch_results * model_files :=
  train_all_loop fe sk files st now users
    {| total_users := List.length users; n_trained_successfully := 0;
       n_training_failed := 0; n_insufficient_data := 0; details := [] |}.

End PredictOps.

(** ** trust/trust_engine.py: the order of the trust levels *)

Module TrustOps.

(** The position of a level on the scale critical < low < moderate <
    high < maximum. *)
Definition level_rank (l : TrustEngine.TrustLevel) : nat :=
  match l with
  | TrustEngine.CRITICAL => 0
  | TrustEngine.LOW => 1
  | TrustEngine.MODERATE => 2
  | TrustEngine.HIGH => 3
  | TrustEngine.MAXIMUM => 4
  end.

(** The columns of a session that the trust write-back leaves alone. *)
Definition same_identity (s s' : Db.UserSession) : Prop :=
  Db.id s' = Db.id s /\ Db.user_id s' = Db.user_id s
  /\ Db.session_token s' = Db.session_token s
  /\ Db.initial_trust_score s' = Db.initial_trust_score s
  /\ Db.min_trust_threshold s' = Db.min_trust_threshold s
  /\ Db.ip_address s' = Db.ip_address s
  /\ Db.user_agent s' = Db.user_agent s
  /\ Db.login_time s' = Db.login_time s
  /\ Db.is_active s' = Db.is_active s.

End TrustOps.

(** ** behavior/mouse.py: the pointer features that are ratios *)

Module MouseFeatures.

(** [e.get(key, 0)] *)
Definition get0 (e : Mouse.move_event) (key : string) : Q :=
  match Py.dict_get e key with
  | Some v => v
  | None => 0
  end.

(** [[l[i] - l[i-1] for i in range(1, len(l))]] *)
Fixpoint deltas (l : list Q) : list Q :=
  match l with
  | a :: ((b :: _) as rest) => (b - a) :: deltas rest
  | _ => []
  end.

(** [MouseProcessor.calculate_pause_frequency] *)
Definition calculate_pause_frequency (move_events : list Mouse.move_event)
  : Q :=
  if (List.length move_events <? 5)%nat then 0
  else
    let pauses :=
      filter (fun event => Py.ltb (get0 event "velocity") 0.1) move_events in
    Py.len pauses / Py.len move_events.

(** [MouseProcessor.calculate_micro_movements] *)
Definition calculate_micro_movements (move_events : list Mouse.move_event)
  : Q :=
  match move_events with
  | [] => 0
  | _ =>
      let micro_movements :=
        filter (fun e => Py.ltb (get0 e "distance") 5) move_events in
      Py.len micro_movements / Py.len move_events
  end.

(** [MouseProcessor.calculate_movement_smoothness] *)
Definition calculate_movement_smoothness (move_events : list Mouse.move_event)
  : Q :=
  if (List.length move_events <? 3)%nat then 1
  else
    let velocities := map (fun e => get0 e "velocity") move_events in
    let jerk_values := map Qabs (deltas velocities) in
    match jerk_values with
    | [] => 1
    | _ =>
        let avg_jerk := Py.mean jerk_values in
        1 / (1 + avg_jerk)
    end.

(** [MouseProcessor.calculate_direction_consistency] *)
Definition calculate_direction_consistency
  (move_events : list Mouse.move_event) : Q :=
  let directions :=
    flat_map (fun e => match Py.dict_get e "direction" with
                       | Some d => [d]
                       | None => []
                       end) move_events in
  if (List.length directions <? 2)%nat then 1
  else
    let direction_changes :=
      filter (fun d => let angle_diff := Qabs d in
                       let angle_diff := Py.min angle_diff (360 - angle_diff) in
                       Py.ltb 45 angle_diff)
             (deltas directions) in
    let consistency := 1 - Py.len direction_changes / Py.len directions in
    Py.max 0 consistency.

(** [click_events[i]['timestamp']] for every click, a missing key
    raising [KeyError]. *)
Fixpoint timestamps (click_events : list Mouse.move_event) : exn (list Q) :=
  match click_events with
  | [] => Ok []
  | e :: rest =>
      match Py.dict_get e "timestamp" with
      | None => Raise (LibraryError "KeyError: 'timestamp'")
      | Some t =>
          match timestamps rest with
          | Ok ts => Ok (t :: ts)
          | Raise err => Raise err
          end
      end
  end.

(** [MouseProcessor.calculate_double_click_rate] *)
Definition calculate_double_click_rate (click_events : list Mouse.move_event)
  : exn Q :=
  if (List.length click_events <? 2)%nat then Ok 0
  else
    match timestamps click_events with
    | Raise err => Raise err
    | Ok ts =>
        let double_clicks :=
          filter (fun time_diff => Py.ltb time_diff 500) (deltas ts) in
        Ok (Py.len double_clicks / Py.len click_events)
    end.

(** [MouseProcessor.calculate_acceleration_pattern] *)
Definition calculate_acceleration_pattern (velocities : list Q) : Q :=
  if (List.length velocities <? 3)%nat then 0
  else
    let accelerations := deltas velocities in
    match accelerations with
    | [] => 0
    | _ =>
        let acc_variance := Py.var accelerations in
        1 / (1 + acc_variance)
    end.

End MouseFeatures.

(** ** Further sample data *)

Module Samples.

(** Alice's session after its stored trust has dropped to 0.0. *)
Definition zero_store : Db.store :=
  {| Db.user_sessions := [Db.set_current_trust_score Examples.alice_session 0];
     Db.behavioral_events := [] |}.

(** A bundle of two detectors and an identity scaler. *)
Definition two_models : Predict.model_data :=
  {| Predict.models :=
       [ ("isolation_forest"%string, Examples.inlier_model);
         ("one_class_svm"%string, Examples.inlier_model) ];
     Predict.scaler := {| Predict.transform := fun v => Ok v |};
     Predict.feature_importance := [("temporal_event_rate"%string, 1)] |}.

(** A disk holding that bundle for user 7. *)
Definition files7 : Predict.model_files :=
  fun u => if Z.eqb u 7 then Some (Predict.Bundle two_models) else None.

(** Three clicks, 200 ms and 900 ms apart. *)
Definition three_clicks : list Mouse.move_event :=
  [ [("timestamp"%string, 1000)]; [("timestamp"%string, 1200)];
    [("timestamp"%string, 2100)] ].

(** Two users. *)
Definition two_users : list PredictOps.User :=
  [ {| PredictOps.u_id := 7; PredictOps.username := "alice" |};
    {| PredictOps.u_id := 8; PredictOps.username := "bob" |} ].

End Samples.

(* ===================================================================== *)
(** * Part II: properties                                                 *)
(* ===================================================================== *)

(** ** Arithmetic of the Python built-ins *)

Module PyFacts.

Lemma max_spec (a b : Q) : (b <= a /\ Py.max a b = a) \/ (a < b /\ Py.max a b = b).
Proof.
  unfold Py.max. destruct (Qle_bool b a) eqn:E.
  - left. split; [now apply Qle_bool_iff|reflexivity].
  - right. split; [|reflexivity].
    apply Qnot_le_lt. intro H. apply Qle_bool_iff in H. congruence.
Qed.

Lemma min_spec (a b : Q) : (a <= b /\ Py.min a b = a) \/ (b < a /\ Py.min a b = b).
Proof.
  unfold Py.min. destruct (Qle_bool a b) eqn:E.
  - left. split; [now apply Qle_bool_iff|reflexivity].
  - right. split; [|reflexivity].
    apply Qnot_le_lt. intro H. apply Qle_bool_iff in H. congruence.
Qed.

Lemma ltb_spec (a b : Q) : Py.ltb a b = true <-> a < b.
Proof.
  unfold Py.ltb. split; intro H.
  - apply Qnot_le_lt. intro L. apply Qle_bool_iff in L.
    rewrite L in H. discriminate.
  - destruct (Qle_bool b a) eqn:E; [|reflexivity].
    apply Qle_bool_iff in E. lra.
Qed.

(** [max(0.0, min(1.0, x))] lies in the unit interval. *)
Lemma clamp_range (x : Q) : 0 <= Py.max 0 (Py.min 1 x) <= 1.
Proof.
  destruct (min_spec 1 x) as [[H1 ->]|[H1 ->]];
    destruct (max_spec 0 1) as [[H2 E2]|[H2 E2]];
    destruct (max_spec 0 x) as [[H3 E3]|[H3 E3]];
    try rewrite E2; try rewrite E3; lra.
Qed.

(** [min(1.0, max(0.0, x))] lies in the unit interval. *)
Lemma clamp_range' (x : Q) : 0 <= Py.min 1 (Py.max 0 x) <= 1.
Proof.
  destruct (max_spec 0 x) as [[H1 ->]|[H1 ->]];
    destruct (min_spec 1 0) as [[H2 E2]|[H2 E2]];
    destruct (min_spec 1 x) as [[H3 E3]|[H3 E3]];
    try rewrite E2; try rewrite E3; lra.
Qed.

(** The clamp is the identity on the unit interval. *)
Lemma clamp_id (x : Q) : 0 <= x <= 1 -> Py.max 0 (Py.min 1 x) == x.
Proof.
  intros [H0 H1].
  destruct (min_spec 1 x) as [[H2 E]|[H2 E]]; rewrite E.
  - destruct (max_spec 0 1) as [[H3 ->]|[H3 ->]]; lra.
  - destruct (max_spec 0 x) as [[H3 ->]|[H3 ->]]; lra.
Qed.

Lemma clamp_id' (x : Q) : 0 <= x <= 1 -> Py.min 1 (Py.max 0 x) == x.
Proof.
  intros [H0 H1].
  destruct (max_spec 0 x) as [[H2 E]|[H2 E]]; rewrite E.
  - destruct (min_spec 1 0) as [[H3 ->]|[H3 ->]]; lra.
  - destruct (min_spec 1 x) as [[H3 ->]|[H3 ->]]; lra.
Qed.

End PyFacts.

(** ** Sums, means and variances *)

Module StatFacts.

Lemma fold_plus_nonneg (l : list Q) : forall acc,
  0 <= acc -> (forall x, In x l -> 0 <= x) -> 0 <= fold_left Qplus l acc.
Proof.
  induction l as [|x l IH]; intros acc Hacc Hl; simpl.
  - exact Hacc.
  - apply IH.
    + assert (0 <= x) by (apply Hl; now left). lra.
    + intros y Hy. apply Hl. now right.
Qed.

Lemma sum_nonneg (l : list Q) : (forall x, In x l -> 0 <= x) -> 0 <= Py.sum l.
Proof. intro H. unfold Py.sum. apply fold_plus_nonneg; [lra|exact H]. Qed.

Lemma len_nonneg {A : Type} (l : list A) : 0 <= Py.len l.
Proof.
  unfold Py.len, Qle. simpl. lia.
Qed.

Lemma len_pos {A : Type} (l : list A) : l <> [] -> 0 < Py.len l.
Proof.
  intro H. destruct l as [|a l]; [congruence|].
  unfold Py.len, Qlt. simpl. lia.
Qed.

Lemma div_nonneg (a b : Q) : 0 <= a -> 0 <= b -> 0 <= a / b.
Proof.
  intros Ha Hb. destruct (Qeq_dec b 0) as [E|N].
  - unfold Qdiv. rewrite E. unfold Qinv. simpl. lra.
  - apply Qle_shift_div_l; lra.
Qed.

Lemma mean_nonneg (l : list Q) : (forall x, In x l -> 0 <= x) -> 0 <= Py.mean l.
Proof.
  intro H. unfold Py.mean. apply div_nonneg; [now apply sum_nonneg|apply len_nonneg].
Qed.

(** [np.var] is never negative. *)
Lemma var_nonneg (l : list Q) : 0 <= Py.var l.
Proof.
  unfold Py.var. apply mean_nonneg. intros x Hx.
  apply in_map_iff in Hx. destruct Hx as [y [<- _]].
  generalize (y - Py.mean l). intro d.
  destruct (Qlt_le_dec d 0) as [N|P].
  - setoid_replace (d * d) with ((- d) * (- d)) by ring.
    apply Qmult_le_0_compat; lra.
  - apply Qmult_le_0_compat; lra.
Qed.

(** [1 / (1 + v)] for a variance [v]. *)
Lemma inv_one_plus_range (v : Q) : 0 <= v -> 0 < 1 / (1 + v) <= 1.
Proof.
  intro H. split.
  - apply Qlt_shift_div_l; lra.
  - apply Qle_shift_div_r; lra.
Qed.

End StatFacts.

(** ** The predictor *)

Module PredictFacts.

Import Predict.

Lemma model_weight_pos (name : string) : 0 < model_weight name.
Proof.
  unfold model_weight.
  repeat match goal with |- context [String.eqb ?a ?b] => destruct (String.eqb a b) end;
    lra.
Qed.

Lemma normalize_range (score : Q) (name : string) :
  0 <= _normalize_anomaly_score score name <= 1.
Proof. unfold _normalize_anomaly_score. apply PyFacts.clamp_range'. Qed.

Lemma weighting_loop_bounds (d : Py.dict Q) : forall ws tw,
  0 <= ws <= tw ->
  0 <= fst (weighting_loop d ws tw) <= snd (weighting_loop d ws tw)
  /\ tw <= snd (weighting_loop d ws tw)
  /\ (d <> [] -> tw < snd (weighting_loop d ws tw)).
Proof.
  induction d as [|[name score] d IH]; intros ws tw H; simpl.
  - repeat split; try lra. congruence.
  - pose proof (model_weight_pos name) as Hw.
    pose proof (normalize_range score name) as Hn.
    destruct (IH (ws + _normalize_anomaly_score score name * model_weight name)
                 (tw + model_weight name)) as [H1 [H2 _]]; [nra|].
    repeat split; try lra.
Qed.

(** The ensemble score of a non-empty score dictionary is a weighted
    average of normalised scores. *)
Lemma ensemble_score_range (d : Py.dict Q) :
  let '(weighted_score, total_weight) := weighting_loop d 0 0 in
  0 <= (if Py.ltb 0 total_weight then weighted_score / total_weight else 0) <= 1.
Proof.
  destruct (weighting_loop_bounds d 0 0) as [H1 [H2 _]]; [lra|].
  destruct (weighting_loop d 0 0) as [ws tw]. simpl in *.
  destruct (Py.ltb 0 tw) eqn:E; [|lra].
  apply PyFacts.ltb_spec in E. split.
  - apply Qle_shift_div_l; lra.
  - apply Qle_shift_div_r; lra.
Qed.

Lemma confidence_range (scores : Py.dict Q) (predictions : Py.dict Z) (c : Q) :
  _calculate_confidence scores predictions = Ok c -> 0 <= c <= 1.
Proof.
  unfold _calculate_confidence.
  destruct (List.length scores <? 2)%nat.
  - intro H. inversion H. lra.
  - destruct (Py.values predictions) as [|first rest]; [discriminate|].
    intro H. inversion H. apply PyFacts.clamp_range'.
Qed.

(** Every result of the [try] block carries scores in the unit
    interval. *)
Lemma predict_anomaly_try_range fe c st uid sid p :
  predict_anomaly_try fe c st uid sid = Ok p ->
  0 <= anomaly_score p <= 1 /\ 0 <= confidence p <= 1.
Proof.
  unfold predict_anomaly_try.
  destruct (extract_session_features fe st sid) as [[|f features]|e];
    [intro H; inversion H; simpl; lra| |discriminate].
  destruct (cache_get c uid) as [um|]; [|discriminate].
  destruct (transform (scaler um) _) as [X|e]; [|discriminate].
  destruct (ensemble_loop (models um) X [] []) as [es ep].
  destruct es as [|s0 es]; [intro H; inversion H; simpl; lra|].
  pose proof (ensemble_score_range (s0 :: es)) as Hs.
  destruct (weighting_loop (s0 :: es) 0 0) as [ws tw].
  destruct (_calculate_confidence (s0 :: es) ep) as [conf|e] eqn:Ec; [|discriminate].
  intro H. inversion H. simpl. split; [exact Hs|].
  eapply confidence_range; eauto.
Qed.

Lemma predict_anomaly_range fe c files st uid sid :
  let p := fst (predict_anomaly fe c files st uid sid) in
  0 <= anomaly_score p <= 1 /\ 0 <= confidence p <= 1.
Proof.
  unfold predict_anomaly.
  destruct (load_user_model c files uid) as [loaded c'].
  destruct loaded; simpl; [|lra].
  destruct (predict_anomaly_try fe c' st uid sid) as [p|e] eqn:E; simpl; [|lra].
  eapply predict_anomaly_try_range; eauto.
Qed.

(** Without a bundle on disk, and with a cache that only holds what was
    read from disk, [load_user_model] fails and the predictor answers
    with its neutral result. *)
Lemma predict_anomaly_no_model fe c files st uid sid :
  files uid = None -> Predict.cache_from_disk c files ->
  Predict.predict_anomaly fe c files st uid sid
  = ({| Predict.anomaly_score := 0; Predict.risk_level := "unknown";
        Predict.confidence := 0;
        Predict.message := Some "No trained model available"%string;
        Predict.model_scores := []; Predict.feature_analysis := None |}, c).
Proof.
  intros Hf Hc. unfold Predict.predict_anomaly, Predict.load_user_model.
  destruct (Predict.cache_get c uid) as [d|] eqn:E.
  - destruct (Hc uid d E) as [d' Hd]. congruence.
  - rewrite Hf. reflexivity.
Qed.

End PredictFacts.

(** ** The session table *)

Module DbFacts.

Import Db.

Lemma find_map_id (g : UserSession -> UserSession) (sid : Z)
  (l : list UserSession) :
  (forall s, id (g s) = id s) ->
  find (fun s => Z.eqb (id s) sid) (map g l)
  = option_map g (find (fun s => Z.eqb (id s) sid) l).
Proof.
  intro Hg. induction l as [|a l IH]; simpl; [reflexivity|].
  rewrite Hg. destruct (Z.eqb (id a) sid); [reflexivity|exact IH].
Qed.

(** A committed attribute write that keeps the primary key is seen by
    the next lookup of that key. *)
Lemma session_by_id_commit (st : store) (sid : Z)
  (f : UserSession -> UserSession) (s : UserSession) :
  (forall x, id (f x) = id x) ->
  session_by_id st sid = Some s ->
  session_by_id (commit_session st sid f) sid = Some (f s).
Proof.
  intros Hf Hs. unfold session_by_id, commit_session in *. simpl.
  rewrite find_map_id.
  - rewrite Hs. simpl.
    apply find_some in Hs. destruct Hs as [_ E]. now rewrite E.
  - intro x. destruct (Z.eqb (id x) sid); [apply Hf|reflexivity].
Qed.

End DbFacts.

(** ** The trust engine *)

Module TrustFacts.

Import TrustEngine.

Lemma clamp_eq (x : Q) : Py.max 0 (Py.min 1 x) == Py.clamp x 0 1.
Proof.
  unfold Py.clamp.
  destruct (Py.ltb x 0) eqn:E0.
  - apply PyFacts.ltb_spec in E0.
    destruct (PyFacts.min_spec 1 x) as [[H ->]|[H ->]]; [lra|].
    destruct (PyFacts.max_spec 0 x) as [[H' ->]|[H' ->]]; lra.
  - assert (0 <= x) as H0.
    { apply Qnot_lt_le. intro H. apply PyFacts.ltb_spec in H. congruence. }
    destruct (Py.ltb 1 x) eqn:E1.
    + apply PyFacts.ltb_spec in E1.
      destruct (PyFacts.min_spec 1 x) as [[H ->]|[H ->]]; [|lra].
      destruct (PyFacts.max_spec 0 1) as [[H' ->]|[H' ->]]; lra.
    + assert (x <= 1) as H1.
      { apply Qnot_lt_le. intro H. apply PyFacts.ltb_spec in H. congruence. }
      apply PyFacts.clamp_id. split; assumption.
Qed.

Lemma clamp_compat (x y : Q) : x == y -> Py.clamp x 0 1 == Py.clamp y 0 1.
Proof.
  intro E. unfold Py.clamp.
  destruct (Py.ltb x 0) eqn:Ex0; destruct (Py.ltb y 0) eqn:Ey0;
    try reflexivity.
  - apply PyFacts.ltb_spec in Ex0.
    assert (~ y < 0) by (intro H; apply PyFacts.ltb_spec in H; congruence). lra.
  - apply PyFacts.ltb_spec in Ey0.
    assert (~ x < 0) by (intro H; apply PyFacts.ltb_spec in H; congruence). lra.
  - destruct (Py.ltb 1 x) eqn:Ex1; destruct (Py.ltb 1 y) eqn:Ey1;
      try reflexivity; try exact E.
    + apply PyFacts.ltb_spec in Ex1.
      assert (~ 1 < y) by (intro H; apply PyFacts.ltb_spec in H; congruence). lra.
    + apply PyFacts.ltb_spec in Ey1.
      assert (~ 1 < x) by (intro H; apply PyFacts.ltb_spec in H; congruence). lra.
Qed.

(** On a prediction whose scores lie in the unit interval the clamp of
    [_calculate_behavioral_score] is the identity. *)
Lemma behavioral_score_formula (p : Predict.prediction) :
  0 <= Predict.anomaly_score p <= 1 -> 0 <= Predict.confidence p <= 1 ->
  _calculate_behavioral_score p ==
  (1 - Predict.anomaly_score p) * Predict.confidence p
  + 0.5 * (1 - Predict.confidence p).
Proof.
  intros Ha Hc. unfold _calculate_behavioral_score.
  rewrite PyFacts.clamp_id; [ring|].
  generalize dependent (Predict.confidence p).
  generalize dependent (Predict.anomaly_score p).
  intros a Ha c Hc. split; nra.
Qed.

Lemma weighted_trust_formula (c : trust_components) :
  weighted_trust c ==
  0.4 * behavioral_score c + 0.2 * temporal_consistency c
  + 0.15 * session_context c + 0.15 * historical_trust c
  + 0.1 * anomaly_frequency c.
Proof. unfold weighted_trust, Py.sum. simpl. ring. Qed.

(** The shape of a call on a session that is in the store. *)
Lemma calculate_trust_score_found fe c files st clk sid session :
  Db.session_by_id st sid = Some session ->
  let p := fst (Predict.predict_anomaly fe c files st (Db.user_id session) sid) in
  let comps :=
    {| behavioral_score := _calculate_behavioral_score p;
       temporal_consistency :=
         _calculate_temporal_consistency st session (now_temporal clk);
       session_context :=
         _calculate_session_context_score st session (now_context clk);
       historical_trust :=
         _calculate_historical_trust st (Db.user_id session) (now_history clk);
       anomaly_frequency :=
         _calculate_anomaly_frequency st sid (now_frequency clk) |} in
  let T := Py.max 0 (Py.min 1 (weighted_trust comps)) in
  let out := calculate_trust_score fe c files st clk sid in
  trust_score (fst (fst out)) = T
  /\ trust_level (fst (fst out)) = TrustLevel_value (_determine_trust_level T)
  /\ recommended_action (fst (fst out))
     = SecurityAction_value (trust_actions (_determine_trust_level T))
  /\ components (fst (fst out)) = Some comps
  /\ behavioral_analysis (fst (fst out)) = Some p
  /\ r_confidence (fst (fst out)) = Some (Predict.confidence p)
  /\ error (fst (fst out)) = None
  /\ snd (fst out) = _update_session_trust st session T (now_update clk).
Proof.
  intro Hs. unfold calculate_trust_score, calculate_trust_score_try.
  rewrite Hs.
  destruct (Predict.predict_anomaly fe c files st (Db.user_id session) sid)
    as [p c']. cbn [fst snd]. repeat split; reflexivity.
Qed.

(** The shape of a call on a session id that is not in the store. *)
Lemma calculate_trust_score_missing fe c files st clk sid :
  Db.session_by_id st sid = None ->
  calculate_trust_score_try fe c files st clk sid
  = (Raise (ValueError ("Session " ++ Py.str_of_int sid ++ " not found")),
     st, c).
Proof.
  intro Hs. unfold calculate_trust_score_try. now rewrite Hs.
Qed.

(** The [try] block raises only before it has written anything. *)
Lemma calculate_trust_score_try_raise fe c files st clk sid e st' c' :
  calculate_trust_score_try fe c files st clk sid = (Raise e, st', c') ->
  st' = st /\ c' = c /\ Db.session_by_id st sid = None.
Proof.
  unfold calculate_trust_score_try.
  destruct (Db.session_by_id st sid) as [session|] eqn:Hs.
  - destruct (Predict.predict_anomaly fe c files st (Db.user_id session) sid).
    discriminate.
  - intro H. inversion H. auto.
Qed.

End TrustFacts.

(** ** Trust score: composite, range, fallback and write-back *)

Module TrustTheorems.

Import TrustEngine.

(** C1.  For every session present in the store, [calculate_trust_score]
    returns a trust score equal to
    [clamp(0.4 b' + 0.2 t + 0.15 x + 0.15 h + 0.1 f, 0, 1)], where
    [b' = (1 - anomaly_score) * confidence + 0.5 * (1 - confidence)] is
    computed from the predictor's result and [t], [x], [h], [f] are the
    temporal-consistency, session-context, historical-trust and
    anomaly-frequency components computed from the store. *)
Theorem trust_score_is_weighted_composite fe c files st clk sid session :
  Db.session_by_id st sid = Some session ->
  let p := fst (Predict.predict_anomaly fe c files st (Db.user_id session) sid) in
  let b' := (1 - Predict.anomaly_score p) * Predict.confidence p
            + 0.5 * (1 - Predict.confidence p) in
  let t := _calculate_temporal_consistency st session (now_temporal clk) in
  let x := _calculate_session_context_score st session (now_context clk) in
  let h := _calculate_historical_trust st (Db.user_id session) (now_history clk) in
  let f := _calculate_anomaly_frequency st sid (now_frequency clk) in
  let r := fst (fst (calculate_trust_score fe c files st clk sid)) in
  error r = None
  /\ trust_score r ==
     Py.clamp (0.4 * b' + 0.2 * t + 0.15 * x + 0.15 * h + 0.1 * f) 0 1.
Proof.
  intros Hs p b' t x h f r.
  destruct (TrustFacts.calculate_trust_score_found fe c files st clk sid session Hs)
    as [HT [_ [_ [_ [_ [_ [He _]]]]]]].
  split; [exact He|].
  subst r. rewrite HT. rewrite TrustFacts.clamp_eq.
  apply TrustFacts.clamp_compat.
  rewrite TrustFacts.weighted_trust_formula. cbn [behavioral_score
    temporal_consistency session_context historical_trust anomaly_frequency].
  destruct (PredictFacts.predict_anomaly_range fe c files st
              (Db.user_id session) sid) as [Ha Hc].
  rewrite (TrustFacts.behavioral_score_formula _ Ha Hc).
  subst p b' t x h f. ring.
Qed.

(** C2.  Range invariants: every per-detector normalised score, the
    anomaly score and the confidence of [predict_anomaly], the trust
    score and the confidence of [calculate_trust_score] lie in [0,1];
    and after a trust update that succeeded, the session's stored
    [current_trust_score] lies in [0,1]. *)
Theorem scores_in_unit_interval :
  (forall score name,
      0 <= Predict._normalize_anomaly_score score name <= 1)
  /\ (forall fe c files st uid sid,
         let p := fst (Predict.predict_anomaly fe c files st uid sid) in
         0 <= Predict.anomaly_score p <= 1 /\ 0 <= Predict.confidence p <= 1)
  /\ (forall fe c files st clk sid,
         let out := calculate_trust_score fe c files st clk sid in
         let r := fst (fst out) in
         0 <= trust_score r <= 1
         /\ (forall conf, r_confidence r = Some conf -> 0 <= conf <= 1)
         /\ (error r = None ->
             exists s', Db.session_by_id (snd (fst out)) sid = Some s'
                        /\ 0 <= Db.current_trust_score s' <= 1)).
Proof.
  split; [exact PredictFacts.normalize_range|].
  split; [exact PredictFacts.predict_anomaly_range|].
  intros fe c files st clk sid out r.
  destruct (Db.session_by_id st sid) as [session|] eqn:Hs.
  - destruct (TrustFacts.calculate_trust_score_found fe c files st clk sid session Hs)
      as [HT [_ [_ [_ [_ [Hc [_ Hst]]]]]]].
    fold out in HT, Hc, Hst. fold r in HT, Hc.
    split; [rewrite HT; apply PyFacts.clamp_range|].
    split.
    + intros conf E. rewrite Hc in E. inversion E. subst conf.
      apply PredictFacts.predict_anomaly_range.
    + intros _. rewrite Hst. unfold _update_session_trust.
      pose proof (find_some _ _ Hs) as [_ Hid].
      apply Z.eqb_eq in Hid. rewrite Hid.
      eexists. split.
      * apply DbFacts.session_by_id_commit; [reflexivity|exact Hs].
      * cbn [Db.current_trust_score Db.set_last_activity
               Db.set_current_trust_score].
        apply PyFacts.clamp_range.
  - pose proof (TrustFacts.calculate_trust_score_missing fe c files st clk sid Hs)
      as Hm.
    subst r out. unfold calculate_trust_score. rewrite Hm.
    cbn [fst snd trust_score r_confidence error].
    split; [lra|]. split; [discriminate|discriminate].
Qed.

(** C3.  If any step of [calculate_trust_score] fails (the [try] block
    raises, as it does when the session id is not in the store), the
    call returns the fallback result: trust score 0.5, level moderate,
    action increase_monitoring and an [error] field; and the store,
    hence the session's [current_trust_score] and [last_activity], is
    left as it was. *)
Theorem failure_yields_neutral_fallback fe c files st clk sid :
  (Db.session_by_id st sid = None
   \/ exists e, fst (fst (calculate_trust_score_try fe c files st clk sid))
                = Raise e) ->
  let out := calculate_trust_score fe c files st clk sid in
  let r := fst (fst out) in
  trust_score r = 0.5
  /\ trust_level r = "moderate"%string
  /\ recommended_action r = "increase_monitoring"%string
  /\ (exists msg, error r = Some msg)
  /\ snd (fst out) = st.
Proof.
  intros H out r.
  assert (exists e, calculate_trust_score_try fe c files st clk sid
                    = (Raise e, st, c)) as [e He].
  { destruct H as [Hs|[e He]].
    - eexists. now apply TrustFacts.calculate_trust_score_missing.
    - destruct (calculate_trust_score_try fe c files st clk sid)
        as [[res st'] c'] eqn:E.
      cbn [fst] in He. subst res.
      destruct (TrustFacts.calculate_trust_score_try_raise _ _ _ _ _ _ _ _ _ E)
        as [-> [-> _]].
      now exists e. }
  subst r out. unfold calculate_trust_score. rewrite He.
  cbn [fst snd trust_score trust_level recommended_action error
       TrustLevel_value SecurityAction_value].
  repeat split; try reflexivity. eexists; reflexivity.
Qed.

(** The range invariants on Alice's session, whose update succeeds. *)
Lemma scores_in_unit_interval_witness :
  let out := calculate_trust_score Examples.fe_empty [] Examples.no_files
               Examples.alice_store (Examples.clock_at 100) 1 in
  0 <= trust_score (fst (fst out)) <= 1
  /\ exists s', Db.session_by_id (snd (fst out)) 1 = Some s'
                /\ 0 <= Db.current_trust_score s' <= 1.
Proof.
  destruct scores_in_unit_interval as [_ [_ H]].
  destruct (H Examples.fe_empty [] Examples.no_files Examples.alice_store
              (Examples.clock_at 100) 1%Z) as [H1 [_ H3]].
  split; [exact H1|]. apply H3. reflexivity.
Defined.

(** The fallback on the empty store, where session 1 is missing. *)
Lemma failure_yields_neutral_fallback_witness :
  let out := calculate_trust_score Examples.fe_empty [] Examples.no_files
               Examples.empty_store (Examples.clock_at 100) 1 in
  trust_score (fst (fst out)) = 0.5
  /\ trust_level (fst (fst out)) = "moderate"%string
  /\ recommended_action (fst (fst out)) = "increase_monitoring"%string
  /\ (exists msg, error (fst (fst out)) = Some msg)
  /\ snd (fst out) = Examples.empty_store.
Proof.
  apply (failure_yields_neutral_fallback Examples.fe_empty []
           Examples.no_files Examples.empty_store (Examples.clock_at 100) 1).
  left. reflexivity.
Defined.

(** The composite on Alice's session: 0.4 * 0.5 + 0.2 * 0.7 + 0.15 * 0.6
    + 0.15 * 1 + 0.1 * 1 = 0.68. *)
Lemma trust_score_is_weighted_composite_witness :
  let r := fst (fst (calculate_trust_score Examples.fe_empty []
                       Examples.no_files Examples.alice_store
                       (Examples.clock_at 100) 1)) in
  error r = None /\ trust_score r == 0.68.
Proof.
  destruct (trust_score_is_weighted_composite Examples.fe_empty []
              Examples.no_files Examples.alice_store (Examples.clock_at 100)
              1 Examples.alice_session) as [He HT]; [reflexivity|].
  split; [exact He|]. rewrite HT. vm_compute. reflexivity.
Defined.

End TrustTheorems.

(** ** The write-back and the no-model path, as the code has them *)

Module TrustCorrections.

Import TrustEngine.

(** C5, as stated, fails: a session whose stored trust is 1.0 and whose
    user has no model is rewritten to 0.68 by one call, a swing of 0.32,
    above [max_decay_per_update] = 0.2. *)
Lemma write_back_exceeds_max_decay :
  let st' := snd (fst (calculate_trust_score Examples.fe_empty []
                         Examples.no_files Examples.alice_store
                         (Examples.clock_at 100) 1)) in
  Db.session_by_id Examples.alice_store 1 = Some Examples.alice_session
  /\ Db.current_trust_score Examples.alice_session == 1
  /\ exists s', Db.session_by_id st' 1 = Some s'
                /\ Db.current_trust_score s' == 0.68
                /\ max_decay_per_update
                   < Qabs (Db.current_trust_score s'
                           - Db.current_trust_score Examples.alice_session).
Proof.
  cbv zeta. split; [reflexivity|]. split; [reflexivity|].
  eexists. split; [vm_compute; reflexivity|].
  split; vm_compute; reflexivity.
Qed.

(** C5, amended.  On every trust write-back the engine stores exactly
    the clamped composite score of the call, together with the update
    time; [max_decay_per_update] is not applied, and the distance to the
    previous stored value is bounded by 1 only. *)
Theorem write_back_stores_composite fe c files st clk sid session :
  Db.session_by_id st sid = Some session ->
  let out := calculate_trust_score fe c files st clk sid in
  exists s', Db.session_by_id (snd (fst out)) sid = Some s'
             /\ Db.current_trust_score s' = trust_score (fst (fst out))
             /\ Db.last_activity s' = now_update clk
             /\ (0 <= Db.current_trust_score session <= 1 ->
                 Qabs (Db.current_trust_score s'
                       - Db.current_trust_score session) <= 1).
Proof.
  intros Hs out.
  destruct (TrustFacts.calculate_trust_score_found fe c files st clk sid
              session Hs) as [HT [_ [_ [_ [_ [_ [_ Hst]]]]]]].
  fold out in HT, Hst. rewrite Hst, HT. unfold _update_session_trust.
  pose proof (find_some _ _ Hs) as [_ Hid].
  apply Z.eqb_eq in Hid. rewrite Hid.
  eexists. split.
  - apply DbFacts.session_by_id_commit; [reflexivity|exact Hs].
  - cbn [Db.current_trust_score Db.last_activity Db.set_last_activity
           Db.set_current_trust_score].
    split; [reflexivity|]. split; [reflexivity|].
    intro Hprev. apply Qabs_Qle_condition.
    match goal with |- context [Py.max 0 (Py.min 1 ?w)] =>
      pose proof (PyFacts.clamp_range w) end.
    lra.
Qed.

(** The write-back on Alice's session, at update time 100. *)
Lemma write_back_stores_composite_witness :
  exists s',
    Db.session_by_id
      (snd (fst (calculate_trust_score Examples.fe_empty []
                   Examples.no_files Examples.alice_store
                   (Examples.clock_at 100) 1))) 1 = Some s'
    /\ Db.last_activity s' = 100.
Proof.
  destruct (write_back_stores_composite Examples.fe_empty []
              Examples.no_files Examples.alice_store (Examples.clock_at 100)
              1 Examples.alice_session) as [s' [H1 [_ [H3 _]]]];
    [reflexivity|].
  exists s'. split; [exact H1|exact H3].
Defined.

(** C7, as stated, fails: for a user with no bundle on disk the call
    returns 0.68 and level high, not 0.5 and level moderate. *)
Lemma no_model_score_is_not_neutral :
  let r := fst (fst (calculate_trust_score Examples.fe_empty []
                       Examples.no_files Examples.alice_store
                       (Examples.clock_at 100) 1)) in
  Examples.no_files (Db.user_id Examples.alice_session) = None
  /\ trust_score r == 0.68
  /\ ~ trust_score r == 0.5
  /\ trust_level r = "high"%string
  /\ trust_level r <> "moderate"%string
  /\ error r = None.
Proof.
  cbv zeta. split; [reflexivity|].
  split; [vm_compute; reflexivity|].
  split; [vm_compute; discriminate|].
  split; [vm_compute; reflexivity|].
  split; [vm_compute; discriminate|vm_compute; reflexivity].
Qed.

(** C7, amended.  When the user has no trained model bundle on disk,
    the result of the call carries the predictor's neutral analysis
    (anomaly score 0.0, risk level unknown, confidence 0.0, message
    "No trained model available") and no error field; the behavioural
    component is the neutral 0.5, the trust score is
    [clamp(0.2 + 0.2 t + 0.15 x + 0.15 h + 0.1 f, 0, 1)], and level and
    action follow from that score by the engine's two mappings. *)
Theorem no_model_result fe c files st clk sid session :
  Db.session_by_id st sid = Some session ->
  files (Db.user_id session) = None ->
  Predict.cache_from_disk c files ->
  let t := _calculate_temporal_consistency st session (now_temporal clk) in
  let x := _calculate_session_context_score st session (now_context clk) in
  let h := _calculate_historical_trust st (Db.user_id session) (now_history clk) in
  let f := _calculate_anomaly_frequency st sid (now_frequency clk) in
  let r := fst (fst (calculate_trust_score fe c files st clk sid)) in
  behavioral_analysis r
  = Some {| Predict.anomaly_score := 0; Predict.risk_level := "unknown";
            Predict.confidence := 0;
            Predict.message := Some "No trained model available"%string;
            Predict.model_scores := []; Predict.feature_analysis := None |}
  /\ error r = None
  /\ option_map behavioral_score (components r) = Some 0.5
  /\ trust_score r == Py.clamp (0.2 + 0.2 * t + 0.15 * x + 0.15 * h + 0.1 * f) 0 1
  /\ trust_level r = TrustLevel_value (_determine_trust_level (trust_score r))
  /\ recommended_action r
     = SecurityAction_value (trust_actions (_determine_trust_level (trust_score r))).
Proof.
  intros Hs Hf Hc t x h f r.
  destruct (TrustFacts.calculate_trust_score_found fe c files st clk sid
              session Hs) as [HT [HL [HA [HC [HB [_ [HE _]]]]]]].
  fold r in HT, HL, HA, HC, HB, HE.
  rewrite (PredictFacts.predict_anomaly_no_model fe c files st (Db.user_id session) sid Hf Hc)
    in HT, HL, HA, HC, HB.
  cbn [fst] in HT, HL, HA, HC, HB.
  split; [exact HB|]. split; [exact HE|].
  split; [rewrite HC; reflexivity|].
  split.
  - rewrite HT, TrustFacts.clamp_eq. apply TrustFacts.clamp_compat.
    rewrite TrustFacts.weighted_trust_formula.
    cbn [behavioral_score temporal_consistency session_context
         historical_trust anomaly_frequency].
    assert (_calculate_behavioral_score
              {| Predict.anomaly_score := 0; Predict.risk_level := "unknown";
                 Predict.confidence := 0;
                 Predict.message := Some "No trained model available"%string;
                 Predict.model_scores := []; Predict.feature_analysis := None |}
            == 0.5) as -> by (vm_compute; reflexivity).
    subst t x h f. ring.
  - rewrite HL, HA, HT. split; reflexivity.
Qed.

(** The no-model result on Alice's session. *)
Lemma no_model_result_witness :
  let r := fst (fst (calculate_trust_score Examples.fe_empty []
                       Examples.no_files Examples.alice_store
                       (Examples.clock_at 100) 1)) in
  error r = None /\ trust_score r == 0.68.
Proof.
  destruct (no_model_result Examples.fe_empty [] Examples.no_files
              Examples.alice_store (Examples.clock_at 100) 1
              Examples.alice_session) as [_ [He [_ [HT _]]]].
  - reflexivity.
  - reflexivity.
  - intros uid d H. discriminate H.
  - split; [exact He|]. rewrite HT. vm_compute. reflexivity.
Defined.

End TrustCorrections.

(** ** Confidence and failure paths of the predictor *)

Module PredictTheorems.

Import Predict.

Lemma min_max_clamp (x : Q) : Py.min 1 (Py.max 0 x) == Py.clamp x 0 1.
Proof.
  unfold Py.clamp.
  destruct (Py.ltb x 0) eqn:E0.
  - apply PyFacts.ltb_spec in E0.
    destruct (PyFacts.max_spec 0 x) as [[H ->]|[H ->]]; [|lra].
    destruct (PyFacts.min_spec 1 0) as [[H' ->]|[H' ->]]; lra.
  - assert (0 <= x) as H0.
    { apply Qnot_lt_le. intro H. apply PyFacts.ltb_spec in H. congruence. }
    destruct (Py.ltb 1 x) eqn:E1.
    + apply PyFacts.ltb_spec in E1.
      destruct (PyFacts.max_spec 0 x) as [[H ->]|[H ->]].
      * destruct (PyFacts.min_spec 1 0) as [[H' ->]|[H' ->]]; lra.
      * destruct (PyFacts.min_spec 1 x) as [[H' ->]|[H' ->]]; lra.
    + assert (x <= 1) as H1.
      { apply Qnot_lt_le. intro H. apply PyFacts.ltb_spec in H. congruence. }
      apply PyFacts.clamp_id'. split; assumption.
Qed.

Lemma keys_dict_set {V W : Type} (d1 : Py.dict V) : forall (d2 : Py.dict W) k v w,
  Py.keys d1 = Py.keys d2 ->
  Py.keys (Py.dict_set d1 k v) = Py.keys (Py.dict_set d2 k w).
Proof.
  induction d1 as [|[k1 v1] d1 IH]; intros [|[k2 v2] d2] k v w H;
    simpl in *; try discriminate; [reflexivity|].
  inversion H; subst.
  destruct (String.eqb k2 k); simpl; [congruence|].
  f_equal. now apply IH.
Qed.

(** The ensemble loop records a score and a prediction under the same
    detector names, in the same order. *)
Lemma ensemble_loop_keys (ms : Py.dict sk_model) (X : list Q) : forall es ep,
  Py.keys es = Py.keys ep ->
  Py.keys (fst (ensemble_loop ms X es ep))
  = Py.keys (snd (ensemble_loop ms X es ep)).
Proof.
  induction ms as [|[name m] ms IH]; intros es ep H; simpl; [exact H|].
  destruct (decision_function m X); [destruct (predict m X)|];
    apply IH; try exact H.
  now apply keys_dict_set.
Qed.

(** C8, as stated, fails: with three detectors whose first predicts an
    outlier (raw score -0.1) and whose other two predict an inlier (raw
    score 0.2), the variance of the raw scores is 0.02; the code returns
    0.6 * 1/3 + 0.4 / 1.02 = 151/255 (agreement with the first
    detector), the majority formula 0.6 * 2/3 + 0.4 / 1.02 = 202/255. *)
Lemma confidence_counts_agreement_with_first :
  exists c,
    _calculate_confidence Examples.split_scores Examples.split_predictions
    = Ok c
    /\ c == 151 # 255
    /\ spec_confidence Examples.split_scores Examples.split_predictions
       == 202 # 255
    /\ ~ c == spec_confidence Examples.split_scores Examples.split_predictions.
Proof.
  eexists. split; [vm_compute; reflexivity|].
  split; [vm_compute; reflexivity|].
  split; [vm_compute; reflexivity|vm_compute; discriminate].
Qed.

(** C8, amended.  When at least two detectors produced predictions, the
    confidence is 0.6 times the fraction of detectors whose prediction
    equals the prediction of the first detector, plus 0.4 times
    [1 / (1 + Var(raw scores))], clamped to [0,1]; with a single
    detector it is 0.5. *)
Theorem confidence_formula (scores : Py.dict Q) (predictions : Py.dict Z) :
  Py.keys scores = Py.keys predictions ->
  ((2 <= List.length scores)%nat ->
   exists first c,
     hd_error (Py.values predictions) = Some first
     /\ _calculate_confidence scores predictions = Ok c
     /\ c == Py.clamp
               (0.6 * (inject_Z (Z.of_nat (Py.count (Py.values predictions) first))
                       / Py.len (Py.values predictions))
                + 0.4 * (1 / (1 + Py.var (Py.values scores))))
               0 1)
  /\ (List.length scores = 1%nat ->
      _calculate_confidence scores predictions = Ok 0.5).
Proof.
  intro Hk. split.
  - intro Hlen. unfold _calculate_confidence.
    destruct (List.length scores <? 2)%nat eqn:E;
      [apply Nat.ltb_lt in E; lia|].
    destruct predictions as [|[k first] rest].
    + destruct scores; simpl in *; [lia|discriminate].
    + exists first. eexists. split; [reflexivity|]. split; [reflexivity|].
      rewrite min_max_clamp. apply TrustFacts.clamp_compat.
      unfold Py.values. cbn [map snd]. ring.
  - intro H1. unfold _calculate_confidence. rewrite H1. reflexivity.
Qed.

(** The confidence of the three split detectors. *)
Lemma confidence_formula_witness :
  exists first c,
    hd_error (Py.values Examples.split_predictions) = Some first
    /\ _calculate_confidence Examples.split_scores Examples.split_predictions
       = Ok c.
Proof.
  destruct (confidence_formula Examples.split_scores
              Examples.split_predictions) as [H _]; [reflexivity|].
  destruct H as [first [c [H1 [H2 _]]]]; [vm_compute; lia|].
  exists first, c. split; [exact H1|exact H2].
Defined.

(** C10.  [predict_anomaly] always returns a result dictionary: the
    embedding is a total function whose [try] block has its [Raise]
    outcome turned into a result.  On every failure path (no bundle on
    disk, a bundle that does not load, no extractable session features,
    all detectors failing, any exception raised in the [try] block) the
    returned anomaly score is exactly 0 with confidence 0, the score
    that [_determine_risk_level] calls normal. *)
Theorem prediction_failure_scores_zero fe c files st uid sid :
  let loaded := fst (load_user_model c files uid) in
  let c' := snd (load_user_model c files uid) in
  let p := fst (predict_anomaly fe c files st uid sid) in
  ((files uid = None /\ cache_from_disk c files)
   \/ loaded = false
   \/ extract_session_features fe st sid = Ok []
   \/ (exists e, predict_anomaly_try fe c' st uid sid = Raise e)
   \/ (exists features um X,
         extract_session_features fe st sid = Ok features
         /\ cache_get c' uid = Some um
         /\ transform (scaler um) (create_feature_vector features) = Ok X
         /\ fst (ensemble_loop (models um) X [] []) = [])) ->
  anomaly_score p = 0 /\ confidence p = 0 /\ message p <> None
  /\ _determine_risk_level (anomaly_score p) = "normal"%string.
Proof.
  intros loaded c' p H.
  assert (anomaly_score p = 0 /\ confidence p = 0 /\ message p <> None) as G.
  { destruct H as [[Hf Hc]|H].
    { subst p. rewrite (PredictFacts.predict_anomaly_no_model _ _ _ _ _ _ Hf Hc).
      cbn. repeat split; discriminate. }
    subst p loaded c'. unfold predict_anomaly.
    destruct (load_user_model c files uid) as [ok c1]. cbn [fst snd] in *.
    destruct ok; cbn [negb]; [|cbn; repeat split; discriminate].
    destruct H as [H|[H|[H|H]]].
    - discriminate.
    - unfold predict_anomaly_try. rewrite H. cbn. repeat split; discriminate.
    - destruct H as [e He]. rewrite He. cbn. repeat split; discriminate.
    - destruct H as [features [um [X [Hx [Hu [Ht He]]]]]].
      unfold predict_anomaly_try. rewrite Hx.
      destruct features as [|f0 features]; [cbn; repeat split; discriminate|].
      rewrite Hu, Ht.
      destruct (ensemble_loop (models um) X [] []) as [es ep].
      cbn [fst] in He. subst es. cbn. repeat split; discriminate. }
  destruct G as [G1 [G2 G3]]. repeat split; try assumption.
  rewrite G1. reflexivity.
Qed.

(** The failure result for user 7, who has no bundle on disk. *)
Lemma prediction_failure_scores_zero_witness :
  let p := fst (predict_anomaly Examples.fe_empty [] Examples.no_files
                  Examples.alice_store 7 1) in
  anomaly_score p = 0 /\ confidence p = 0 /\ message p <> None
  /\ _determine_risk_level (anomaly_score p) = "normal"%string.
Proof.
  apply (prediction_failure_scores_zero Examples.fe_empty []
           Examples.no_files Examples.alice_store 7 1).
  left. split; [reflexivity|]. intros uid d H. discriminate H.
Defined.

End PredictTheorems.

(** ** Training *)

Module TrainFacts.

Import TrainModel.

(** When no extraction raises, the loop returns one vector per
    qualifying session group. *)
Lemma collect_loop_count fe st groups :
  forallb (fun g => negb (extraction_raises fe st g)) groups = true ->
  exists fv fd, collect_loop fe st groups = Ok (fv, fd)
                /\ List.length fv = List.length (filter (yields_vector fe st) groups).
Proof.
  induction groups as [|[sid evs] groups IH]; intro H.
  - exists [], []. split; reflexivity.
  - cbn [forallb] in H. apply andb_true_iff in H. destruct H as [Hg Hrest].
    destruct (IH Hrest) as [fv [fd [Hc Hl]]].
    cbn [collect_loop filter].
    unfold extraction_raises in Hg. cbn [fst snd] in Hg.
    replace (yields_vector fe st (sid, evs))
      with ((10 <=? List.length evs)%nat &&
            match Predict.extract_session_features fe st sid with
            | Ok (_ :: _) => true
            | _ => false
            end) by reflexivity.
    destruct (10 <=? List.length evs)%nat; cbn [andb negb] in *.
    + destruct (Predict.extract_session_features fe st sid) as [[|f0 fs]|e];
        [| |discriminate]; rewrite Hc.
      * exists fv, fd. split; [reflexivity|exact Hl].
      * eexists. eexists. split; [reflexivity|].
        cbn [List.length]. now rewrite Hl.
    + exists fv, fd. split; [exact Hc|exact Hl].
Qed.

(** When an extraction raises, the loop raises. *)
Lemma collect_loop_raises fe st groups :
  forallb (fun g => negb (extraction_raises fe st g)) groups = false ->
  exists e, collect_loop fe st groups = Raise e.
Proof.
  induction groups as [|[sid evs] groups IH]; intro H; [discriminate|].
  cbn [forallb] in H. cbn [collect_loop].
  unfold extraction_raises in H at 1. cbn [fst snd] in H.
  destruct (10 <=? List.length evs)%nat; cbn [andb negb] in H.
  - destruct (Predict.extract_session_features fe st sid) as [features|e];
      [|eexists; reflexivity].
    cbn [negb andb] in H. destruct (IH H) as [e He]. rewrite He.
    eexists; reflexivity.
  - destruct (IH H) as [e He]. now exists e.
Qed.

(** The outcomes of the [try] block: it raises or refuses with the files
    untouched, or it succeeds, with at least one fitted detector, and
    dumps the bundle. *)
Lemma train_user_model_try_cases fe sk files st uid now :
  let out := train_user_model_try fe sk files st uid now in
  (snd out = files
   /\ ((exists e, fst out = Raise e)
       \/ (exists r, fst out = Ok r /\ success r = false)))
  \/ (exists r d, fst out = Ok r /\ success r = true
                  /\ models_trained r <> [] /\ Predict.models d <> []
                  /\ models_trained r = Py.keys (Predict.models d)
                  /\ snd out = Predict.dump files uid d).
Proof.
  unfold train_user_model_try.
  destruct (collect_training_data fe st uid now) as [[X fd]|e];
    [|left; split; [reflexivity|left; eexists; reflexivity]].
  destruct X as [|x0 X];
    [left; split; [reflexivity|right; eexists; split; reflexivity]|].
  destruct (fit_scalers sk (x0 :: X)) as [u|e];
    [|left; split; [reflexivity|left; eexists; reflexivity]].
  destruct (fit_transform sk (x0 :: X)) as [[scaler Xs]|e];
    [|left; split; [reflexivity|left; eexists; reflexivity]].
  destruct (train_loop sk model_names Xs) as [|m0 ms] eqn:E;
    [left; split; [reflexivity|right; eexists; split; reflexivity]|].
  right. eexists.
  exists {| Predict.models := m0 :: ms; Predict.scaler := scaler;
            Predict.feature_importance := _calculate_feature_importance Xs |}.
  cbn [fst snd success models_trained Predict.models].
  split; [reflexivity|]. split; [reflexivity|].
  split; [destruct m0; discriminate|].
  split; [discriminate|]. split; reflexivity.
Qed.

(** [collect_training_data] returns nothing on fewer than 50 events. *)
Lemma collect_few_events fe st uid now :
  (List.length (training_events st uid now 30) < 50)%nat ->
  collect_training_data fe st uid now = Ok ([], []).
Proof.
  intro H. unfold collect_training_data.
  apply Nat.ltb_lt in H. now rewrite H.
Qed.

(** [collect_training_data] returns nothing on fewer than 10 qualifying
    session groups. *)
Lemma collect_few_sessions fe st uid now :
  let groups := session_groups (training_events st uid now 30) in
  forallb (fun g => negb (extraction_raises fe st g)) groups = true ->
  (List.length (filter (yields_vector fe st) groups) < 10)%nat ->
  collect_training_data fe st uid now = Ok ([], []).
Proof.
  intros groups Hr Hq. unfold collect_training_data.
  destruct (List.length (training_events st uid now 30) <? 50)%nat;
    [reflexivity|].
  destruct (collect_loop_count fe st groups Hr) as [fv [fd [Hc Hl]]].
  fold groups. rewrite Hc.
  rewrite <- Hl in Hq. apply Nat.ltb_lt in Hq. now rewrite Hq.
Qed.

End TrainFacts.

Module TrainTheorems.

Import TrainModel.

(** C6.  [train_user_model] refuses and reports insufficient data
    (no success, no sample collected: the result [train_all_users]
    counts as insufficient data), leaving the model files untouched,
    whenever the user has fewer than 50 events in the training window
    or fewer than 10 session groups (of at least 10 events each) yield
    feature vectors; its message is "Insufficient training data" unless
    a feature extraction raised.  The bundle file changes only on a run
    that reports success, in which at least one detector was fitted. *)
Theorem training_refusal_keeps_bundle fe sk files st uid now :
  let events := training_events st uid now 30 in
  let groups := session_groups events in
  let out := train_user_model fe sk files st uid now in
  (((List.length events < 50)%nat
    \/ (List.length (filter (yields_vector fe st) groups) < 10)%nat) ->
   success (fst out) = false
   /\ samples_collected (fst out) = 0%nat
   /\ tally_of (fst out) = insufficient_data
   /\ snd out = files
   /\ ((List.length events < 50)%nat
       \/ forallb (fun g => negb (extraction_raises fe st g)) groups = true ->
       message (fst out) = "Insufficient training data"%string))
  /\ (success (fst out) = false -> snd out = files)
  /\ (snd out <> files ->
      success (fst out) = true /\ models_trained (fst out) <> []
      /\ exists d, snd out = Predict.dump files uid d
                   /\ Predict.models d <> []
                   /\ models_trained (fst out) = Py.keys (Predict.models d)).
Proof.
  intros events groups out.
  assert (success (fst out) = false -> snd out = files) as Hkeep.
  { subst out. unfold train_user_model.
    destruct (TrainFacts.train_user_model_try_cases fe sk files st uid now)
      as [[Hf _]|[r [d [Hr [Hs _]]]]];
      destruct (train_user_model_try fe sk files st uid now) as [[r'|e] f'];
      cbn [fst snd] in *; try (intros _; exact Hf).
    - inversion Hr. subst r'. congruence.
    - discriminate. }
  split; [|split; [exact Hkeep|]].
  - intro H.
    assert (collect_training_data fe st uid now = Ok ([], [])
            \/ ((50 <= List.length events)%nat
                /\ forallb (fun g => negb (extraction_raises fe st g)) groups
                   = false
                /\ exists e, collect_training_data fe st uid now = Raise e))
      as Hc.
    { destruct (Nat.lt_ge_cases (List.length events) 50) as [Hlt|Hge].
      { left. now apply TrainFacts.collect_few_events. }
      destruct H as [H|H]; [lia|].
      destruct (forallb (fun g => negb (extraction_raises fe st g)) groups)
        eqn:Hr.
      - left. now apply TrainFacts.collect_few_sessions.
      - right. split; [exact Hge|]. split; [reflexivity|].
        destruct (TrainFacts.collect_loop_raises fe st groups Hr) as [e He].
        exists e. unfold collect_training_data. fold events groups.
        apply Nat.ltb_ge in Hge. rewrite Hge, He. reflexivity. }
    subst out. unfold train_user_model, train_user_model_try.
    destruct Hc as [Hc|[Hge [Hr [e Hc]]]]; rewrite Hc; cbn.
    + do 4 (split; [reflexivity|]). intros _. reflexivity.
    + do 4 (split; [reflexivity|]).
      intros [Hlt|Hnr]; [lia|congruence].
  - intro Hne.
    subst out. unfold train_user_model in *.
    destruct (TrainFacts.train_user_model_try_cases fe sk files st uid now)
      as [[Hf _]|[r [d [Hr [Hs [Hm [Hd [Hk Hw]]]]]]]];
      destruct (train_user_model_try fe sk files st uid now) as [[r'|e] f'];
      cbn [fst snd] in *; try congruence.
    inversion Hr. subst r'.
    split; [exact Hs|]. split; [exact Hm|].
    exists d. split; [exact Hw|]. split; [exact Hd|exact Hk].
Qed.

(** The refusal for user 7, who has no event at all. *)
Lemma training_refusal_keeps_bundle_witness :
  let out := train_user_model Examples.fe_empty Examples.sk_failing
               Examples.no_files Examples.alice_store 7 100 in
  success (fst out) = false
  /\ samples_collected (fst out) = 0%nat
  /\ tally_of (fst out) = insufficient_data
  /\ snd out = Examples.no_files
  /\ message (fst out) = "Insufficient training data"%string.
Proof.
  destruct (training_refusal_keeps_bundle Examples.fe_empty
              Examples.sk_failing Examples.no_files Examples.alice_store
              7 100) as [H _].
  destruct H as [H1 [H2 [H3 [H4 H5]]]]; [left; vm_compute; lia|].
  do 4 (split; [assumption|]). apply H5. left. vm_compute. lia.
Defined.

(** A run on ten sessions of ten events fits the three detectors and
    writes the bundle. *)
Example training_succeeds :
  let out := train_user_model Examples.fe_one Examples.sk_fitting
               Examples.no_files Examples.busy_store 7 200 in
  success (fst out) = true
  /\ samples_collected (fst out) = 10%nat
  /\ models_trained (fst out) = model_names
  /\ Examples.no_files 7%Z = None
  /\ (exists d, snd out 7%Z = Some (Predict.Bundle d)).
Proof.
  vm_compute. repeat split; try reflexivity. eexists; reflexivity.
Qed.

End TrainTheorems.

(** ** Movement rhythm *)

Module MouseFacts.

Import Mouse.

Lemma fold_plus_shift (l : list Q) : forall acc,
  fold_left Qplus l acc == acc + fold_left Qplus l 0.
Proof.
  induction l as [|x l IH]; intro acc; simpl.
  - ring.
  - rewrite IH. rewrite (IH (0 + x)). ring.
Qed.

Lemma fold_terms_sum {A : Type} (f : A -> Q) (l : list A) : forall acc,
  fold_left (fun a x => a + f x) l acc == acc + Py.sum (map f l).
Proof.
  unfold Py.sum. induction l as [|x l IH]; intro acc; simpl.
  - ring.
  - rewrite IH. rewrite (fold_plus_shift (map f l) (0 + f x)). ring.
Qed.

Lemma sum_of_ones {A : Type} (f : A -> Q) (l : list A) :
  (forall x, In x l -> f x == 1) -> Py.sum (map f l) == Py.len l.
Proof.
  unfold Py.sum, Py.len. induction l as [|x l IH]; intro H.
  - reflexivity.
  - cbn [map fold_left List.length].
    rewrite fold_plus_shift, IH by (intros y Hy; apply H; now right).
    rewrite (H x) by now left.
    rewrite Nat2Z.inj_succ, <- Z.add_1_r, inject_Z_plus. ring.
Qed.

(** The code divides the sum of the lag terms by the constant 9. *)
Lemma rhythm_code (np : numpy) (moves : list move_event) :
  (10 <= List.length moves)%nat ->
  calculate_movement_rhythm np moves
  == Py.sum (map (lag_term np (map velocity moves))
                 (lags (map velocity moves))) / 9.
Proof.
  intro H. unfold calculate_movement_rhythm.
  rewrite length_map.
  destruct (List.length moves <? 10)%nat eqn:E;
    [apply Nat.ltb_lt in E; lia|].
  rewrite fold_terms_sum. apply Qdiv_comp; [ring|reflexivity].
Qed.

(** The mean divides the same sum by the number of lags tested. *)
Lemma rhythm_spec (np : numpy) (moves : list move_event) :
  spec_movement_rhythm np moves
  == Py.sum (map (lag_term np (map velocity moves))
                 (lags (map velocity moves)))
     / Py.len (lags (map velocity moves)).
Proof.
  unfold spec_movement_rhythm, Py.mean, Py.len.
  rewrite length_map. reflexivity.
Qed.

(** The number of lags tested. *)
Lemma lags_length (v : list Q) :
  List.length (lags v) = (Nat.min 10 (List.length v / 2) - 1)%nat.
Proof. unfold lags. apply length_seq. Qed.

(** A Pearson correlation of two samples with [cov^2 = var x * var y]
    and positive covariance is 1. *)
Lemma pearson_one (x y : list Q) (r : Q) :
  is_pearson x y r ->
  cov x y * cov x y == Py.var x * Py.var y -> 0 < cov x y -> r == 1.
Proof.
  intros [Hv [Hsq Hsign]] Hc Hpos.
  assert (r * r == 1) as Hr.
  { rewrite Hc in Hsq.
    apply (Qmult_inj_r _ _ (Py.var x * Py.var y)); [lra|].
    rewrite Hsq. ring. }
  assert (0 <= r) as Hr0.
  { destruct (Qlt_le_dec r 0) as [N|P]; [|exact P]. nra. }
  assert ((r - 1) * (r + 1) == 0) as Hz by (ring_simplify; lra).
  apply Qmult_integral in Hz. destruct Hz; lra.
Qed.

End MouseFacts.

Module MouseTheorems.

Import Mouse.

(** C9.  For a batch of at least 10 move records the code returns the
    sum of the lag terms [|autocorr(velocity, lag)|] (0 for NaN) divided
    by the constant 9, while the mean divides by the number of lags
    tested, [min(10, n/2) - 1].  The two agree from 20 records on; on 10
    to 19 records with a non-zero term the code returns strictly less
    than the mean. *)
Theorem rhythm_divides_by_nine (np : numpy) (moves : list move_event) :
  (10 <= List.length moves)%nat ->
  let v := map velocity moves in
  let total := Py.sum (map (lag_term np v) (lags v)) in
  calculate_movement_rhythm np moves == total / 9
  /\ spec_movement_rhythm np moves == total / Py.len (lags v)
  /\ ((20 <= List.length moves)%nat ->
      calculate_movement_rhythm np moves == spec_movement_rhythm np moves)
  /\ ((List.length moves < 20)%nat -> 0 < total ->
      calculate_movement_rhythm np moves < spec_movement_rhythm np moves).
Proof.
  intros H v total.
  pose proof (MouseFacts.rhythm_code np moves H) as Hc. fold v total in Hc.
  pose proof (MouseFacts.rhythm_spec np moves) as Hs. fold v total in Hs.
  assert (List.length v = List.length moves) as Hv by apply length_map.
  pose proof (MouseFacts.lags_length v) as Hl. rewrite Hv in Hl.
  split; [exact Hc|]. split; [exact Hs|]. split.
  - intro H20. rewrite Hc, Hs. apply Qdiv_comp; [reflexivity|].
    assert (10 <= List.length moves / 2)%nat
      by (apply Nat.div_le_lower_bound; lia).
    unfold Py.len. rewrite Hl.
    replace (Nat.min 10 (List.length moves / 2) - 1)%nat with 9%nat by lia.
    reflexivity.
  - intros H20 Hpos. rewrite Hc, Hs.
    assert (5 <= List.length moves / 2)%nat
      by (apply Nat.div_le_lower_bound; lia).
    assert (List.length moves / 2 < 10)%nat
      by (apply Nat.Div0.div_lt_upper_bound; lia).
    assert (0 < Py.len (lags v) /\ Py.len (lags v) <= 8) as [Hn0 Hn8].
    { unfold Py.len. rewrite Hl.
      assert (4 <= Nat.min 10 (List.length moves / 2) - 1 <= 8)%nat as Hk by lia.
      generalize dependent (Nat.min 10 (List.length moves / 2) - 1)%nat.
      intros k _ Hk.
      split; [unfold Qlt|unfold Qle]; simpl; lia. }
    apply Qlt_shift_div_l; [exact Hn0|].
    change (total / 9) with (total * (1 # 9)).
    generalize dependent (Py.len (lags v)). intros n _ Hn0 Hn8.
    nra.
Qed.

(** Ten moves, four lags, every lag term 1: the code returns 4/9, the
    mean is 1. *)
Lemma rhythm_divides_by_nine_witness :
  calculate_movement_rhythm Examples.np_perfect Examples.ramp_moves == 4 # 9
  /\ spec_movement_rhythm Examples.np_perfect Examples.ramp_moves == 1
  /\ calculate_movement_rhythm Examples.np_perfect Examples.ramp_moves
     < spec_movement_rhythm Examples.np_perfect Examples.ramp_moves.
Proof.
  destruct (rhythm_divides_by_nine Examples.np_perfect Examples.ramp_moves)
    as [H1 [H2 [_ H4]]]; [vm_compute; lia|].
  split; [rewrite H1; vm_compute; reflexivity|].
  split; [rewrite H2; vm_compute; reflexivity|].
  apply H4; [vm_compute; lia|vm_compute; reflexivity].
Defined.

(** On ten moves with velocities 0, 1, ..., 9 every tested lag pairs
    the batch with a shifted copy of itself, so any Pearson correlation
    is 1 on each of the four lags: the mean is 1 and the code returns
    4/9. *)
Lemma ramp_rhythm_under_pearson (np : numpy) :
  let v := map velocity Examples.ramp_moves in
  (forall lag, In lag (lags v) ->
     exists r,
       corrcoef np (firstn (List.length v - lag) v) (skipn lag v) = Some r
       /\ is_pearson (firstn (List.length v - lag) v) (skipn lag v) r) ->
  calculate_movement_rhythm np Examples.ramp_moves == 4 # 9
  /\ spec_movement_rhythm np Examples.ramp_moves == 1.
Proof.
  intros v H.
  assert (forall lag, In lag (lags v) -> lag_term np v lag == 1) as Hterm.
  { intros lag Hin. destruct (H lag Hin) as [r [Hr Hp]].
    unfold lag_term. rewrite Hr.
    assert (r == 1) as E.
    { vm_compute in Hin.
      destruct Hin as [<-|[<-|[<-|[<-|[]]]]];
        apply (MouseFacts.pearson_one _ _ r Hp); vm_compute; reflexivity. }
    transitivity (Qabs 1); [apply Qabs_wd; exact E|reflexivity]. }
  assert (10 <= List.length Examples.ramp_moves)%nat as Hlen
    by (vm_compute; lia).
  pose proof (MouseFacts.rhythm_code np Examples.ramp_moves Hlen) as H1.
  pose proof (MouseFacts.rhythm_spec np Examples.ramp_moves) as H2.
  fold v in H1, H2.
  pose proof (MouseFacts.sum_of_ones (lag_term np v) (lags v) Hterm) as Hsum.
  split.
  - rewrite H1, Hsum. vm_compute. reflexivity.
  - rewrite H2, Hsum. vm_compute. reflexivity.
Qed.

(** The hypothesis of [ramp_rhythm_under_pearson] holds of a correlation
    that answers 1 on these pairs. *)
Example ramp_rhythm_perfect :
  calculate_movement_rhythm Examples.np_perfect Examples.ramp_moves == 4 # 9
  /\ spec_movement_rhythm Examples.np_perfect Examples.ramp_moves == 1.
Proof.
  apply ramp_rhythm_under_pearson.
  intros lag Hin. exists 1. split; [reflexivity|].
  vm_compute in Hin.
  destruct Hin as [<-|[<-|[<-|[<-|[]]]]];
    (split; [vm_compute; reflexivity|split; vm_compute; [reflexivity|discriminate]]).
Qed.

End MouseTheorems.

(** ** Session lifecycle *)

Module SystemFacts.

Import System.

Lemma keeps_set_is_active_false :
  keeps_session (fun s => Db.set_is_active s false).
Proof. intro s. cbn. repeat split; try reflexivity. discriminate. Qed.

Lemma keeps_set_last_activity t :
  keeps_session (fun s => Db.set_last_activity s t).
Proof. intro s. cbn. repeat split; try reflexivity. auto. Qed.

Lemma keeps_set_current_trust_score (v : Db.UserSession -> Q) :
  keeps_session (fun s => Db.set_current_trust_score s (v s)).
Proof. intro s. cbn. repeat split; try reflexivity. auto. Qed.

Lemma keeps_update_session_trust v t :
  keeps_session
    (fun s => Db.set_last_activity (Db.set_current_trust_score s v) t).
Proof. intro s. cbn. repeat split; try reflexivity. auto. Qed.

Lemma next_id_above (ids : list Z) (i : Z) : In i ids -> (i < Db.next_id ids)%Z.
Proof.
  unfold Db.next_id. induction ids as [|a ids IH]; intro H; [destruct H|].
  simpl. destruct H as [->|H]; [lia|]. specialize (IH H). lia.
Qed.

Lemma existsb_token_false (l : list Db.UserSession) (tok : string) :
  existsb (fun s => String.eqb (Db.session_token s) tok) l = false ->
  forall s, In s l -> Db.session_token s <> tok.
Proof.
  intros H s Hin E.
  assert (existsb (fun s => String.eqb (Db.session_token s) tok) l = true).
  { apply existsb_exists. exists s. split; [exact Hin|].
    now apply String.eqb_eq. }
  congruence.
Qed.

(** Termination is stable under every change the services make. *)
Lemma terminated_evolves tok sid st st' :
  evolves st st' -> terminated tok sid st -> terminated tok sid st'.
Proof.
  induction 1 as [st|st k f Hf|st uid tok' ip ua now|st k kind data feats ts
                  |st1 st2 st3 _ IH1 _ IH2]; intro T.
  - exact T.
  - destruct T as [[s [Hin [Hid Htok]]] Hall]. split.
    + exists (if Z.eqb (Db.id s) k then f s else s).
      split; [cbn; apply in_map_iff; exists s; split; [reflexivity|exact Hin]|].
      destruct (Z.eqb (Db.id s) k); [|split; assumption].
      destruct (Hf s) as [H1 [H2 _]]. split; congruence.
    + intros s' Hin' Hs'. cbn in Hin'. apply in_map_iff in Hin'.
      destruct Hin' as [s0 [E Hin0]]. subst s'.
      destruct (Z.eqb (Db.id s0) k); [|now apply Hall].
      destruct (Hf s0) as [H1 [H2 H3]].
      rewrite H1, H2 in Hs'. specialize (Hall s0 Hin0 Hs').
      destruct (Db.is_active (f s0)) eqn:Ea; [|reflexivity].
      rewrite (H3 eq_refl) in Hall. discriminate.
  - unfold Db.create_session.
    destruct (existsb _ (Db.user_sessions st)) eqn:Ex; [exact T|].
    destruct T as [[s [Hin [Hid Htok]]] Hall]. cbn [snd]. split.
    + exists s. split; [cbn; apply in_or_app; now left|split; assumption].
    + intros s' Hin' Hs'. cbn in Hin'. apply in_app_or in Hin'.
      destruct Hin' as [Hin'|[<-|[]]]; [now apply Hall|].
      exfalso. cbn in Hs'. destruct Hs' as [Hs'|Hs'].
      * assert (Db.id s < Db.next_id (map Db.id (Db.user_sessions st)))%Z
          by (apply next_id_above, in_map, Hin).
        lia.
      * apply (existsb_token_false _ _ Ex s Hin). congruence.
  - exact T.
  - auto.
Qed.

Lemma calculate_trust_score_evolves fe c files st clk sid :
  evolves st (snd (fst (TrustEngine.calculate_trust_score fe c files st clk sid))).
Proof.
  unfold TrustEngine.calculate_trust_score, TrustEngine.calculate_trust_score_try.
  destruct (Db.session_by_id st sid) as [session|]; [|apply evolves_refl].
  destruct (Predict.predict_anomaly fe c files st (Db.user_id session) sid).
  cbn [fst snd]. unfold TrustEngine._update_session_trust.
  apply evolves_commit, keeps_update_session_trust.
Qed.

Lemma execute_security_action_evolves st sid a :
  evolves st (snd (TrustEngine.execute_security_action st sid a)).
Proof.
  unfold TrustEngine.execute_security_action.
  destruct (Db.session_by_id st sid); [|apply evolves_refl].
  destruct a; cbn [snd]; try apply evolves_refl.
  - apply evolves_commit, keeps_set_is_active_false.
  - apply evolves_commit.
    apply (keeps_set_current_trust_score
             (fun s => Py.min (Db.current_trust_score s) 0.3)).
Qed.

Lemma verify_session_token_evolves st tok now :
  evolves st (snd (Verify.verify_session_token st tok now)).
Proof.
  unfold Verify.verify_session_token.
  destruct (Db.get_active_session st tok) as [session|]; [|apply evolves_refl].
  destruct (negb (Db.is_active session)); [apply evolves_refl|].
  destruct (Py.ltb 86400 (now - Db.login_time session)); cbn [snd].
  - apply evolves_commit, keeps_set_is_active_false.
  - apply evolves_refl.
Qed.

Lemma continuous_verification_evolves fe c files st tok now clk now' :
  evolves st (snd (fst (Verify.continuous_verification fe c files st tok
                          now clk now'))).
Proof.
  unfold Verify.continuous_verification.
  pose proof (verify_session_token_evolves st tok now) as Hv.
  destruct (Verify.verify_session_token st tok now) as [[session|e] st1];
    cbn [snd] in Hv; [|exact Hv].
  unfold Verify.verify_trust_level.
  pose proof (calculate_trust_score_evolves fe c files st1 clk (Db.id session))
    as Hc.
  destruct (TrustEngine.calculate_trust_score fe c files st1 clk (Db.id session))
    as [[r st2] c2]. cbn [fst snd] in Hc.
  destruct (Py.ltb _ _); cbn [fst snd];
    (eapply evolves_trans; [exact Hv|]; eapply evolves_trans; [exact Hc|];
     apply evolves_commit, keeps_set_last_activity).
Qed.

(** Every request changes the store by such steps only. *)
Lemma step_evolves e s r : evolves (db s) (db (step e s r)).
Proof.
  destruct r; cbn [step].
  - apply evolves_create.
  - apply evolves_refl.
  - destruct (Db.get_active_session (db s) token); [apply evolves_event
                                                   |apply evolves_refl].
  - destruct (Db.get_active_session (db s) token) as [session|];
      [|apply evolves_refl].
    pose proof (calculate_trust_score_evolves (fe e) (loaded_models s)
                  (files s) (db s) clk (Db.id session)) as H.
    destruct (TrustEngine.calculate_trust_score _ _ _ _ _ _) as [[r st'] c'].
    exact H.
  - pose proof (calculate_trust_score_evolves (fe e) (loaded_models s)
                  (files s) (db s) clk session_id) as H.
    destruct (TrustEngine.calculate_trust_score _ _ _ _ _ _) as [[r st'] c'].
    exact H.
  - apply execute_security_action_evolves.
  - cbn. unfold Db.update_trust_score.
    destruct (Db.session_by_id (db s) session_id); [|apply evolves_refl].
    apply evolves_commit.
    apply (keeps_set_current_trust_score (fun _ => new_trust_score)).
  - destruct (Db.get_active_session (db s) token); [|apply evolves_refl].
    apply evolves_commit, keeps_set_last_activity.
  - apply verify_session_token_evolves.
  - pose proof (continuous_verification_evolves (fe e) (loaded_models s)
                  (files s) (db s) token now_verify clk now_activity) as H.
    destruct (Verify.continuous_verification _ _ _ _ _ _ _ _) as [[r st'] c'].
    exact H.
  - apply evolves_refl.
Qed.

Lemma run_evolves e rs : forall s, evolves (db s) (db (run e s rs)).
Proof.
  unfold run. induction rs as [|r rs IH]; intro s; [apply evolves_refl|].
  cbn [fold_left]. eapply evolves_trans; [apply step_evolves|apply IH].
Qed.

Lemma nodup_map_inj {A B : Type} (f : A -> B) (l : list A) (a b : A) :
  NoDup (map f l) -> In a l -> In b l -> f a = f b -> a = b.
Proof.
  induction l as [|x l IH]; intros Hnd Ha Hb E; [destruct Ha|].
  cbn in Hnd. inversion Hnd as [|? ? Hx Hnd']; subst.
  destruct Ha as [->|Ha]; destruct Hb as [->|Hb]; auto.
  - exfalso. apply Hx. rewrite E. now apply in_map.
  - exfalso. apply Hx. rewrite <- E. now apply in_map.
Qed.

(** TERMINATE_SESSION on a session of a store with unique tokens leaves
    it terminated. *)
Lemma terminate_terminated st sid session :
  unique_tokens st -> Db.session_by_id st sid = Some session ->
  terminated (Db.session_token session) sid
    (snd (TrustEngine.execute_security_action st sid
            TrustEngine.TERMINATE_SESSION)).
Proof.
  intros Hu Hs. unfold TrustEngine.execute_security_action. rewrite Hs.
  cbn [snd]. pose proof (find_some _ _ Hs) as [Hin Hid].
  apply Z.eqb_eq in Hid. split.
  - exists (Db.set_is_active session false). split; [|split; cbn; auto].
    cbn. apply in_map_iff. exists session.
    split; [|exact Hin]. rewrite Hid, Z.eqb_refl. reflexivity.
  - intros s' Hin' Hs'. cbn in Hin'. apply in_map_iff in Hin'.
    destruct Hin' as [s0 [E Hin0]].
    destruct (Z.eqb (Db.id s0) sid) eqn:E0; subst s'; [reflexivity|].
    exfalso. apply Z.eqb_neq in E0. destruct Hs' as [Hs'|Hs']; [auto|].
    assert (s0 = session) by (eapply nodup_map_inj; eauto).
    subst s0. auto.
Qed.

Lemma find_none_all {A : Type} (p : A -> bool) (l : list A) :
  (forall x, In x l -> p x = false) -> find p l = None.
Proof.
  induction l as [|a l IH]; intro H; [reflexivity|].
  cbn. rewrite (H a) by now left. apply IH. intros x Hx. apply H. now right.
Qed.

(** No active session answers to the token of a terminated session. *)
Lemma terminated_no_active_session tok sid st :
  terminated tok sid st -> Db.get_active_session st tok = None.
Proof.
  intros [_ Hall]. unfold Db.get_active_session. apply find_none_all.
  intros s Hin. destruct (String.eqb (Db.session_token s) tok) eqn:E;
    [|reflexivity].
  apply String.eqb_eq in E. rewrite (Hall s Hin (or_intror E)). reflexivity.
Qed.

Lemma nodup_snoc {A : Type} (l : list A) (x : A) :
  NoDup l -> ~ In x l -> NoDup (l ++ [x]).
Proof.
  induction l as [|a l IH]; intros Hnd Hx; cbn.
  - constructor; [intros []|constructor].
  - inversion Hnd as [|? ? Ha Hl]; subst. constructor.
    + intro Hin. apply in_app_or in Hin. destruct Hin as [Hin|[->|[]]].
      * now apply Ha.
      * apply Hx. now left.
    + apply IH; [exact Hl|]. intro Hin. apply Hx. now right.
Qed.

(** The services keep the session tokens unique. *)
Lemma unique_tokens_evolves st st' :
  evolves st st' -> unique_tokens st -> unique_tokens st'.
Proof.
  unfold unique_tokens.
  induction 1 as [st|st k f Hf|st uid tok ip ua now|st k kind data feats ts
                  |st1 st2 st3 _ IH1 _ IH2]; intro U; auto.
  - cbn. rewrite map_map.
    erewrite map_ext; [exact U|].
    intro s. cbn. destruct (Z.eqb (Db.id s) k); [|reflexivity].
    now destruct (Hf s) as [_ [H2 _]].
  - unfold Db.create_session.
    destruct (existsb _ (Db.user_sessions st)) eqn:Ex; [exact U|].
    cbn. rewrite map_app. cbn. apply nodup_snoc; [exact U|].
    intro Hin. apply in_map_iff in Hin. destruct Hin as [s [E Hin]].
    exact (existsb_token_false _ _ Ex s Hin E).
Qed.

End SystemFacts.

Module SystemTheorems.

Import System.

(** C4.  After [execute_security_action] has applied TERMINATE_SESSION
    to a session, then whatever requests follow, the session is in the
    store with [is_active] false, and every [verify_session_token] and
    every [continuous_verification] with its token raises 401
    Unauthorized. *)
Theorem terminated_session_stays_terminated e s0 sid session rs :
  unique_tokens (db s0) ->
  Db.session_by_id (db s0) sid = Some session ->
  let s1 := step e s0 (PostSecurityAction sid TrustEngine.TERMINATE_SESSION) in
  let s2 := run e s1 rs in
  let tok := Db.session_token session in
  (exists s', Db.session_by_id (db s2) sid = Some s')
  /\ (forall s', Db.session_by_id (db s2) sid = Some s' ->
                 Db.is_active s' = false)
  /\ (forall now,
        fst (Verify.verify_session_token (db s2) tok now)
        = Raise (HTTPException 401 "Invalid or expired session"))
  /\ (forall c files now clk now',
        fst (fst (Verify.continuous_verification (fe e) c files (db s2) tok
                    now clk now'))
        = Raise (HTTPException 401 "Invalid or expired session")).
Proof.
  intros Hu Hs s1 s2 tok.
  assert (terminated tok sid (db s2)) as T.
  { apply (SystemFacts.terminated_evolves tok sid (db s1));
      [apply SystemFacts.run_evolves|].
    subst s1. cbn [step db]. now apply SystemFacts.terminate_terminated. }
  pose proof (SystemFacts.terminated_no_active_session _ _ _ T) as Hna.
  destruct T as [[s [Hin [Hid Htok]]] Hall].
  split; [|split; [|split]].
  - unfold Db.session_by_id.
    destruct (find (fun x => Z.eqb (Db.id x) sid) (Db.user_sessions (db s2)))
      as [s'|] eqn:E; [now exists s'|].
    exfalso. pose proof (find_none _ _ E s Hin) as Hn. cbn in Hn.
    rewrite Hid, Z.eqb_refl in Hn. discriminate.
  - intros s' Hs'. apply find_some in Hs'. destruct Hs' as [Hin' Hid'].
    apply Z.eqb_eq in Hid'. apply (Hall s' Hin'). now left.
  - intro now. unfold Verify.verify_session_token. rewrite Hna. reflexivity.
  - intros c files now clk now'.
    unfold Verify.continuous_verification, Verify.verify_session_token.
    rewrite Hna. reflexivity.
Qed.

(** Alice's session is terminated and ten more requests are served. *)
Lemma terminated_session_stays_terminated_witness :
  let s2 := run Examples.env0
              (step Examples.env0 Examples.state0
                 (PostSecurityAction 1 TrustEngine.TERMINATE_SESSION))
              Examples.later_requests in
  (exists s', Db.session_by_id (db s2) 1 = Some s')
  /\ (forall s', Db.session_by_id (db s2) 1 = Some s' ->
                 Db.is_active s' = false)
  /\ (forall now,
        fst (Verify.verify_session_token (db s2) "tok-alice" now)
        = Raise (HTTPException 401 "Invalid or expired session"))
  /\ (forall c files now clk now',
        fst (fst (Verify.continuous_verification (fe Examples.env0) c files
                    (db s2) "tok-alice" now clk now'))
        = Raise (HTTPException 401 "Invalid or expired session")).
Proof.
  apply (terminated_session_stays_terminated Examples.env0 Examples.state0 1
           Examples.alice_session Examples.later_requests).
  - unfold unique_tokens. cbn. constructor; [intros []|constructor].
  - reflexivity.
Defined.

(** After those requests the store holds Bob's new session, and Alice's
    session is still the inactive one. *)
Example later_requests_outcome :
  let s2 := run Examples.env0
              (step Examples.env0 Examples.state0
                 (PostSecurityAction 1 TrustEngine.TERMINATE_SESSION))
              Examples.later_requests in
  map (fun s => (Db.id s, Db.session_token s, Db.is_active s))
      (Db.user_sessions (db s2))
  = [ (1%Z, "tok-alice"%string, false); (2%Z, "tok-bob"%string, true) ].
Proof. vm_compute. reflexivity. Qed.

End SystemTheorems.

(** ** The predictor cache holds only what is on disk *)

Module CacheFacts.

Import Predict.

Lemma cache_get_set (c : cache) (uid u : Z) (d : model_data) :
  cache_get (cache_set c uid d) u
  = if Z.eqb uid u then Some d else cache_get c u.
Proof.
  induction c as [|[k d'] c IH]; cbn.
  - reflexivity.
  - destruct (Z.eqb k uid) eqn:E; cbn.
    + apply Z.eqb_eq in E. subst k.
      destruct (Z.eqb uid u); reflexivity.
    + destruct (Z.eqb k u) eqn:E'; [|exact IH].
      apply Z.eqb_eq in E'. subst k. now rewrite Z.eqb_sym, E.
Qed.

Lemma load_user_model_from_disk c files uid :
  cache_from_disk c files ->
  cache_from_disk (snd (load_user_model c files uid)) files.
Proof.
  intro H. unfold load_user_model.
  destruct (cache_get c uid); [exact H|].
  destruct (files uid) as [[|d]|] eqn:E; cbn [snd]; try exact H.
  intros u d0. rewrite cache_get_set.
  destruct (Z.eqb uid u) eqn:Eu; [|apply H].
  apply Z.eqb_eq in Eu. subst u. intros _. now exists d.
Qed.

Lemma predict_anomaly_cache fe c files st uid sid :
  snd (predict_anomaly fe c files st uid sid)
  = snd (load_user_model c files uid).
Proof.
  unfold predict_anomaly.
  destruct (load_user_model c files uid) as [ok c'].
  destruct ok; cbn [negb snd]; [|reflexivity].
  destruct (predict_anomaly_try fe c' st uid sid); reflexivity.
Qed.

Lemma calculate_trust_score_from_disk fe c files st clk sid :
  cache_from_disk c files ->
  cache_from_disk
    (snd (TrustEngine.calculate_trust_score fe c files st clk sid)) files.
Proof.
  intro H.
  unfold TrustEngine.calculate_trust_score,
    TrustEngine.calculate_trust_score_try.
  destruct (Db.session_by_id st sid) as [session|]; [|exact H].
  pose proof (predict_anomaly_cache fe c files st (Db.user_id session) sid)
    as Hp.
  destruct (predict_anomaly fe c files st (Db.user_id session) sid)
    as [p c'].
  cbn [snd] in *. rewrite Hp. now apply load_user_model_from_disk.
Qed.

Lemma continuous_verification_from_disk fe c files st tok now clk now' :
  cache_from_disk c files ->
  cache_from_disk
    (snd (Verify.continuous_verification fe c files st tok now clk now'))
    files.
Proof.
  intro H. unfold Verify.continuous_verification.
  destruct (Verify.verify_session_token st tok now) as [[session|e] st1];
    [|exact H].
  unfold Verify.verify_trust_level.
  pose proof (calculate_trust_score_from_disk fe c files st1 clk
                (Db.id session) H) as Hc.
  destruct (TrustEngine.calculate_trust_score fe c files st1 clk
              (Db.id session)) as [[r st2] c2].
  cbn [snd] in Hc. destruct (Py.ltb _ _); exact Hc.
Qed.

Lemma dump_from_disk c files uid d :
  cache_from_disk c files -> cache_from_disk c (dump files uid d).
Proof.
  intros H u d0 Hu. unfold dump.
  destruct (Z.eqb u uid); [now exists d|exact (H u d0 Hu)].
Qed.

Lemma train_user_model_from_disk fe sk c files st uid now :
  cache_from_disk c files ->
  cache_from_disk c (snd (TrainModel.train_user_model fe sk files st uid now)).
Proof.
  intro H. unfold TrainModel.train_user_model.
  destruct (TrainFacts.train_user_model_try_cases fe sk files st uid now)
    as [[Hf _]|[r [d [_ [_ [_ [_ [_ Hw]]]]]]]];
    destruct (TrainModel.train_user_model_try fe sk files st uid now)
      as [[r'|e] f']; cbn [snd] in *; subst f';
    try exact H; now apply dump_from_disk.
Qed.

(** Started with an empty cache, the services keep the cache within the
    bundle files on disk. *)
Lemma step_from_disk e s r :
  cache_from_disk (System.loaded_models s) (System.files s) ->
  cache_from_disk (System.loaded_models (System.step e s r))
                  (System.files (System.step e s r)).
Proof.
  intro H. destruct r; cbn [System.step]; try exact H.
  - destruct (Db.get_active_session (System.db s) token); exact H.
  - destruct (Db.get_active_session (System.db s) token) as [session|];
      [|exact H].
    pose proof (calculate_trust_score_from_disk (System.fe e) _ _
                  (System.db s) clk (Db.id session) H) as Hc.
    destruct (TrustEngine.calculate_trust_score _ _ _ _ _ _) as [[r st'] c'].
    exact Hc.
  - pose proof (calculate_trust_score_from_disk (System.fe e) _ _
                  (System.db s) clk session_id H) as Hc.
    destruct (TrustEngine.calculate_trust_score _ _ _ _ _ _) as [[r st'] c'].
    exact Hc.
  - destruct (Db.get_active_session (System.db s) token); exact H.
  - pose proof (continuous_verification_from_disk (System.fe e) _ _
                  (System.db s) token now_verify clk now_activity H) as Hc.
    destruct (Verify.continuous_verification _ _ _ _ _ _ _ _)
      as [[r st'] c'].
    exact Hc.
  - cbn. now apply train_user_model_from_disk.
Qed.

Lemma run_from_disk e rs : forall s,
  cache_from_disk (System.loaded_models s) (System.files s) ->
  cache_from_disk (System.loaded_models (System.run e s rs))
                  (System.files (System.run e s rs)).
Proof.
  unfold System.run. induction rs as [|r rs IH]; intros s H; [exact H|].
  cbn [fold_left]. apply IH. now apply step_from_disk.
Qed.

End CacheFacts.

(* ===================================================================== *)
(** * Part III: further properties of the sources                         *)
(* ===================================================================== *)

(** ** The trust engine *)

Module TrustExtras.

Import TrustEngine.

Lemma clamp_between (x lo hi : Q) :
  0 <= lo -> hi <= 1 -> lo <= x <= hi ->
  lo <= Py.max 0 (Py.min 1 x) <= hi.
Proof.
  intros Hlo Hhi [H1 H2].
  assert (Py.max 0 (Py.min 1 x) == x) as E by (apply PyFacts.clamp_id; lra).
  lra.
Qed.

(** X1.  Each of the five components of the composite lies in [0,1]
    for every store, session and clock reading, and the session-context
    component is never below 0.35 (the product of its two strongest
    penalties). *)
Theorem components_bounded st session sid uid now (p : Predict.prediction) :
  0 <= _calculate_behavioral_score p <= 1
  /\ 0 <= _calculate_temporal_consistency st session now <= 1
  /\ 0.35 <= _calculate_session_context_score st session now <= 1
  /\ 0 <= _calculate_historical_trust st uid now <= 1
  /\ 0 <= _calculate_anomaly_frequency st sid now <= 1.
Proof.
  split; [apply PyFacts.clamp_range|].
  split.
  { unfold _calculate_temporal_consistency.
    destruct (_ <? 5)%nat; [lra|].
    destruct (intervals _); [lra|]. apply PyFacts.clamp_range. }
  split.
  { unfold _calculate_session_context_score.
    apply clamp_between; [lra|lra|].
    destruct (Py.ltb (now - Db.login_time session) 60);
      [|destruct (Py.ltb 28800 (now - Db.login_time session))];
      (destruct (Py.ltb 0 (now - Db.login_time session));
       [destruct (Qle_bool 5 _ && Qle_bool _ 50);
        [|destruct (Py.ltb _ 1); [|destruct (Py.ltb 100 _)]]|]);
      (destruct (Db.ip_address session) as [ip|];
       [destruct (String.eqb ip "")|]); lra. }
  split.
  { unfold _calculate_historical_trust.
    destruct (firstn 10 _); [lra|].
    destruct (filter _ _); [lra|]. apply PyFacts.clamp_range. }
  unfold _calculate_anomaly_frequency.
  destruct (filter _ _); [lra|]. apply PyFacts.clamp_range.
Qed.

Lemma determine_trust_level_rank (x : Q) :
  (TrustOps.level_rank (_determine_trust_level x) = 0%nat <-> x < 0.2)
  /\ ((1 <= TrustOps.level_rank (_determine_trust_level x))%nat <-> 0.2 <= x)
  /\ ((2 <= TrustOps.level_rank (_determine_trust_level x))%nat <-> 0.4 <= x)
  /\ ((3 <= TrustOps.level_rank (_determine_trust_level x))%nat <-> 0.6 <= x)
  /\ ((4 <= TrustOps.level_rank (_determine_trust_level x))%nat <-> 0.8 <= x).
Proof.
  unfold _determine_trust_level.
  destruct (Qle_bool 0.8 x) eqn:E8;
    [|destruct (Qle_bool 0.6 x) eqn:E6;
      [|destruct (Qle_bool 0.4 x) eqn:E4;
        [|destruct (Qle_bool 0.2 x) eqn:E2]]];
    repeat match goal with
           | H : Qle_bool _ _ = true |- _ => apply Qle_bool_iff in H
           | H : Qle_bool ?a ?b = false |- _ =>
               assert (~ a <= b)
                 by (intro L; apply Qle_bool_iff in L; congruence);
               clear H
           end;
    cbn [TrustOps.level_rank];
    repeat split; intros; try lia; try lra.
Qed.

(** X2.  The trust level never decreases when the score increases, and
    on the normal path of [calculate_trust_score] the recommended action
    is terminate_session exactly when the returned score is below 0.2;
    on no path is log_only recommended. *)
Theorem level_monotone_and_termination fe c files st clk sid :
  (forall x y, x <= y ->
     (TrustOps.level_rank (_determine_trust_level x)
      <= TrustOps.level_rank (_determine_trust_level y))%nat)
  /\ (let r := fst (fst (calculate_trust_score fe c files st clk sid)) in
      (error r = None ->
       (recommended_action r = "terminate_session"%string
        <-> trust_score r < 0.2))
      /\ recommended_action r <> "log_only"%string).
Proof.
  split.
  - intros x y Hxy.
    destruct (determine_trust_level_rank x) as [X0 [X1 [X2 [X3 X4]]]].
    destruct (determine_trust_level_rank y) as [Y0 [Y1 [Y2 [Y3 Y4]]]].
    destruct (_determine_trust_level x); cbn [TrustOps.level_rank] in *;
      try lia.
    + apply Y1. assert (0.2 <= x) by (apply X1; lia). lra.
    + apply Y2. assert (0.4 <= x) by (apply X2; lia). lra.
    + apply Y3. assert (0.6 <= x) by (apply X3; lia). lra.
    + apply Y4. assert (0.8 <= x) by (apply X4; lia). lra.
  - intro r. destruct (Db.session_by_id st sid) as [session|] eqn:Hs.
    + destruct (TrustFacts.calculate_trust_score_found fe c files st clk sid
                  session Hs) as [HT [_ [HA _]]].
      fold r in HT, HA. rewrite HA, HT.
      match goal with |- context [_determine_trust_level ?T] =>
        destruct (determine_trust_level_rank T) as [H0 _];
        destruct (_determine_trust_level T) end;
        cbn [TrustOps.level_rank trust_actions SecurityAction_value] in *;
        (split; [intros _; split; intro H;
                 [try discriminate H; apply H0; reflexivity
                 |try reflexivity; apply H0 in H; discriminate H]
                |discriminate]).
    + pose proof (TrustFacts.calculate_trust_score_missing fe c files st clk
                    sid Hs) as Hm.
      subst r. unfold calculate_trust_score. rewrite Hm.
      cbn [fst error recommended_action SecurityAction_value].
      split; [discriminate|discriminate].
Qed.

End TrustExtras.

Module TrustExtras2.

Import TrustEngine.

Lemma in_insert_by {A : Type} (le : A -> A -> bool) (x y : A) (l : list A) :
  In y (Db.insert_by le x l) -> y = x \/ In y l.
Proof.
  induction l as [|a l IH]; cbn; intro H.
  - destruct H as [<-|[]]. now left.
  - destruct (le x a); cbn in H.
    + destruct H as [<-|H]; [now left|now right].
    + destruct H as [<-|H]; [right; now left|].
      destruct (IH H) as [->|H']; [now left|right; now right].
Qed.

Lemma in_sort_by {A : Type} (le : A -> A -> bool) (y : A) (l : list A) :
  In y (Db.sort_by le l) -> In y l.
Proof.
  unfold Db.sort_by. induction l as [|a l IH]; cbn; intro H; [exact H|].
  apply in_insert_by in H. destruct H as [->|H]; [now left|right; auto].
Qed.

Lemma in_firstn {A : Type} (n : nat) (y : A) (l : list A) :
  In y (firstn n l) -> In y l.
Proof.
  intro H. rewrite <- (firstn_skipn n l). apply in_or_app. now left.
Qed.

Lemma filter_nil_all {A : Type} (p : A -> bool) (l : list A) :
  (forall x, In x l -> p x = false) -> filter p l = [].
Proof.
  induction l as [|a l IH]; intro H; [reflexivity|].
  cbn. rewrite (H a) by now left. apply IH. intros x Hx. apply H. now right.
Qed.

Lemma filter_partition_length {A : Type} (p : A -> bool) (l : list A) :
  (List.length (filter p l) + List.length (filter (fun x => negb (p x)) l)
   = List.length l)%nat.
Proof.
  induction l as [|a l IH]; [reflexivity|].
  cbn. destruct (p a); cbn; lia.
Qed.

(** X3.  [calculate_trust_score] leaves the events table and every
    other session row as they were, keeps the number and order of the
    rows, and on the row it rewrites changes nothing but
    [current_trust_score] and [last_activity]: in particular the session
    stays active even when terminate_session is recommended. *)
Theorem trust_score_frame fe c files st clk sid :
  let st' := snd (fst (calculate_trust_score fe c files st clk sid)) in
  Db.behavioral_events st' = Db.behavioral_events st
  /\ List.length (Db.user_sessions st') = List.length (Db.user_sessions st)
  /\ (forall k s, nth_error (Db.user_sessions st) k = Some s ->
        exists s', nth_error (Db.user_sessions st') k = Some s'
                   /\ TrustOps.same_identity s s'
                   /\ (Db.id s <> sid -> s' = s)).
Proof.
  intro st'.
  destruct (Db.session_by_id st sid) as [session|] eqn:Hs.
  - destruct (TrustFacts.calculate_trust_score_found fe c files st clk sid
                session Hs) as [_ [_ [_ [_ [_ [_ [_ Hst]]]]]]].
    fold st' in Hst. rewrite Hst. unfold _update_session_trust.
    pose proof (find_some _ _ Hs) as [_ Hid]. apply Z.eqb_eq in Hid.
    rewrite Hid. cbn [Db.commit_session Db.user_sessions Db.behavioral_events].
    split; [reflexivity|]. split; [apply length_map|].
    intros k s Hk. rewrite nth_error_map, Hk. cbn [option_map].
    eexists. split; [reflexivity|].
    destruct (Z.eqb (Db.id s) sid) eqn:E.
    + split; [unfold TrustOps.same_identity; cbn; repeat split|].
      intro N. apply Z.eqb_eq in E. contradiction.
    + split; [unfold TrustOps.same_identity; repeat split|reflexivity].
  - pose proof (TrustFacts.calculate_trust_score_missing fe c files st clk
                  sid Hs) as Hm.
    subst st'. unfold calculate_trust_score. rewrite Hm. cbn [fst snd].
    split; [reflexivity|]. split; [reflexivity|].
    intros k s Hk. exists s. split; [exact Hk|].
    split; [unfold TrustOps.same_identity; repeat split|reflexivity].
Qed.

(** X4.  REQUIRE_REAUTH on an existing session succeeds and caps the
    stored trust at 0.3 without ever raising it: the new value is at
    most 0.3 and at most the old one, a value already at or below 0.3 is
    kept, and the session stays as active as it was. *)
Theorem require_reauth_caps_trust st sid s :
  Db.session_by_id st sid = Some s ->
  let out := execute_security_action st sid REQUIRE_REAUTH in
  success (fst out) = true
  /\ exists s', Db.session_by_id (snd out) sid = Some s'
                /\ Db.current_trust_score s' <= 0.3
                /\ Db.current_trust_score s' <= Db.current_trust_score s
                /\ (Db.current_trust_score s <= 0.3 ->
                    Db.current_trust_score s' = Db.current_trust_score s)
                /\ Db.is_active s' = Db.is_active s
                /\ Db.last_activity s' = Db.last_activity s.
Proof.
  intros Hs out. subst out. unfold execute_security_action. rewrite Hs.
  cbn [fst snd success]. split; [reflexivity|].
  eexists. split.
  - apply (DbFacts.session_by_id_commit st sid
             (fun x => Db.set_current_trust_score x
                         (Py.min (Db.current_trust_score x) 0.3)));
      [reflexivity|exact Hs].
  - cbn [Db.current_trust_score Db.set_current_trust_score Db.is_active
           Db.last_activity].
    destruct (PyFacts.min_spec (Db.current_trust_score s) 0.3)
      as [[H E]|[H E]]; rewrite E.
    + repeat split; try lra; try reflexivity.
    + repeat split; try lra; try reflexivity.
Qed.

(** The cap at Alice's session, whose stored trust is 1.0. *)
Lemma require_reauth_caps_trust_witness :
  exists s',
    Db.session_by_id
      (snd (execute_security_action Examples.alice_store 1 REQUIRE_REAUTH)) 1
    = Some s'
    /\ Db.current_trust_score s' <= 0.3.
Proof.
  destruct (require_reauth_caps_trust Examples.alice_store 1
              Examples.alice_session) as [_ [s' [H1 [H2 _]]]];
    [reflexivity|].
  exists s'. split; [exact H1|exact H2].
Defined.

(** X5.  [execute_security_action] changes the store only for
    TERMINATE_SESSION and REQUIRE_REAUTH on an existing session: on a
    missing session it reports failure for every action, and
    RESTRICT_ACCESS, INCREASE_MONITORING, LOG_ONLY and NO_ACTION report
    success without any effect, LOG_ONLY being answered as no_action. *)
Theorem advisory_actions_have_no_effect st sid a :
  let out := execute_security_action st sid a in
  (Db.session_by_id st sid = None ->
   success (fst out) = false /\ snd out = st)
  /\ (a <> TERMINATE_SESSION -> a <> REQUIRE_REAUTH -> snd out = st)
  /\ (Db.session_by_id st sid <> None -> success (fst out) = true)
  /\ (Db.session_by_id st sid <> None -> a = LOG_ONLY ->
      action (fst out) = Some "no_action"%string).
Proof.
  unfold execute_security_action.
  destruct (Db.session_by_id st sid) as [s|]; cbn zeta.
  - split; [discriminate|]. split; [|split].
    + intros H1 H2. destruct a; try reflexivity; contradiction.
    + intros _. destruct a; reflexivity.
    + intros _ ->. reflexivity.
  - split; [intros _; split; reflexivity|].
    split; [intros _ _; reflexivity|]. split; intro H; contradiction.
Qed.

(** X6.  For a prediction whose scores lie in [0,1], the behavioural
    score lies between the neutral 0.5 and [1 - anomaly_score]; it is
    0.5 at confidence 0 whatever the anomaly score, and
    [1 - anomaly_score] at confidence 1. *)
Theorem behavioral_score_between (p : Predict.prediction) :
  0 <= Predict.anomaly_score p <= 1 -> 0 <= Predict.confidence p <= 1 ->
  let a := Predict.anomaly_score p in
  let b := _calculate_behavioral_score p in
  (a <= 0.5 -> 0.5 <= b <= 1 - a)
  /\ (0.5 <= a -> 1 - a <= b <= 0.5)
  /\ (Predict.confidence p == 0 -> b == 0.5)
  /\ (Predict.confidence p == 1 -> b == 1 - a).
Proof.
  intros Ha Hc a b.
  pose proof (TrustFacts.behavioral_score_formula p Ha Hc) as E.
  fold b a in E. subst a.
  generalize dependent (Predict.confidence p).
  generalize dependent (Predict.anomaly_score p).
  intros a Ha cf Hc E.
  repeat split; intros; try nra.
Qed.

(** The behavioural score of the predictor's neutral result. *)
Lemma behavioral_score_between_witness :
  _calculate_behavioral_score
    (fst (Predict.predict_anomaly Examples.fe_empty [] Examples.no_files
            Examples.alice_store 7 1)) == 0.5.
Proof.
  destruct (behavioral_score_between
              (fst (Predict.predict_anomaly Examples.fe_empty []
                      Examples.no_files Examples.alice_store 7 1)))
    as [_ [_ [H _]]]; [vm_compute; split; discriminate
                      |vm_compute; split; discriminate|].
  apply H. reflexivity.
Defined.

(** X7.  The historical-trust component skips sessions whose stored
    trust is 0.0: when every session of the user has stored trust 0 (or
    the user has no session), the component is the neutral 0.5, not 0. *)
Theorem historical_trust_skips_zero st uid now :
  (forall s, In s (Db.user_sessions st) -> Db.user_id s = uid ->
             Db.current_trust_score s == 0) ->
  _calculate_historical_trust st uid now = 0.5.
Proof.
  intro H. unfold _calculate_historical_trust.
  destruct (firstn 10 _) as [|s0 rest] eqn:E; [reflexivity|].
  rewrite filter_nil_all; [reflexivity|].
  intros v Hv. apply in_map_iff in Hv. destruct Hv as [s [<- Hin]].
  rewrite <- E in Hin. apply in_firstn, in_sort_by, filter_In in Hin.
  destruct Hin as [Hin Hp]. apply andb_true_iff in Hp.
  destruct Hp as [Hu _]. apply Z.eqb_eq in Hu.
  assert (Qeq_bool (Db.current_trust_score s) 0 = true) as ->
    by (apply Qeq_bool_iff; now apply H).
  reflexivity.
Qed.

(** X8.  When the session has events in the last 15 minutes, the
    anomaly-frequency component is exactly the fraction of those events
    that are not flagged anomalous. *)
Theorem anomaly_frequency_is_clean_fraction st sid now :
  let recent_events :=
    filter (fun e => Z.eqb (Db.session_id e) sid
                     && Qle_bool (now - 900) (Db.timestamp e))
           (Db.behavioral_events st) in
  recent_events <> [] ->
  _calculate_anomaly_frequency st sid now
  == Py.len (filter (fun e => negb (Db.is_anomalous e)) recent_events)
     / Py.len recent_events.
Proof.
  intros recent Hne. unfold _calculate_anomaly_frequency. fold recent.
  destruct recent as [|e0 rest] eqn:E; [congruence|]. rewrite <- E in *.
  pose proof (filter_partition_length Db.is_anomalous recent) as Hp.
  pose proof (StatFacts.len_pos recent Hne) as Hn.
  assert (Py.len (filter Db.is_anomalous recent)
          + Py.len (filter (fun e => negb (Db.is_anomalous e)) recent)
          == Py.len recent) as Hsum.
  { unfold Py.len. rewrite <- inject_Z_plus, <- Nat2Z.inj_add, Hp.
    reflexivity. }
  pose proof (StatFacts.len_nonneg (filter Db.is_anomalous recent)) as Ha.
  pose proof (StatFacts.len_nonneg
                (filter (fun e => negb (Db.is_anomalous e)) recent)) as Hb.
  assert (1 - Py.len (filter Db.is_anomalous recent) / Py.len recent
          == Py.len (filter (fun e => negb (Db.is_anomalous e)) recent)
             / Py.len recent) as Hq.
  { field_simplify_eq; [|lra]. lra. }
  rewrite PyFacts.clamp_id; [exact Hq|].
  rewrite Hq. split.
  - apply Qle_shift_div_l; lra.
  - apply Qle_shift_div_r; lra.
Qed.

End TrustExtras2.

Module TrustExtras3.

Import TrustEngine.

(** The component at Alice's session once its stored trust is 0.0. *)
Lemma historical_trust_skips_zero_witness :
  _calculate_historical_trust Samples.zero_store 7 100 = 0.5.
Proof.
  apply (TrustExtras2.historical_trust_skips_zero Samples.zero_store 7 100).
  intros s [<-|[]] _. reflexivity.
Defined.

(** The component on the first busy session: ten events, none flagged. *)
Lemma anomaly_frequency_is_clean_fraction_witness :
  _calculate_anomaly_frequency Examples.busy_store 1 100 == 1.
Proof.
  rewrite (TrustExtras2.anomaly_frequency_is_clean_fraction Examples.busy_store 1 100).
  - vm_compute. reflexivity.
  - vm_compute. discriminate.
Defined.

(** X9.  For a session in the store the trend compares the new score
    with the stored trust, or with the initial trust when the stored
    trust is 0.0; it is stable exactly when the change is smaller than
    0.05 in absolute value, increasing exactly when the change is at
    least 0.05 and decreasing exactly when it is at most -0.05. *)
Theorem trust_trend_classification st sid s (T : Q) :
  Db.session_by_id st sid = Some s ->
  let tr := _calculate_trust_trend st sid T in
  let previous :=
    if Qeq_bool (Db.current_trust_score s) 0
    then Db.initial_trust_score s else Db.current_trust_score s in
  previous_score tr = Some previous
  /\ change tr = T - previous
  /\ (trend tr = "stable"%string <-> Qabs (T - previous) < 0.05)
  /\ (trend tr = "increasing"%string <-> 0.05 <= T - previous)
  /\ (trend tr = "decreasing"%string <-> T - previous <= - 0.05).
Proof.
  intros Hs tr previous. subst tr. unfold _calculate_trust_trend.
  rewrite Hs. fold previous. cbn [previous_score change trend].
  split; [reflexivity|]. split; [reflexivity|].
  generalize (T - previous). intro d.
  assert (Qabs d < 0.05 <-> - 0.05 < d < 0.05) as Habs.
  { split.
    - intro H. split.
      + pose proof (Qle_Qabs (- d)) as L. rewrite Qabs_opp in L. lra.
      + pose proof (Qle_Qabs d). lra.
    - intros [H1 H2]. apply Qabs_case; intro; lra. }
  destruct (Py.ltb (Qabs d) 0.05) eqn:E1.
  - apply PyFacts.ltb_spec in E1. pose proof (proj1 Habs E1).
    repeat split; intros; try discriminate; try assumption; try lra;
      reflexivity.
  - assert (~ Qabs d < 0.05) as N1
      by (intro L; apply PyFacts.ltb_spec in L; congruence).
    assert (~ (- 0.05 < d < 0.05)) as N2 by (intro L; apply N1, Habs, L).
    destruct (Py.ltb 0 d) eqn:E2.
    + apply PyFacts.ltb_spec in E2.
      repeat split; intros; try discriminate; try reflexivity;
        try contradiction; try lra.
    + assert (~ 0 < d) as N3
        by (intro L; apply PyFacts.ltb_spec in L; congruence).
      repeat split; intros; try discriminate; try reflexivity;
        try contradiction; try lra.
Qed.

(** The trend at Alice's session for a new score of 0.68. *)
Lemma trust_trend_classification_witness :
  trend (_calculate_trust_trend Examples.alice_store 1 0.68)
  = "decreasing"%string.
Proof.
  destruct (trust_trend_classification Examples.alice_store 1
              Examples.alice_session 0.68) as [_ [_ [_ [_ H]]]];
    [reflexivity|].
  apply H. vm_compute. discriminate.
Defined.

End TrustExtras3.

(** ** The predictor and its cache *)

Module PredictOpsFacts.

Import Predict.

Lemma max0_mono (x y : Q) : x <= y -> Py.max 0 x <= Py.max 0 y.
Proof.
  intro H.
  destruct (PyFacts.max_spec 0 x) as [[Hx ->]|[Hx ->]];
    destruct (PyFacts.max_spec 0 y) as [[Hy ->]|[Hy ->]]; lra.
Qed.

Lemma min1_mono (x y : Q) : x <= y -> Py.min 1 x <= Py.min 1 y.
Proof.
  intro H.
  destruct (PyFacts.min_spec 1 x) as [[Hx ->]|[Hx ->]];
    destruct (PyFacts.min_spec 1 y) as [[Hy ->]|[Hy ->]]; lra.
Qed.

Lemma max0_low (x : Q) : x <= 0 -> Py.max 0 x == 0.
Proof. intro H. destruct (PyFacts.max_spec 0 x) as [[Hx ->]|[Hx ->]]; lra. Qed.

Lemma max0_high (x : Q) : 0 <= x -> Py.max 0 x == x.
Proof. intro H. destruct (PyFacts.max_spec 0 x) as [[Hx ->]|[Hx ->]]; lra. Qed.

Lemma min1_low (x : Q) : x <= 1 -> Py.min 1 x == x.
Proof. intro H. destruct (PyFacts.min_spec 1 x) as [[Hx ->]|[Hx ->]]; lra. Qed.

Lemma min1_high (x : Q) : 1 <= x -> Py.min 1 x == 1.
Proof. intro H. destruct (PyFacts.min_spec 1 x) as [[Hx ->]|[Hx ->]]; lra. Qed.

(** The unit clamp [min(1.0, max(0.0, x))] at its ends. *)
Lemma unit_clamp_low (x : Q) : x <= 0 -> Py.min 1 (Py.max 0 x) == 0.
Proof.
  intro H. destruct (PyFacts.max_spec 0 x) as [[Hx ->]|[Hx ->]];
    destruct (PyFacts.min_spec 1 0) as [[H0 E0]|[H0 E0]];
    try rewrite E0; try lra.
Qed.

Lemma unit_clamp_high (x : Q) : 1 <= x -> Py.min 1 (Py.max 0 x) == 1.
Proof.
  intro H. destruct (PyFacts.max_spec 0 x) as [[Hx ->]|[Hx ->]]; [lra|].
  destruct (PyFacts.min_spec 1 x) as [[H1 ->]|[H1 ->]]; lra.
Qed.

Lemma load_user_model_cached c files uid :
  fst (load_user_model c files uid) = true ->
  cache_get (snd (load_user_model c files uid)) uid <> None.
Proof.
  unfold load_user_model.
  destruct (cache_get c uid) eqn:E; cbn [fst snd]; [congruence|].
  destruct (files uid) as [[|d]|]; cbn [fst snd]; try discriminate.
  intros _. rewrite CacheFacts.cache_get_set, Z.eqb_refl. discriminate.
Qed.

Lemma load_user_model_hit c files uid :
  cache_get c uid <> None -> load_user_model c files uid = (true, c).
Proof.
  intro H. unfold load_user_model.
  destruct (cache_get c uid); [reflexivity|congruence].
Qed.

Lemma load_user_model_twice c files uid :
  snd (load_user_model (snd (load_user_model c files uid)) files uid)
  = snd (load_user_model c files uid).
Proof.
  destruct (fst (load_user_model c files uid)) eqn:E.
  - rewrite load_user_model_hit; [reflexivity|].
    now apply load_user_model_cached.
  - assert (snd (load_user_model c files uid) = c) as Hc.
    { revert E. unfold load_user_model.
      destruct (cache_get c uid); [discriminate|].
      destruct (files uid) as [[|d]|]; cbn; congruence. }
    rewrite Hc. exact Hc.
Qed.

Lemma cache_get_del c uid u :
  cache_get (PredictOps.cache_del c uid) u
  = if Z.eqb u uid then None else cache_get c u.
Proof.
  unfold PredictOps.cache_del.
  induction c as [|[k d] c IH]; cbn.
  - destruct (Z.eqb u uid); reflexivity.
  - destruct (Z.eqb k uid) eqn:Ek; cbn.
    + rewrite IH. destruct (Z.eqb u uid) eqn:Eu; [reflexivity|].
      destruct (Z.eqb k u) eqn:Eku; [|reflexivity].
      apply Z.eqb_eq in Ek, Eku. subst. rewrite Z.eqb_refl in Eu.
      discriminate.
    + destruct (Z.eqb k u) eqn:Eku.
      * apply Z.eqb_eq in Eku. subst k. now rewrite Ek.
      * exact IH.
Qed.

(** The result of [predict_anomaly] is a failure record with score 0, or
    a prediction whose risk level is read off its score. *)
Lemma predict_anomaly_risk fe c files st uid sid :
  let p := fst (predict_anomaly fe c files st uid sid) in
  (anomaly_score p = 0
   /\ (risk_level p = "unknown" \/ risk_level p = "insufficient_data"
       \/ risk_level p = "error")%string)
  \/ risk_level p = _determine_risk_level (anomaly_score p).
Proof.
  unfold predict_anomaly.
  destruct (load_user_model c files uid) as [ok c1].
  destruct ok; cbn [negb fst];
    [|left; split; [reflexivity|left; reflexivity]].
  unfold predict_anomaly_try.
  destruct (extract_session_features fe st sid) as [[|f0 fs]|e];
    [left; split; [reflexivity|right; left; reflexivity]
    | |left; split; [reflexivity|right; right; reflexivity]].
  destruct (cache_get c1 uid) as [um|];
    [|left; split; [reflexivity|right; right; reflexivity]].
  destruct (transform (scaler um) _) as [X|e];
    [|left; split; [reflexivity|right; right; reflexivity]].
  destruct (ensemble_loop (models um) X [] []) as [es ep].
  destruct es as [|s0 es];
    [left; split; [reflexivity|right; right; reflexivity]|].
  destruct (weighting_loop (s0 :: es) 0 0) as [ws tw].
  destruct (_calculate_confidence (s0 :: es) ep);
    [right; reflexivity|left; split; [reflexivity|right; right; reflexivity]].
Qed.

Lemma weighting_loop_between (d : Py.dict Q) (lo hi : Q) :
  (forall name s, In (name, s) d ->
                  lo <= _normalize_anomaly_score s name <= hi) ->
  forall ws tw, 0 <= tw -> lo * tw <= ws <= hi * tw ->
    lo * snd (weighting_loop d ws tw) <= fst (weighting_loop d ws tw)
    /\ fst (weighting_loop d ws tw) <= hi * snd (weighting_loop d ws tw).
Proof.
  induction d as [|[name s] d IH]; intros H ws tw Htw Hw; cbn.
  - lra.
  - pose proof (PredictFacts.model_weight_pos name) as Hp.
    pose proof (H name s (or_introl eq_refl)) as Hn.
    apply IH.
    + intros n' s' Hin. apply H. now right.
    + lra.
    + generalize dependent (_normalize_anomaly_score s name).
      generalize dependent (model_weight name). intros w Hp n Hn.
      split; nra.
Qed.

End PredictOpsFacts.

Module PredictExtras.

Import Predict.

(** X10.  For every detector name the normalised anomaly score
    decreases (weakly) as the raw score increases, and it saturates:
    the isolation forest gives 0 from raw score 0.5 up and 1 from -0.5
    down, the one-class SVM 0 from 2 up and 1 from -2 down, the local
    outlier factor 0 from -1 up and 1 from -3 down. *)
Theorem normalize_antitone_and_saturates :
  (forall name s1 s2, s1 <= s2 ->
     _normalize_anomaly_score s2 name <= _normalize_anomaly_score s1 name)
  /\ (forall s, (0.5 <= s -> _normalize_anomaly_score s "isolation_forest" == 0)
                /\ (s <= - 0.5 ->
                    _normalize_anomaly_score s "isolation_forest" == 1))
  /\ (forall s, (2 <= s -> _normalize_anomaly_score s "one_class_svm" == 0)
                /\ (s <= - 2 -> _normalize_anomaly_score s "one_class_svm" == 1))
  /\ (forall s, (- 1 <= s ->
                 _normalize_anomaly_score s "local_outlier_factor" == 0)
                /\ (s <= - 3 ->
                    _normalize_anomaly_score s "local_outlier_factor" == 1)).
Proof.
  split; [|split; [|split]].
  - intros name s1 s2 H. unfold _normalize_anomaly_score.
    apply PredictOpsFacts.min1_mono, PredictOpsFacts.max0_mono.
    destruct (String.eqb name "isolation_forest");
      [|destruct (String.eqb name "one_class_svm");
        [|destruct (String.eqb name "local_outlier_factor")]];
      repeat first [apply PredictOpsFacts.max0_mono
                   |apply PredictOpsFacts.min1_mono];
      try (apply Qmult_le_compat_r; [lra|discriminate]).
  - intro s. unfold _normalize_anomaly_score. cbn [String.eqb Ascii.eqb Bool.eqb].
    split; intro H.
    + apply PredictOpsFacts.unit_clamp_low.
      rewrite PredictOpsFacts.max0_low; [lra|].
      apply Qle_shift_div_r; lra.
    + apply PredictOpsFacts.unit_clamp_high.
      rewrite PredictOpsFacts.max0_high;
        apply Qle_shift_div_l; lra.
  - intro s. unfold _normalize_anomaly_score. cbn [String.eqb Ascii.eqb Bool.eqb].
    split; intro H.
    + apply PredictOpsFacts.unit_clamp_low.
      rewrite PredictOpsFacts.max0_low; [lra|].
      apply Qle_shift_div_r; lra.
    + apply PredictOpsFacts.unit_clamp_high.
      rewrite PredictOpsFacts.max0_high;
        apply Qle_shift_div_l; lra.
  - intro s. unfold _normalize_anomaly_score. cbn [String.eqb Ascii.eqb Bool.eqb].
    split; intro H.
    + apply PredictOpsFacts.unit_clamp_low.
      assert ((- s - 1) / 2 <= 0) as L by (apply Qle_shift_div_r; lra).
      rewrite PredictOpsFacts.max0_low; [lra|].
      rewrite PredictOpsFacts.min1_low; lra.
    + apply PredictOpsFacts.unit_clamp_high.
      assert (1 <= (- s - 1) / 2) as L by (apply Qle_shift_div_l; lra).
      rewrite PredictOpsFacts.max0_high;
        rewrite PredictOpsFacts.min1_high; lra.
Qed.

End PredictExtras.

Module PredictExtras2.

Import Predict.

(** X11.  The ensemble score is a weighted average: it lies between any
    two bounds that hold for the normalised scores of the detectors that
    answered, and with a single detector it is that detector's
    normalised score. *)
Theorem ensemble_score_is_average (d : Py.dict Q) (lo hi : Q) :
  d <> [] ->
  (forall name s, In (name, s) d ->
                  lo <= _normalize_anomaly_score s name <= hi) ->
  let final :=
    if Py.ltb 0 (snd (weighting_loop d 0 0))
    then fst (weighting_loop d 0 0) / snd (weighting_loop d 0 0) else 0 in
  lo <= final <= hi
  /\ (forall name s, d = [(name, s)] ->
                     final == _normalize_anomaly_score s name).
Proof.
  intros Hne Hb final.
  destruct (PredictFacts.weighting_loop_bounds d 0 0) as [_ [_ Hpos]]; [lra|].
  specialize (Hpos Hne).
  destruct (PredictOpsFacts.weighting_loop_between d lo hi Hb 0 0)
    as [H1 H2]; [lra|lra|].
  assert (Py.ltb 0 (snd (weighting_loop d 0 0)) = true) as E
    by now apply PyFacts.ltb_spec.
  subst final. rewrite E. split.
  - split; [apply Qle_shift_div_l|apply Qle_shift_div_r]; lra.
  - intros name s ->. cbn [weighting_loop fst snd].
    pose proof (PredictFacts.model_weight_pos name) as Hw.
    field. lra.
Qed.

(** The score of a single isolation forest with raw score 0. *)
Lemma ensemble_score_is_average_witness :
  (if Py.ltb 0 (snd (weighting_loop [("isolation_forest"%string, 0)] 0 0))
   then fst (weighting_loop [("isolation_forest"%string, 0)] 0 0)
        / snd (weighting_loop [("isolation_forest"%string, 0)] 0 0)
   else 0) == 0.5.
Proof.
  destruct (ensemble_score_is_average [("isolation_forest"%string, 0)] 0 1)
    as [_ H]; [discriminate|intros; apply PredictFacts.normalize_range|].
  rewrite (H _ _ eq_refl). vm_compute. reflexivity.
Defined.

(** X12.  The feature vector always has the 23 entries of the expected
    feature names, whatever the dictionary holds: a missing feature
    counts as 0.0, and features outside the expected names have no
    influence. *)
Theorem feature_vector_shape :
  (forall d, List.length (create_feature_vector d) = 23%nat)
  /\ create_feature_vector [] = repeat 0 23
  /\ (forall d1 d2,
        (forall name, In name _get_expected_feature_names ->
                      Py.dict_get d1 name = Py.dict_get d2 name) ->
        create_feature_vector d1 = create_feature_vector d2).
Proof.
  split; [|split].
  - intro d. unfold create_feature_vector. rewrite length_map. reflexivity.
  - reflexivity.
  - intros d1 d2 H. unfold create_feature_vector.
    apply map_ext_in. intros name Hin. now rewrite (H name Hin).
Qed.

(** X13.  Once [load_user_model] has succeeded for a user, the bundle
    is in the cache and every later load of that user succeeds from the
    cache without looking at the disk, so a bundle written later is not
    seen; a failed load leaves the cache as it was. *)
Theorem load_serves_from_cache c files uid :
  let c' := snd (load_user_model c files uid) in
  (fst (load_user_model c files uid) = true ->
   cache_get c' uid <> None
   /\ forall files', load_user_model c' files' uid = (true, c'))
  /\ (fst (load_user_model c files uid) = false ->
      c' = c /\ forall d, files uid <> Some (Bundle d)).
Proof.
  intro c'. split.
  - intro H.
    pose proof (PredictOpsFacts.load_user_model_cached c files uid H) as Hc.
    split; [exact Hc|].
    intro files'. now apply PredictOpsFacts.load_user_model_hit.
  - subst c'. unfold load_user_model.
    destruct (cache_get c uid); [discriminate|].
    destruct (files uid) as [[|d]|]; cbn [fst snd]; intro H;
      try discriminate; split; try reflexivity; intros d0 E; discriminate.
Qed.

(** X14.  [clear_model_cache] with a non-zero user id forgets that user
    and nobody else, after which the next load reads the bundle from
    disk again; with no user id, and also with the user id 0, it empties
    the whole cache. *)
Theorem clear_model_cache_effect c uid :
  (uid <> 0%Z ->
   cache_get (PredictOps.clear_model_cache c (Some uid)) uid = None
   /\ (forall u, u <> uid ->
         cache_get (PredictOps.clear_model_cache c (Some uid)) u
         = cache_get c u)
   /\ (forall files d, files uid = Some (Bundle d) ->
         cache_get
           (snd (load_user_model (PredictOps.clear_model_cache c (Some uid))
                   files uid)) uid = Some d))
  /\ PredictOps.clear_model_cache c None = []
  /\ PredictOps.clear_model_cache c (Some 0%Z) = [].
Proof.
  split; [|split; reflexivity].
  intro Hu.
  assert (cache_get (PredictOps.clear_model_cache c (Some uid)) uid = None)
    as Hnone.
  { unfold PredictOps.clear_model_cache.
    apply Z.eqb_neq in Hu. rewrite Hu.
    destruct (cache_get c uid) eqn:E; [|exact E].
    rewrite PredictOpsFacts.cache_get_del, Z.eqb_refl. reflexivity. }
  split; [exact Hnone|]. split.
  - intros u Hne. unfold PredictOps.clear_model_cache.
    apply Z.eqb_neq in Hu. rewrite Hu.
    destruct (cache_get c uid); [|reflexivity].
    rewrite PredictOpsFacts.cache_get_del.
    apply Z.eqb_neq in Hne. now rewrite Hne.
  - intros files d Hf. unfold load_user_model. rewrite Hnone, Hf.
    cbn [snd]. rewrite CacheFacts.cache_get_set, Z.eqb_refl. reflexivity.
Qed.

(** X15.  [batch_predict] returns one result per session id, in the
    order given, and loads the user's model at most once: after a
    non-empty batch the cache is the cache after a single load. *)
Theorem batch_predict_shape fe files st uid (ids : list Z) : forall c,
  map fst (fst (PredictOps.batch_predict fe c files st uid ids)) = ids
  /\ (ids <> [] ->
      snd (PredictOps.batch_predict fe c files st uid ids)
      = snd (load_user_model c files uid)).
Proof.
  induction ids as [|sid ids IH]; intro c; [split; [reflexivity|congruence]|].
  cbn [PredictOps.batch_predict].
  pose proof (CacheFacts.predict_anomaly_cache fe c files st uid sid) as Hc.
  destruct (predict_anomaly fe c files st uid sid) as [p c1]. cbn [snd] in Hc.
  destruct (IH c1) as [H1 H2].
  destruct ids as [|sid' ids'].
  - cbn [PredictOps.batch_predict fst snd map].
    split; [reflexivity|]. intros _. exact Hc.
  - destruct (PredictOps.batch_predict fe c1 files st uid (sid' :: ids'))
      as [rs c2].
    cbn [fst snd map] in *. split; [now rewrite H1|].
    intros _. rewrite H2 by discriminate. rewrite Hc.
    apply PredictOpsFacts.load_user_model_twice.
Qed.

(** X16.  [check_behavioral_anomaly] reports an anomaly exactly when
    the anomaly score it returns is at least 0.6; in particular a failed
    prediction (score 0) is never reported as an anomaly. *)
Theorem anomaly_detected_iff_score fe c files st uid sid :
  let r := fst (PredictOps.check_behavioral_anomaly fe c files st uid sid) in
  PredictOps.anomaly_detected r = true
  <-> 0.6 <= PredictOps.c_anomaly_score r.
Proof.
  intro r. subst r. unfold PredictOps.check_behavioral_anomaly.
  pose proof (PredictOpsFacts.predict_anomaly_risk fe c files st uid sid) as H.
  destruct (predict_anomaly fe c files st uid sid) as [p c1].
  cbn [fst PredictOps.anomaly_detected PredictOps.c_anomaly_score] in *.
  destruct H as [[H0 Hr]|Hr].
  - rewrite H0. destruct Hr as [-> | [-> | ->]]; cbn;
      (split; [discriminate|intro L; exfalso; revert L; apply Qlt_not_le;
                            reflexivity]).
  - rewrite Hr. unfold _determine_risk_level, high_risk, medium_risk, low_risk.
    destruct (Qle_bool 0.8 (anomaly_score p)) eqn:E8.
    + apply Qle_bool_iff in E8. cbn. split; [intros _; lra|reflexivity].
    + destruct (Qle_bool 0.6 (anomaly_score p)) eqn:E6.
      * apply Qle_bool_iff in E6. cbn. split; [intros _; lra|reflexivity].
      * assert (~ 0.6 <= anomaly_score p) as N
          by (intro L; apply Qle_bool_iff in L; congruence).
        destruct (Qle_bool 0.3 (anomaly_score p)); cbn;
          (split; [discriminate|intro L; contradiction]).
Qed.

End PredictExtras2.

(** ** Training *)

Module TrainExtraFacts.

Import TrainModel.


Lemma train_files_cases fe sk files st uid now :
  snd (train_user_model fe sk files st uid now) = files
  \/ exists d, snd (train_user_model fe sk files st uid now)
               = Predict.dump files uid d.
Proof.
  unfold train_user_model.
  destruct (TrainFacts.train_user_model_try_cases fe sk files st uid now)
    as [[Hf _]|[r [d [_ [_ [_ [_ [_ Hw]]]]]]]];
    destruct (train_user_model_try fe sk files st uid now) as [[r'|e'] f'];
    cbn [snd] in *; [left; exact Hf|left; exact Hf
                    |right; now exists d|right; now exists d].
Qed.

Lemma collect_training_data_shape fe st uid now X fd :
  collect_training_data fe st uid now = Ok (X, fd) ->
  X = [] \/ (10 <= List.length X)%nat.
Proof.
  unfold collect_training_data.
  destruct (_ <? 50)%nat; [intro H; inversion H; now left|].
  destruct (collect_loop fe st _) as [[fv fd']|e]; [|discriminate].
  destruct (List.length fv <? 10)%nat eqn:E; intro H; inversion H; subst.
  - now left.
  - right. now apply Nat.ltb_ge in E.
Qed.

Lemma train_loop_keys sk names X :
  incl (Py.keys (train_loop sk names X)) names
  /\ (List.length (train_loop sk names X) <= List.length names)%nat.
Proof.
  induction names as [|n names [IH1 IH2]]; cbn; [split; [easy|lia]|].
  destruct (fit sk n X); cbn.
  - split; [|lia]. intros k [<-|Hk]; [now left|right; now apply IH1].
  - split; [|lia]. intros k Hk. right. now apply IH1.
Qed.

Lemma fold_max_upper (l : list Q) :
  0 <= fold_right Py.max 0 l
  /\ forall x, In x l -> x <= fold_right Py.max 0 l.
Proof.
  induction l as [|a l [IH0 IH]]; cbn; [split; [lra|intros x []]|].
  destruct (PyFacts.max_spec a (fold_right Py.max 0 l)) as [[H ->]|[H ->]].
  - split; [lra|]. intros x [<-|Hx]; [lra|]. specialize (IH x Hx). lra.
  - split; [lra|]. intros x [<-|Hx]; [lra|]. now apply IH.
Qed.

Lemma insert_by_sorted {A : Type} (R : A -> A -> Prop) (le : A -> A -> bool)
  (x : A) (l : list A) :
  (forall a b, le a b = true -> R a b) ->
  (forall a b, le a b = false -> R b a) ->
  Sorted R l -> Sorted R (Db.insert_by le x l).
Proof.
  intros Ht Hf. induction l as [|a l IH]; intro Hs; cbn.
  - constructor; constructor.
  - destruct (le x a) eqn:E.
    + constructor; [exact Hs|constructor; now apply Ht].
    + inversion Hs as [|? ? Hs' Hhd]; subst.
      constructor; [now apply IH|].
      destruct l as [|b l]; cbn.
      * constructor. now apply Hf.
      * destruct (le x b); constructor; [now apply Hf|].
        inversion Hhd; assumption.
Qed.

Lemma sort_by_sorted {A : Type} (R : A -> A -> Prop) (le : A -> A -> bool)
  (l : list A) :
  (forall a b, le a b = true -> R a b) ->
  (forall a b, le a b = false -> R b a) ->
  Sorted R (Db.sort_by le l).
Proof.
  intros Ht Hf. unfold Db.sort_by.
  induction l as [|a l IH]; cbn; [constructor|].
  now apply insert_by_sorted.
Qed.

Lemma sort_by_length {A : Type} (le : A -> A -> bool) (l : list A) :
  List.length (Db.sort_by le l) = List.length l.
Proof.
  unfold Db.sort_by. induction l as [|a l IH]; cbn; [reflexivity|].
  rewrite <- IH. generalize (fold_right (Db.insert_by le) [] l). intro m.
  induction m as [|b m IHm]; cbn; [reflexivity|].
  destruct (le a b); cbn; [reflexivity|now rewrite IHm].
Qed.

Lemma train_all_loop_counts fe sk st now users : forall files results,
  let out := fst (PredictOps.train_all_loop fe sk files st now users results) in
  PredictOps.total_users out = PredictOps.total_users results
  /\ (PredictOps.n_trained_successfully out + PredictOps.n_training_failed out
      + PredictOps.n_insufficient_data out
      = PredictOps.n_trained_successfully results
        + PredictOps.n_training_failed results
        + PredictOps.n_insufficient_data results + List.length users)%nat
  /\ map (fun d => fst (fst d)) (PredictOps.details out)
     = map (fun d => fst (fst d)) (PredictOps.details results)
       ++ map PredictOps.u_id users.
Proof.
  induction users as [|u users IH]; intros files results; cbn zeta.
  - cbn. split; [reflexivity|]. split; [lia|]. now rewrite app_nil_r.
  - cbn [PredictOps.train_all_loop].
    destruct (train_user_model fe sk files st (PredictOps.u_id u) now)
      as [r files'].
    match goal with |- context [PredictOps.train_all_loop _ _ _ _ _ _ ?R] =>
      destruct (IH files' R) as [H1 [H2 H3]] end.
    rewrite H1, H2, H3.
    cbn [PredictOps.total_users PredictOps.n_trained_successfully
         PredictOps.n_training_failed PredictOps.n_insufficient_data
         PredictOps.details List.length map].
    split; [reflexivity|]. split.
    + destruct (success r); [lia|].
      destruct (Nat.eqb (samples_collected r) 0); lia.
    + rewrite map_app. cbn [map fst]. now rewrite <- app_assoc.
Qed.

End TrainExtraFacts.

Module TrainExtras.

Import TrainModel.

(** X17.  A training run for one user never touches the bundle file of
    another user. *)
Theorem training_touches_one_file fe sk files st uid now :
  forall u, u <> uid ->
    snd (train_user_model fe sk files st uid now) u = files u.
Proof.
  intros u Hu.
  destruct (TrainExtraFacts.train_files_cases fe sk files st uid now)
    as [->|[d ->]]; [reflexivity|].
  unfold Predict.dump. apply Z.eqb_neq in Hu. now rewrite Hu.
Qed.

(** The files of user 8 after training user 7 on the busy store. *)
Lemma training_touches_one_file_witness :
  snd (train_user_model Examples.fe_one Examples.sk_fitting
         Examples.no_files Examples.busy_store 7 200) 8%Z = None.
Proof.
  rewrite (training_touches_one_file Examples.fe_one Examples.sk_fitting
             Examples.no_files Examples.busy_store 7 200 8%Z);
    [reflexivity|discriminate].
Defined.



(** X19.  A training result reports either no sample or at least 10
    samples; a successful run reports at least 10 samples and a
    non-empty list of trained detectors drawn from the three detector
    names. *)
Theorem training_result_shape fe sk files st uid now :
  let r := fst (train_user_model fe sk files st uid now) in
  (samples_collected r = 0%nat \/ (10 <= samples_collected r)%nat)
  /\ (success r = true ->
      (10 <= samples_collected r)%nat
      /\ models_trained r <> []
      /\ incl (models_trained r) model_names
      /\ (List.length (models_trained r) <= 3)%nat).
Proof.
  intro r. subst r. unfold train_user_model, train_user_model_try.
  destruct (collect_training_data fe st uid now) as [[X fd]|e] eqn:Ec;
    [|cbn; split; [now left|discriminate]].
  apply TrainExtraFacts.collect_training_data_shape in Ec.
  destruct X as [|x0 X]; [cbn; split; [now left|discriminate]|].
  destruct Ec as [Ec|Ec]; [discriminate|].
  destruct (fit_scalers sk (x0 :: X));
    [|cbn; split; [now left|discriminate]].
  destruct (fit_transform sk (x0 :: X)) as [[scaler Xs]|e];
    [|cbn; split; [now left|discriminate]].
  destruct (TrainExtraFacts.train_loop_keys sk model_names Xs) as [Hi Hl].
  destruct (train_loop sk model_names Xs) as [|m0 ms];
    cbn [fst success samples_collected models_trained];
    [split; [now right|discriminate]|].
  split; [now right|]. intros _.
  split; [exact Ec|]. split; [destruct m0; discriminate|].
  split; [exact Hi|]. unfold Py.keys. rewrite length_map. exact Hl.
Qed.

(** X20.  The feature-importance map of a training run holds at most
    23 entries, each between 0 and 1, in descending order of
    importance. *)
Theorem feature_importance_shape (X : list (list Q)) :
  (List.length (_calculate_feature_importance X) <= 23)%nat
  /\ (forall name v, In (name, v) (_calculate_feature_importance X) ->
                     0 <= v <= 1)
  /\ Sorted (fun a b => snd b <= snd a) (_calculate_feature_importance X).
Proof.
  unfold _calculate_feature_importance.
  destruct X as [|row X]; [split; [cbn; lia|split; [intros ? ? []|constructor]]|].
  set (variances :=
         map (fun i => Py.var (column (row :: X) i)) (seq 0 (List.length row))).
  destruct (TrainExtraFacts.fold_max_upper variances) as [Htop Hle].
  set (top := fold_right Py.max 0 variances) in *.
  split; [|split].
  - rewrite TrainExtraFacts.sort_by_length, length_combine.
    change (List.length Predict._get_expected_feature_names) with 23%nat.
    lia.
  - intros name v Hin. apply TrustExtras2.in_sort_by in Hin.
    apply in_combine_r in Hin. apply in_map_iff in Hin.
    destruct Hin as [w [<- Hw]].
    assert (0 <= w) as Hw0.
    { unfold variances in Hw. apply in_map_iff in Hw.
      destruct Hw as [i [<- _]]. apply StatFacts.var_nonneg. }
    specialize (Hle w Hw).
    destruct (Py.ltb 0 top) eqn:E.
    + apply PyFacts.ltb_spec in E. split.
      * apply Qle_shift_div_l; lra.
      * apply Qle_shift_div_r; lra.
    + assert (~ 0 < top) by (intro L; apply PyFacts.ltb_spec in L; congruence).
      assert (w == 0) as -> by lra. split; [discriminate|discriminate].
  - apply TrainExtraFacts.sort_by_sorted.
    + intros a b H. now apply Qle_bool_iff in H.
    + intros a b H.
      destruct (Qlt_le_dec (snd a) (snd b)) as [L|L]; [lra|].
      apply Qle_bool_iff in L. congruence.
Qed.

(** X21.  [train_all_users] counts every user exactly once: the three
    counters add up to the number of users, and the details list the
    users in the order they were read. *)
Theorem train_all_users_counts fe sk files st now users :
  let out := fst (PredictOps.train_all_users fe sk files st now users) in
  PredictOps.total_users out = List.length users
  /\ (PredictOps.n_trained_successfully out + PredictOps.n_training_failed out
      + PredictOps.n_insufficient_data out = List.length users)%nat
  /\ map (fun d => fst (fst d)) (PredictOps.details out)
     = map PredictOps.u_id users.
Proof.
  intro out. subst out. unfold PredictOps.train_all_users.
  match goal with |- context [PredictOps.train_all_loop _ _ _ _ _ _ ?R] =>
    destruct (TrainExtraFacts.train_all_loop_counts fe sk st now users files R)
      as [H1 [H2 H3]] end.
  rewrite H1, H2, H3. cbn. repeat split; lia.
Qed.

End TrainExtras.

(** ** Sessions: creation, verification, expiry *)

Module SessionFacts.

Lemma find_app {A : Type} (p : A -> bool) (l m : list A) :
  find p (l ++ m) = match find p l with Some x => Some x | None => find p m end.
Proof.
  induction l as [|a l IH]; cbn; [reflexivity|].
  destruct (p a); [reflexivity|exact IH].
Qed.

Lemma existsb_token_iff (l : list Db.UserSession) (tok : string) :
  existsb (fun s => String.eqb (Db.session_token s) tok) l = true
  <-> In tok (map Db.session_token l).
Proof.
  rewrite existsb_exists, in_map_iff. split.
  - intros [s [Hin E]]. apply String.eqb_eq in E. now exists s.
  - intros [s [E Hin]]. exists s. split; [exact Hin|now apply String.eqb_eq].
Qed.

Lemma find_unique_id (l : list Db.UserSession) (s : Db.UserSession) :
  NoDup (map Db.id l) -> In s l ->
  find (fun x => Z.eqb (Db.id x) (Db.id s)) l = Some s.
Proof.
  induction l as [|a l IH]; intros Hnd Hin; [destruct Hin|].
  cbn in Hnd. inversion Hnd as [|? ? Ha Hl]; subst. cbn.
  destruct Hin as [->|Hin]; [now rewrite Z.eqb_refl|].
  destruct (Z.eqb (Db.id a) (Db.id s)) eqn:E; [|now apply IH].
  exfalso. apply Z.eqb_eq in E. apply Ha. rewrite E. now apply in_map.
Qed.

(** What a successful [verify_session_token] has checked. *)
Lemma verify_session_token_ok st tok now s st' :
  Verify.verify_session_token st tok now = (Ok s, st') ->
  st' = st /\ Db.get_active_session st tok = Some s
  /\ Db.is_active s = true /\ ~ 86400 < now - Db.login_time s.
Proof.
  unfold Verify.verify_session_token.
  destruct (Db.get_active_session st tok) as [session|] eqn:Hg;
    [|discriminate].
  destruct (negb (Db.is_active session)) eqn:Ea; [discriminate|].
  destruct (Py.ltb 86400 (now - Db.login_time session)) eqn:El;
    [discriminate|].
  intro H. inversion H; subst. split; [reflexivity|]. split; [reflexivity|].
  split; [now destruct (Db.is_active s)|].
  intro L. apply PyFacts.ltb_spec in L. congruence.
Qed.

Lemma get_active_session_some st tok s :
  Db.get_active_session st tok = Some s ->
  In s (Db.user_sessions st) /\ Db.session_token s = tok
  /\ Db.is_active s = true.
Proof.
  intro H. apply find_some in H. destruct H as [Hin Hp].
  apply andb_true_iff in Hp. destruct Hp as [Ht Ha].
  apply String.eqb_eq in Ht. split; [exact Hin|]. split; [exact Ht|].
  now destruct (Db.is_active s).
Qed.

(** Deactivating a row of a store with unique tokens leaves its session
    terminated. *)
Lemma deactivate_terminated st s :
  System.unique_tokens st -> In s (Db.user_sessions st) ->
  System.terminated (Db.session_token s) (Db.id s)
    (Db.commit_session st (Db.id s) (fun x => Db.set_is_active x false)).
Proof.
  intros Hu Hin. split.
  - exists (Db.set_is_active s false). split; [|split; reflexivity].
    cbn. apply in_map_iff. exists s. split; [|exact Hin].
    now rewrite Z.eqb_refl.
  - intros s' Hin' Hs'. cbn in Hin'. apply in_map_iff in Hin'.
    destruct Hin' as [s0 [E Hin0]].
    destruct (Z.eqb (Db.id s0) (Db.id s)) eqn:E0; subst s'; [reflexivity|].
    exfalso. apply Z.eqb_neq in E0. destruct Hs' as [Hs'|Hs']; [auto|].
    assert (s0 = s) by (eapply SystemFacts.nodup_map_inj; eauto).
    subst s0. auto.
Qed.

(** Rows are never removed, reordered or reactivated, and keep their
    key and token. *)
Lemma evolves_rows st st' :
  System.evolves st st' ->
  forall k s, nth_error (Db.user_sessions st) k = Some s ->
    exists s', nth_error (Db.user_sessions st') k = Some s'
               /\ Db.id s' = Db.id s
               /\ Db.session_token s' = Db.session_token s
               /\ (Db.is_active s' = true -> Db.is_active s = true).
Proof.
  induction 1 as [st|st sid f Hf|st uid tok ip ua now|st sid kind data feats ts
                  |st1 st2 st3 _ IH1 _ IH2]; intros k s Hk.
  - exists s. auto.
  - cbn. rewrite nth_error_map, Hk. cbn. eexists. split; [reflexivity|].
    destruct (Z.eqb (Db.id s) sid); [apply Hf|auto].
  - unfold Db.create_session.
    destruct (existsb _ (Db.user_sessions st)); cbn [snd]; [exists s; auto|].
    exists s. cbn. split; [|auto].
    rewrite nth_error_app1; [exact Hk|].
    apply nth_error_Some. congruence.
  - exists s. auto.
  - destruct (IH1 k s Hk) as [s1 [H1 [Hi1 [Ht1 Ha1]]]].
    destruct (IH2 k s1 H1) as [s2 [H2 [Hi2 [Ht2 Ha2]]]].
    exists s2. split; [exact H2|]. split; [congruence|].
    split; [congruence|auto].
Qed.

End SessionFacts.

Module SessionExtras.

(** X22.  [verify_session_token] returns a session only if it is a row
    of the store with that token, active, and logged in at most 24 hours
    ago, and then it leaves the store untouched; whenever it fails it
    raises HTTP 401 and nothing else. *)
Theorem verify_session_token_checks st tok now :
  (forall s, fst (Verify.verify_session_token st tok now) = Ok s ->
     In s (Db.user_sessions st) /\ Db.session_token s = tok
     /\ Db.is_active s = true /\ now - Db.login_time s <= 86400
     /\ snd (Verify.verify_session_token st tok now) = st)
  /\ (forall e, fst (Verify.verify_session_token st tok now) = Raise e ->
        exists detail, e = HTTPException 401 detail).
Proof.
  split.
  - intros s H.
    destruct (Verify.verify_session_token st tok now) as [r st'] eqn:E.
    cbn [fst snd] in *. subst r.
    destruct (SessionFacts.verify_session_token_ok _ _ _ _ _ E)
      as [-> [Hg [Ha Hl]]].
    destruct (SessionFacts.get_active_session_some _ _ _ Hg) as [Hin [Ht _]].
    repeat split; try assumption. lra.
  - intros e. unfold Verify.verify_session_token.
    destruct (Db.get_active_session st tok) as [session|];
      [|intro H; inversion H; eexists; reflexivity].
    destruct (negb (Db.is_active session));
      [intro H; inversion H; eexists; reflexivity|].
    destruct (Py.ltb 86400 (now - Db.login_time session)); intro H;
      inversion H. eexists; reflexivity.
Qed.

(** X23.  Once [verify_session_token] has found a session older than 24
    hours, it raises "Session expired" and, tokens being unique, the
    session is out for good: after any further requests every
    verification with its token raises 401. *)
Theorem expired_session_stays_out e s tok now session rs :
  System.unique_tokens (System.db s) ->
  Db.get_active_session (System.db s) tok = Some session ->
  86400 < now - Db.login_time session ->
  fst (Verify.verify_session_token (System.db s) tok now)
  = Raise (HTTPException 401 "Session expired")
  /\ forall now',
       fst (Verify.verify_session_token
              (System.db (System.run e
                            (System.step e s (System.VerifySessionToken tok now))
                            rs))
              tok now')
       = Raise (HTTPException 401 "Invalid or expired session").
Proof.
  intros Hu Hg Hold.
  destruct (SessionFacts.get_active_session_some _ _ _ Hg) as [Hin [Ht Ha]].
  assert (Verify.verify_session_token (System.db s) tok now
          = (Raise (HTTPException 401 "Session expired"),
             Db.commit_session (System.db s) (Db.id session)
               (fun x => Db.set_is_active x false))) as Hv.
  { unfold Verify.verify_session_token. rewrite Hg, Ha. cbn [negb].
    apply PyFacts.ltb_spec in Hold. now rewrite Hold. }
  split; [now rewrite Hv|].
  intro now'.
  assert (System.terminated tok (Db.id session)
            (System.db (System.run e
                          (System.step e s (System.VerifySessionToken tok now))
                          rs))) as T.
  { eapply SystemFacts.terminated_evolves; [apply SystemFacts.run_evolves|].
    cbn [System.step System.db]. rewrite Hv. cbn [snd]. rewrite <- Ht.
    now apply SessionFacts.deactivate_terminated. }
  unfold Verify.verify_session_token.
  now rewrite (SystemFacts.terminated_no_active_session _ _ _ T).
Qed.

(** Alice's session verified two days after login, then ten more
    requests. *)
Lemma expired_session_stays_out_witness :
  fst (Verify.verify_session_token Examples.alice_store "tok-alice" 172800)
  = Raise (HTTPException 401 "Session expired")
  /\ forall now',
       fst (Verify.verify_session_token
              (System.db
                 (System.run Examples.env0
                    (System.step Examples.env0 Examples.state0
                       (System.VerifySessionToken "tok-alice" 172800))
                    Examples.later_requests))
              "tok-alice" now')
       = Raise (HTTPException 401 "Invalid or expired session").
Proof.
  apply (expired_session_stays_out Examples.env0 Examples.state0 "tok-alice"
           172800 Examples.alice_session Examples.later_requests).
  - unfold System.unique_tokens. cbn. constructor; [intros []|constructor].
  - reflexivity.
  - reflexivity.
Defined.

(** X24.  When [continuous_verification] returns, the session row it
    verified is still active, its [last_activity] is the time of the
    call and its stored trust is the trust score reported in the result;
    a trust score below the session's threshold is reported as not
    verified but the session is not terminated. *)
Theorem continuous_verification_effects fe c files st tok nv clk na v :
  NoDup (map Db.id (Db.user_sessions st)) ->
  fst (fst (Verify.continuous_verification fe c files st tok nv clk na))
  = Ok v ->
  let st' :=
    snd (fst (Verify.continuous_verification fe c files st tok nv clk na)) in
  let tv := Verify.v_trust_verification v in
  exists session s',
    Db.get_active_session st tok = Some session
    /\ Verify.v_session_id v = Db.id session
    /\ Db.session_by_id st' (Db.id session) = Some s'
    /\ Db.is_active s' = true
    /\ Db.last_activity s' = na
    /\ Db.current_trust_score s' = Verify.v_trust_score tv
    /\ (Verify.verified tv = false
        <-> Verify.v_trust_score tv < Db.min_trust_threshold session).
Proof.
  intros Hnd. unfold Verify.continuous_verification.
  destruct (Verify.verify_session_token st tok nv) as [[session|e] st1] eqn:Ev;
    [|discriminate].
  destruct (SessionFacts.verify_session_token_ok _ _ _ _ _ Ev)
    as [-> [Hg [Ha _]]].
  destruct (SessionFacts.get_active_session_some _ _ _ Hg) as [Hin _].
  pose proof (SessionFacts.find_unique_id _ _ Hnd Hin) as Hs.
  fold (Db.session_by_id st (Db.id session)) in Hs.
  unfold Verify.verify_trust_level.
  destruct (TrustFacts.calculate_trust_score_found fe c files st clk
              (Db.id session) session Hs) as [HT [_ [_ [_ [_ [_ [_ Hst]]]]]]].
  destruct (TrustEngine.calculate_trust_score fe c files st clk (Db.id session))
    as [[r st2] c2]. cbn [fst snd] in HT, Hst.
  assert (Db.session_by_id
            (Db.commit_session st2 (Db.id session)
               (fun x => Db.set_last_activity x na)) (Db.id session)
          = Some (Db.set_last_activity
                    (Db.set_last_activity
                       (Db.set_current_trust_score session
                          (TrustEngine.trust_score r))
                       (TrustEngine.now_update clk)) na)) as Hfinal.
  { apply (DbFacts.session_by_id_commit st2 (Db.id session)
             (fun x => Db.set_last_activity x na)); [reflexivity|].
    rewrite Hst, HT. unfold TrustEngine._update_session_trust.
    apply (DbFacts.session_by_id_commit st (Db.id session)
             (fun x => Db.set_last_activity
                         (Db.set_current_trust_score x _) _));
      [reflexivity|exact Hs]. }
  destruct (Py.ltb (TrustEngine.trust_score r) (Db.min_trust_threshold session))
    eqn:El; cbn [fst snd]; intro H; inversion H; subst v; cbn zeta;
    exists session; eexists;
    (split; [exact Hg|]); (split; [reflexivity|]);
    (split; [exact Hfinal|]);
    cbn [Db.is_active Db.last_activity Db.current_trust_score
         Db.set_last_activity Db.set_current_trust_score
         Verify.v_trust_verification Verify.v_trust_score Verify.verified];
    (split; [exact Ha|]); (split; [reflexivity|]); (split; [reflexivity|]).
  - apply PyFacts.ltb_spec in El. split; [intros _; exact El|reflexivity].
  - split; [discriminate|].
    intro L. apply PyFacts.ltb_spec in L. congruence.
Qed.

(** Alice's session verified at time 100. *)
Lemma continuous_verification_effects_witness :
  exists session s',
    Db.get_active_session Examples.alice_store "tok-alice" = Some session
    /\ Db.session_by_id
         (snd (fst (Verify.continuous_verification Examples.fe_empty []
                      Examples.no_files Examples.alice_store "tok-alice" 100
                      (Examples.clock_at 100) 101)))
         (Db.id session) = Some s'
    /\ Db.is_active s' = true
    /\ Db.last_activity s' = 101.
Proof.
  destruct (Verify.continuous_verification Examples.fe_empty []
              Examples.no_files Examples.alice_store "tok-alice" 100
              (Examples.clock_at 100) 101) as [[[v|e] st'] c'] eqn:E;
    [|vm_compute in E; discriminate].
  destruct (continuous_verification_effects Examples.fe_empty []
              Examples.no_files Examples.alice_store "tok-alice" 100
              (Examples.clock_at 100) 101 v)
    as [session [s' [H1 [_ [H3 [H4 [H5 _]]]]]]].
  - cbn. constructor; [intros []|constructor].
  - now rewrite E.
  - rewrite E in H3. cbn [fst snd] in *. exists session, s'. auto.
Defined.

End SessionExtras.

Module StoreFacts.

Lemma unique_ids_evolves st st' :
  System.evolves st st' ->
  NoDup (map Db.id (Db.user_sessions st)) ->
  NoDup (map Db.id (Db.user_sessions st')).
Proof.
  induction 1 as [st|st k f Hf|st uid tok ip ua now|st k kind data feats ts
                  |st1 st2 st3 _ IH1 _ IH2]; intro U; auto.
  - cbn. rewrite map_map.
    erewrite map_ext; [exact U|].
    intro s. cbn. destruct (Z.eqb (Db.id s) k); [|reflexivity].
    now destruct (Hf s) as [H1 _].
  - unfold Db.create_session.
    destruct (existsb _ (Db.user_sessions st)); [exact U|].
    cbn. rewrite map_app. cbn. apply SystemFacts.nodup_snoc; [exact U|].
    intro Hin. apply SystemFacts.next_id_above in Hin. lia.
Qed.

End StoreFacts.

Module StoreExtras.

(** X25.  [create_session] with a token that is already in the table
    raises and stores nothing; with a fresh token it appends an active
    session with trust 1.0 and threshold 0.3 under a new key, which is
    then found both by its token and by its key, while every earlier
    lookup by key answers as before. *)
Theorem create_session_round_trip st uid tok ip ua now :
  let out := Db.create_session st uid tok ip ua now in
  (In tok (map Db.session_token (Db.user_sessions st)) ->
   (exists msg, fst out = Raise (IntegrityError msg)) /\ snd out = st)
  /\ (~ In tok (map Db.session_token (Db.user_sessions st)) ->
      exists s,
        fst out = Ok s
        /\ Db.user_sessions (snd out) = Db.user_sessions st ++ [s]
        /\ Db.session_token s = tok /\ Db.user_id s = uid
        /\ Db.is_active s = true
        /\ Db.current_trust_score s = 1 /\ Db.min_trust_threshold s = 0.3
        /\ ~ In (Db.id s) (map Db.id (Db.user_sessions st))
        /\ Db.get_active_session (snd out) tok = Some s
        /\ Db.session_by_id (snd out) (Db.id s) = Some s
        /\ (forall sid x, Db.session_by_id st sid = Some x ->
                          Db.session_by_id (snd out) sid = Some x)).
Proof.
  intro out. subst out. unfold Db.create_session. split.
  - intro H. apply SessionFacts.existsb_token_iff in H. rewrite H.
    split; [eexists; reflexivity|reflexivity].
  - intro H.
    destruct (existsb _ (Db.user_sessions st)) eqn:E;
      [apply SessionFacts.existsb_token_iff in E; contradiction|].
    eexists. cbn [fst snd Db.user_sessions].
    split; [reflexivity|]. split; [reflexivity|].
    cbn [Db.session_token Db.user_id Db.is_active Db.current_trust_score
         Db.min_trust_threshold Db.id].
    do 5 (split; [reflexivity|]).
    assert (~ In (Db.next_id (map Db.id (Db.user_sessions st)))
              (map Db.id (Db.user_sessions st))) as Hfresh
      by (intro Hin; apply SystemFacts.next_id_above in Hin; lia).
    split; [exact Hfresh|]. split; [|split].
    + unfold Db.get_active_session. cbn [Db.user_sessions].
      rewrite SessionFacts.find_app.
      rewrite SystemFacts.find_none_all.
      * cbn. now rewrite String.eqb_refl.
      * intros x Hx.
        pose proof (SystemFacts.existsb_token_false _ _ E x Hx) as N.
        apply String.eqb_neq in N. now rewrite N.
    + unfold Db.session_by_id. cbn [Db.user_sessions].
      rewrite SessionFacts.find_app.
      rewrite SystemFacts.find_none_all.
      * cbn. now rewrite Z.eqb_refl.
      * intros x Hx. apply Z.eqb_neq. intro Heq.
        apply Hfresh. rewrite <- Heq. now apply in_map.
    + intros sid x Hx. unfold Db.session_by_id in *. cbn [Db.user_sessions].
      rewrite SessionFacts.find_app. now rewrite Hx.
Qed.

(** X26.  Whatever requests are served, the session tokens stay
    pairwise distinct and so do the session keys. *)
Theorem store_keys_stay_unique e s rs :
  System.unique_tokens (System.db s) ->
  NoDup (map Db.id (Db.user_sessions (System.db s))) ->
  System.unique_tokens (System.db (System.run e s rs))
  /\ NoDup (map Db.id (Db.user_sessions (System.db (System.run e s rs)))).
Proof.
  intros Ht Hi. split.
  - eapply SystemFacts.unique_tokens_evolves;
      [apply SystemFacts.run_evolves|exact Ht].
  - eapply StoreFacts.unique_ids_evolves;
      [apply SystemFacts.run_evolves|exact Hi].
Qed.

(** The keys after the ten requests that follow Alice's login. *)
Lemma store_keys_stay_unique_witness :
  System.unique_tokens
    (System.db (System.run Examples.env0 Examples.state0
                  Examples.later_requests))
  /\ NoDup (map Db.id
              (Db.user_sessions
                 (System.db (System.run Examples.env0 Examples.state0
                               Examples.later_requests)))).
Proof.
  apply (store_keys_stay_unique Examples.env0 Examples.state0
           Examples.later_requests).
  - unfold System.unique_tokens. cbn. constructor; [intros []|constructor].
  - cbn. constructor; [intros []|constructor].
Defined.

(** X27.  Whatever requests are served, no session row is removed or
    moved, no row changes its key or its token, and no inactive row
    becomes active again. *)
Theorem sessions_are_never_revived e s rs k row :
  nth_error (Db.user_sessions (System.db s)) k = Some row ->
  exists row',
    nth_error (Db.user_sessions (System.db (System.run e s rs))) k = Some row'
    /\ Db.id row' = Db.id row
    /\ Db.session_token row' = Db.session_token row
    /\ (Db.is_active row = false -> Db.is_active row' = false).
Proof.
  intro Hk.
  destruct (SessionFacts.evolves_rows _ _ (SystemFacts.run_evolves e rs s)
              k row Hk) as [row' [H1 [H2 [H3 H4]]]].
  exists row'. repeat split; try assumption.
  intro Hf. destruct (Db.is_active row') eqn:E; [|reflexivity].
  rewrite (H4 eq_refl) in Hf. discriminate.
Qed.

(** Alice's row after the ten requests. *)
Lemma sessions_are_never_revived_witness :
  exists row',
    nth_error
      (Db.user_sessions
         (System.db (System.run Examples.env0 Examples.state0
                       Examples.later_requests))) 0 = Some row'
    /\ Db.session_token row' = "tok-alice"%string.
Proof.
  destruct (sessions_are_never_revived Examples.env0 Examples.state0
              Examples.later_requests 0 Examples.alice_session)
    as [row' [H1 [_ [H3 _]]]]; [reflexivity|].
  exists row'. split; [exact H1|exact H3].
Defined.

(** X28.  Started with an empty cache, the predictor's cache only ever
    holds users whose bundle file is on disk, whatever requests are
    served; so for a user without a bundle file every prediction is the
    neutral "No trained model available" result. *)
Theorem cache_stays_within_disk e s rs :
  System.loaded_models s = [] ->
  let s' := System.run e s rs in
  Predict.cache_from_disk (System.loaded_models s') (System.files s')
  /\ forall uid sid,
       System.files s' uid = None ->
       Predict.message
         (fst (Predict.predict_anomaly (System.fe e) (System.loaded_models s')
                 (System.files s') (System.db s') uid sid))
       = Some "No trained model available"%string.
Proof.
  intros Hc s'.
  assert (Predict.cache_from_disk (System.loaded_models s') (System.files s'))
    as H.
  { apply CacheFacts.run_from_disk. rewrite Hc. intros uid d Hd.
    discriminate Hd. }
  split; [exact H|].
  intros uid sid Hf.
  now rewrite (PredictFacts.predict_anomaly_no_model _ _ _ _ _ _ Hf H).
Qed.

(** The cache after the ten requests, and a prediction for user 8. *)
Lemma cache_stays_within_disk_witness :
  Predict.message
    (fst (Predict.predict_anomaly (System.fe Examples.env0)
            (System.loaded_models
               (System.run Examples.env0 Examples.state0
                  Examples.later_requests))
            (System.files
               (System.run Examples.env0 Examples.state0
                  Examples.later_requests))
            (System.db
               (System.run Examples.env0 Examples.state0
                  Examples.later_requests)) 8 2))
  = Some "No trained model available"%string.
Proof.
  destruct (cache_stays_within_disk Examples.env0 Examples.state0
              Examples.later_requests) as [_ H]; [reflexivity|].
  apply H. vm_compute. reflexivity.
Defined.

End StoreExtras.

(** ** Pointer features *)

Module MouseFeatureFacts.

Import MouseFeatures.

Lemma ratio_range (a n : nat) :
  (a <= n)%nat -> (0 < n)%nat ->
  0 <= inject_Z (Z.of_nat a) / inject_Z (Z.of_nat n) <= 1.
Proof.
  intros Ha Hn.
  assert (0 < inject_Z (Z.of_nat n)) by (unfold Qlt; simpl; lia).
  assert (0 <= inject_Z (Z.of_nat a)) by (unfold Qle; simpl; lia).
  assert (inject_Z (Z.of_nat a) <= inject_Z (Z.of_nat n))
    by (rewrite <- Zle_Qle; lia).
  split; [apply Qle_shift_div_l|apply Qle_shift_div_r]; lra.
Qed.

Lemma ratio_below_one (a n : nat) :
  (a < n)%nat -> inject_Z (Z.of_nat a) / inject_Z (Z.of_nat n) < 1.
Proof.
  intro Ha.
  assert (0 < inject_Z (Z.of_nat n)) by (unfold Qlt; simpl; lia).
  assert (inject_Z (Z.of_nat a) < inject_Z (Z.of_nat n))
    by (rewrite <- Zlt_Qlt; lia).
  apply Qlt_shift_div_r; lra.
Qed.

Lemma deltas_length (l : list Q) :
  List.length (deltas l) = (List.length l - 1)%nat.
Proof.
  induction l as [|a [|b l] IH]; cbn [deltas List.length] in *;
    [reflexivity|reflexivity|].
  rewrite IH. lia.
Qed.

Lemma timestamps_length (l : list Mouse.move_event) (ts : list Q) :
  timestamps l = Ok ts -> List.length ts = List.length l.
Proof.
  revert ts. induction l as [|e l IH]; intros ts H; cbn in H.
  - inversion H. reflexivity.
  - destruct (Py.dict_get e "timestamp"); [|discriminate].
    destruct (timestamps l) as [ts'|]; [|discriminate].
    inversion H. cbn. now rewrite (IH ts' eq_refl).
Qed.

Lemma sum_unit_terms {A : Type} (f : A -> Q) (l : list A) :
  (forall x, In x l -> 0 <= f x <= 1) ->
  0 <= Py.sum (map f l) <= Py.len l.
Proof.
  unfold Py.sum, Py.len. induction l as [|a l IH]; intro H.
  - cbn. split; [lra|discriminate].
  - cbn [map fold_left List.length].
    rewrite MouseFacts.fold_plus_shift.
    destruct IH as [I1 I2]; [intros x Hx; apply H; now right|].
    pose proof (H a (or_introl eq_refl)) as Ha.
    rewrite Nat2Z.inj_succ, <- Z.add_1_r, inject_Z_plus.
    change (inject_Z 1) with 1. lra.
Qed.

End MouseFeatureFacts.

Module MouseExtras.

Import MouseFeatures.

(** X29.  The pointer features that are ratios stay in range: the pause
    frequency and the micro-movement ratio lie in [0,1] (the pause
    frequency being 0 below five moves), the direction consistency is
    positive and at most 1, so its clamp at 0 never acts, and the
    double-click rate, which divides the number of close pairs by the
    number of clicks, is below 1; a click record without a timestamp
    makes the double-click rate raise. *)
Theorem pointer_ratios_bounded :
  (forall moves,
      0 <= calculate_pause_frequency moves <= 1
      /\ ((List.length moves < 5)%nat -> calculate_pause_frequency moves = 0))
  /\ (forall moves, 0 <= calculate_micro_movements moves <= 1)
  /\ (forall moves,
        0 < calculate_direction_consistency moves
        /\ calculate_direction_consistency moves <= 1)
  /\ (forall clicks r,
        calculate_double_click_rate clicks = Ok r -> 0 <= r /\ r < 1)
  /\ (forall clicks : list Mouse.move_event,
        (2 <= List.length clicks)%nat ->
        (exists e, In e clicks /\ Py.dict_get e "timestamp" = None) ->
        exists err, calculate_double_click_rate clicks = Raise err).
Proof.
  split; [|split; [|split; [|split]]].
  - intro moves. unfold calculate_pause_frequency.
    destruct (List.length moves <? 5)%nat eqn:E.
    + split; [lra|reflexivity].
    + apply Nat.ltb_ge in E. split; [|lia].
      apply MouseFeatureFacts.ratio_range; [apply filter_length_le|lia].
  - intro moves. unfold calculate_micro_movements.
    destruct moves as [|m moves]; [lra|].
    apply MouseFeatureFacts.ratio_range; [apply filter_length_le|cbn; lia].
  - intro moves. unfold calculate_direction_consistency.
    match goal with |- context [List.length ?d <? 2] => set (dirs := d) end.
    destruct (List.length dirs <? 2)%nat eqn:E; [lra|].
    apply Nat.ltb_ge in E.
    match goal with |- context [Py.len (filter ?p (deltas dirs))] =>
      set (changes := filter p (deltas dirs)) end.
    assert (List.length changes < List.length dirs)%nat as Hlt.
    { pose proof (filter_length_le
                    (fun d => Py.ltb 45 (Py.min (Qabs d) (360 - Qabs d)))
                    (deltas dirs)) as Hf.
      fold changes in Hf. rewrite MouseFeatureFacts.deltas_length in Hf. lia. }
    pose proof (MouseFeatureFacts.ratio_below_one _ _ Hlt) as H1.
    destruct (MouseFeatureFacts.ratio_range (List.length changes)
                (List.length dirs)) as [H0 _]; [lia|lia|].
    fold (Py.len changes) in H0, H1. fold (Py.len dirs) in H0, H1.
    destruct (PyFacts.max_spec 0 (1 - Py.len changes / Py.len dirs))
      as [[Hm ->]|[Hm ->]]; lra.
  - intros clicks r. unfold calculate_double_click_rate.
    destruct (List.length clicks <? 2)%nat eqn:E;
      [intro H; inversion H; split; [lra|reflexivity]|].
    apply Nat.ltb_ge in E.
    destruct (timestamps clicks) as [ts|] eqn:Et; [|discriminate].
    intro H. inversion H. clear H.
    pose proof (MouseFeatureFacts.timestamps_length _ _ Et) as Hl.
    pose proof (filter_length_le (fun d => Py.ltb d 500) (deltas ts)) as Hf.
    rewrite MouseFeatureFacts.deltas_length, Hl in Hf.
    split.
    + apply MouseFeatureFacts.ratio_range; lia.
    + apply MouseFeatureFacts.ratio_below_one. lia.
  - intros clicks Hn [e [Hin He]].
    assert (exists err, timestamps clicks = Raise err) as [err Herr].
    { clear Hn. induction clicks as [|c clicks IH]; [destruct Hin|].
      cbn. destruct Hin as [->|Hin].
      - rewrite He. eexists; reflexivity.
      - destruct (Py.dict_get c "timestamp"); [|eexists; reflexivity].
        destruct (IH Hin) as [err ->]. eexists; reflexivity. }
    exists err. unfold calculate_double_click_rate.
    apply Nat.ltb_ge in Hn. now rewrite Hn, Herr.
Qed.

(** X30.  The movement smoothness lies in (0,1], and is 1 below three
    moves; the acceleration pattern is 0 below three velocities and in
    (0,1] otherwise; and when every correlation numpy answers lies in
    [-1,1] the movement rhythm lies in [0,1], being 0 below ten moves. *)
Theorem pointer_patterns_bounded :
  (forall moves,
      0 < calculate_movement_smoothness moves
      /\ calculate_movement_smoothness moves <= 1
      /\ ((List.length moves < 3)%nat ->
          calculate_movement_smoothness moves = 1))
  /\ (forall velocities,
        ((List.length velocities < 3)%nat ->
         calculate_acceleration_pattern velocities = 0)
        /\ ((3 <= List.length velocities)%nat ->
            0 < calculate_acceleration_pattern velocities
            /\ calculate_acceleration_pattern velocities <= 1))
  /\ (forall np moves,
        (forall x y r, Mouse.corrcoef np x y = Some r -> - 1 <= r <= 1) ->
        0 <= Mouse.calculate_movement_rhythm np moves <= 1
        /\ ((List.length moves < 10)%nat ->
            Mouse.calculate_movement_rhythm np moves = 0)).
Proof.
  split; [|split].
  - intro moves. unfold calculate_movement_smoothness.
    destruct (List.length moves <? 3)%nat eqn:E.
    + split; [lra|]. split; [lra|]. intros _. reflexivity.
    + apply Nat.ltb_ge in E.
      match goal with |- context [map Qabs ?d] => set (ds := d) end.
      assert (0 <= Py.mean (map Qabs ds)) as Hm.
      { apply StatFacts.mean_nonneg. intros x Hx.
        apply in_map_iff in Hx. destruct Hx as [y [<- _]]. apply Qabs_nonneg. }
      destruct (map Qabs ds) as [|j js] eqn:Ej.
      * split; [lra|]. split; [lra|]. intro L. lia.
      * destruct (StatFacts.inv_one_plus_range _ Hm) as [H1 H2].
        split; [exact H1|]. split; [exact H2|]. intro L. lia.
  - intro velocities. unfold calculate_acceleration_pattern.
    destruct (List.length velocities <? 3)%nat eqn:E.
    + apply Nat.ltb_lt in E. split; [reflexivity|lia].
    + apply Nat.ltb_ge in E. split; [lia|intros _].
      pose proof (MouseFeatureFacts.deltas_length velocities) as Hl.
      destruct (deltas velocities) as [|a acc] eqn:Ed; [cbn in Hl; lia|].
      apply StatFacts.inv_one_plus_range, StatFacts.var_nonneg.
  - intros np moves Hnp.
    destruct (Nat.lt_ge_cases (List.length moves) 10) as [Hlt|Hge].
    + assert (Mouse.calculate_movement_rhythm np moves = 0) as E.
      { unfold Mouse.calculate_movement_rhythm. rewrite length_map.
        apply Nat.ltb_lt in Hlt. now rewrite Hlt. }
      rewrite E. split; [split; [lra|discriminate]|reflexivity].
    + split; [|lia].
      rewrite (MouseFacts.rhythm_code np moves Hge).
      set (v := map Mouse.velocity moves).
      destruct (MouseFeatureFacts.sum_unit_terms (Mouse.lag_term np v)
                  (Mouse.lags v)) as [S0 S1].
      { intros lag _. unfold Mouse.lag_term.
        destruct (Mouse.corrcoef np _ _) as [r|] eqn:Er; [|lra].
        specialize (Hnp _ _ _ Er). split; [apply Qabs_nonneg|].
        apply Qabs_case; intro; lra. }
      assert (Py.len (Mouse.lags v) <= 9) as H9.
      { unfold Py.len. rewrite MouseFacts.lags_length.
        assert (Nat.min 10 (List.length v / 2) - 1 <= 9)%nat as Hk by lia.
        generalize dependent (Nat.min 10 (List.length v / 2) - 1)%nat.
        intro k. intros. unfold Qle. simpl. lia. }
      split; [apply Qle_shift_div_l|apply Qle_shift_div_r]; lra.
Qed.

End MouseExtras.

(** ** Sample runs *)

Module SampleRuns.

(** A prediction with a loaded bundle of two detectors that both score
    0 and predict an inlier: both normalise to 0.5, they agree, and the
    variance of the raw scores is 0. *)
Example prediction_with_two_detectors :
  let p := fst (Predict.predict_anomaly Examples.fe_one [] Samples.files7
                  Examples.busy_store 7 1) in
  Predict.anomaly_score p == 0.5
  /\ Predict.confidence p == 1
  /\ Predict.risk_level p = "low_risk"%string
  /\ Predict.message p = None.
Proof.
  vm_compute. repeat split; reflexivity.
Qed.

(** Three clicks, of which one pair is closer than 500 ms. *)
Example double_click_rate_of_three_clicks :
  exists r, MouseFeatures.calculate_double_click_rate Samples.three_clicks
            = Ok r /\ r == 1 # 3.
Proof.
  eexists. split; [vm_compute; reflexivity|vm_compute; reflexivity].
Qed.

(** Training two users on the busy store: user 7 is trained, user 8 has
    no data. *)
Example train_all_two_users :
  let out := fst (PredictOps.train_all_users Examples.fe_one
                    Examples.sk_fitting Examples.no_files Examples.busy_store
                    200 Samples.two_users) in
  PredictOps.n_trained_successfully out = 1%nat
  /\ PredictOps.n_insufficient_data out = 1%nat
  /\ PredictOps.n_training_failed out = 0%nat.
Proof.
  vm_compute. repeat split; reflexivity.
Qed.

End SampleRuns.
